(** * Newsletter metrics collectors: normalisation and reconciliation layer

    A shallow embedding of the decision logic of
    [collectors/beehiiv.py], [collectors/tinyemail.py] and
    [utils/supabase_writer.py]: the paginated date-window searches, the
    AM/PM classifier, the rate calculators and the row built by the
    persistence writer.

    Python values are modelled as the code uses them: integers are [Z],
    floats are IEEE-754 binary64 values ([spec_float] with precision 53 and
    maximal exponent 1024), strings are [string], a missing dictionary key
    is [None] and [dict.get(key, default)] is [dget].  Exceptions are an
    explicit error type; the HTTP layer is an explicit function from the
    requested page to what the request produced. *)

From Stdlib Require Import ZArith Lia Bool List Ascii String.
From Stdlib Require Import Numbers.DecimalString Floats.SpecFloat.
From stdpp Require Import gmap strings.

Import ListNotations.
Local Open Scope Z_scope.

(** ** Exceptions and results *)

Inductive exn : Type :=
  | ZeroDivisionError
  | OverflowError
  | ValueError.

Inductive result (A : Type) : Type :=
  | Ok (a : A)
  | Raise (e : exn).

Arguments Ok {A} a.
Arguments Raise {A} e.

Definition bind {A B : Type} (r : result A) (k : A -> result B) : result B :=
  match r with
  | Ok a => k a
  | Raise e => Raise e
  end.

Notation "'let*' x ':=' r 'in' k" := (bind r (fun x => k))
  (at level 10, x name, r at level 100, k at level 200).

(** [d.get(key, default)] on a key that may be missing. *)
Definition dget {A : Type} (field : option A) (default : A) : A :=
  match field with
  | Some v => v
  | None => default
  end.

(** [for a in l: out.append(f(a))] where [f] may raise: the first
    exception leaves the loop. *)
Fixpoint map_result {A B : Type} (f : A -> result B) (l : list A)
    : result (list B) :=
  match l with
  | [] => Ok []
  | a :: rest =>
      let* b := f a in
      let* bs := map_result f rest in
      Ok (b :: bs)
  end.

(** ** Python numbers *)

Module PyNum.

Definition prec : Z := 53.
Definition emax : Z := 1024.

(** A value held by a metrics dictionary: a Python [int] or [float]. *)
Inductive pynum : Type :=
  | PyInt (z : Z)
  | PyFloat (f : spec_float).

(** The integer [z] as an exact, not yet rounded, binary value. *)
Definition exact_of_Z (z : Z) : spec_float :=
  match z with
  | Z0 => S754_zero false
  | Zpos p => S754_finite false p 0
  | Zneg p => S754_finite true p 0
  end.

(** [float(z)] for an integer in range: the nearest double. *)
Definition float_of_Z (z : Z) : spec_float :=
  binary_normalize prec emax z 0 false.

(** Half-way between the largest double and [2^1024]: the smallest
    magnitude that rounds out of the doubles. *)
Definition overflow_threshold : Z := 2 ^ 1024 - 2 ^ 970.

(** [a / b] on two integers (true division): the correctly rounded
    quotient, [ZeroDivisionError] on a zero divisor and [OverflowError]
    when the quotient rounds out of the doubles. *)
Definition int_truediv (a b : Z) : result spec_float :=
  if b =? 0 then Raise ZeroDivisionError
  else if overflow_threshold * Z.abs b <=? Z.abs a then Raise OverflowError
  else Ok (SFdiv prec emax (exact_of_Z a) (exact_of_Z b)).

(** [x * n] for a float [x] and an integer constant [n]. *)
Definition float_mul_int (x : spec_float) (n : Z) : spec_float :=
  SFmul prec emax x (float_of_Z n).

(** [(a / b) * 100] on two integers. *)
Definition ratio_times_100 (a b : Z) : result pynum :=
  let* q := int_truediv a b in
  Ok (PyFloat (float_mul_int q 100)).

(** [(a / b)] on two integers, as a dictionary value. *)
Definition ratio (a b : Z) : result pynum :=
  let* q := int_truediv a b in
  Ok (PyFloat q).

(** The integer nearest to [m * 2^e * 10^ndigits], ties to even. *)
Definition scaled_half_even (m : positive) (e : Z) (ndigits : Z) : Z :=
  let num := Zpos m * 10 ^ ndigits in
  if 0 <=? e then num * 2 ^ e
  else
    let den := 2 ^ (- e) in
    let q := num / den in
    let r := num mod den in
    match 2 * r ?= den with
    | Lt => q
    | Gt => q + 1
    | Eq => if Z.even q then q else q + 1
    end.

(** [round(x, ndigits)] on a float, for [0 <= ndigits]: the decimal
    with [ndigits] places nearest to the exact value of [x] (ties to
    even), converted back to the nearest double; a value that rounds to
    zero keeps its sign. *)
Definition round_float (x : spec_float) (ndigits : Z) : spec_float :=
  match x with
  | S754_finite s m e =>
      let n := scaled_half_even m e ndigits in
      if n =? 0 then S754_zero s
      else SFdiv prec emax (exact_of_Z (cond_Zopp s n))
                           (exact_of_Z (10 ^ ndigits))
  | _ => x
  end.

(** [round(x, ndigits)]: an [int] rounds to itself when [0 <= ndigits]. *)
Definition round (x : pynum) (ndigits : Z) : pynum :=
  match x with
  | PyInt z => PyInt z
  | PyFloat f => PyFloat (round_float f ndigits)
  end.

(** [float(x)]. *)
Definition to_float (x : pynum) : result spec_float :=
  match x with
  | PyFloat f => Ok f
  | PyInt z =>
      match float_of_Z z with
      | S754_infinity _ => Raise OverflowError
      | f => Ok f
      end
  end.

(** [int(f)] on a float: truncation toward zero. *)
Definition int_of_float (f : spec_float) : result Z :=
  match f with
  | S754_zero _ => Ok 0
  | S754_finite s m e =>
      Ok (cond_Zopp s (if 0 <=? e then Zpos m * 2 ^ e
                       else Zpos m / 2 ^ (- e)))
  | S754_infinity _ => Raise OverflowError
  | S754_nan => Raise ValueError
  end.

(** [a == b] between an integer and a float: exact comparison. *)
Definition int_eq_float (a : Z) (f : spec_float) : bool :=
  match f with
  | S754_zero _ => a =? 0
  | S754_finite s m e =>
      if 0 <=? e then a =? cond_Zopp s (Zpos m * 2 ^ e)
      else a * 2 ^ (- e) =? cond_Zopp s (Zpos m)
  | _ => false
  end.

(** Python's [==] on numbers. *)
Definition eqb (x y : pynum) : bool :=
  match x, y with
  | PyInt a, PyInt b => a =? b
  | PyFloat f, PyFloat g => SFeqb f g
  | PyInt a, PyFloat f => int_eq_float a f
  | PyFloat f, PyInt a => int_eq_float a f
  end.

End PyNum.

(** ** Python strings *)

Module PyStr.

(** [needle in hay] on strings: [needle] occurs as a substring. *)
Fixpoint substr_in (needle hay : string) : bool :=
  String.prefix needle hay ||
  match hay with
  | EmptyString => false
  | String _ rest => substr_in needle rest
  end.

Definition lower_ascii (c : ascii) : ascii :=
  let n := N_of_ascii c in
  if ((65 <=? n) && (n <=? 90))%N then ascii_of_N (n + 32) else c.

(** [s.lower()], on the ASCII letters. *)
Fixpoint lower (s : string) : string :=
  match s with
  | EmptyString => EmptyString
  | String c rest => String (lower_ascii c) (lower rest)
  end.

Definition upper_ascii (c : ascii) : ascii :=
  let n := N_of_ascii c in
  if ((97 <=? n) && (n <=? 122))%N then ascii_of_N (n - 32) else c.

(** [s.upper()], on the ASCII letters. *)
Fixpoint upper (s : string) : string :=
  match s with
  | EmptyString => EmptyString
  | String c rest => String (upper_ascii c) (upper rest)
  end.

(** [s.split(sep)] for a non-empty separator: the pieces between the
    occurrences of [sep], found from the left without overlap.  [skip]
    counts the characters of a matched separator still to pass, and
    [piece] is the piece read so far. *)
Fixpoint split_from (sep : string) (skip : nat) (piece : string)
    (s : string) : list string :=
  match s with
  | EmptyString => [piece]
  | String c rest =>
      match skip with
      | S k => split_from sep k piece rest
      | O =>
          if String.prefix sep s
          then piece :: split_from sep (String.length sep - 1) "" rest
          else split_from sep 0 (piece +:+ String c "") rest
      end
  end.

Definition split (sep s : string) : list string := split_from sep 0 "" s.

(** The line feed. *)
Definition newline : string := String (ascii_of_nat 10) "".

(** White space.  A string holds the UTF-8 encoding of the Python
    text, and the characters that [str.isspace] accepts are encoded on
    one byte (U+0009 to U+000D, U+001C to U+0020), on two bytes (U+0085
    and U+00A0: C2 85, C2 A0) or on three bytes (U+1680: E1 9A 80;
    U+2000 to U+200A, U+2028, U+2029, U+202F: E2 80 80 to 8A, A8, A9, AF;
    U+205F: E2 81 9F; U+3000: E3 80 80). *)
Definition is_space (c : ascii) : bool :=
  let n := N_of_ascii c in
  (((9 <=? n) && (n <=? 13)) || ((28 <=? n) && (n <=? 32)))%N.

Definition is_space2 (a b : ascii) : bool :=
  let x := N_of_ascii a in
  let y := N_of_ascii b in
  ((x =? 194) && ((y =? 133) || (y =? 160)))%N.

Definition is_space3 (a b c : ascii) : bool :=
  let x := N_of_ascii a in
  let y := N_of_ascii b in
  let z := N_of_ascii c in
  (((x =? 225) && (y =? 154) && (z =? 128))
   || ((x =? 226) && (y =? 128)
       && (((128 <=? z) && (z <=? 138)) || (z =? 168) || (z =? 169)
           || (z =? 175)))
   || ((x =? 226) && (y =? 129) && (z =? 159))
   || ((x =? 227) && (y =? 128) && (z =? 128)))%N.

(** The string without the white space at its head.  With [backwards]
    the string is read from its end: the bytes of a character come last
    byte first. *)
Fixpoint lstrip_bytes (backwards : bool) (s : string) : string :=
  match s with
  | EmptyString => EmptyString
  | String a rest =>
      if is_space a then lstrip_bytes backwards rest
      else
        match rest with
        | String b rest2 =>
            if (if backwards then is_space2 b a else is_space2 a b)
            then lstrip_bytes backwards rest2
            else
              match rest2 with
              | String c rest3 =>
                  if (if backwards then is_space3 c b a
                      else is_space3 a b c)
                  then lstrip_bytes backwards rest3
                  else s
              | EmptyString => s
              end
        | EmptyString => s
        end
  end.

(** [s.lstrip()] *)
Definition lstrip (s : string) : string := lstrip_bytes false s.

Definition reverse (s : string) : string :=
  string_of_list_ascii (rev (list_ascii_of_string s)).

(** [s.strip()] *)
Definition strip (s : string) : string :=
  reverse (lstrip_bytes true (reverse (lstrip s))).

(** Decimal digits of a non-negative integer. *)
Definition dec (n : Z) : string :=
  NilZero.string_of_uint (N.to_uint (Z.to_N n)).

(** Decimal digits, zero-padded on the left to two characters. *)
Definition pad2 (n : Z) : string :=
  let s := dec n in
  if (String.length s <? 2)%nat then "0" +:+ s else s.

End PyStr.

(** ** Calendar dates and [strftime] *)

Record date : Type := mkdate { year : Z; month : Z; day : Z }.

Definition date_eqb (a b : date) : bool :=
  (year a =? year b) && (month a =? month b) && (day a =? day b).

Module Strftime.
Import PyStr.

(** ["%Y-%m-%d"]; the year is printed as glibc does, which for the
    four-digit years is the zero-padded form. *)
Definition iso (d : date) : string :=
  dec (year d) +:+ "-" +:+ pad2 (month d) +:+ "-" +:+ pad2 (day d).

(** ["%m.%d.%y"] *)
Definition m_d_y (d : date) : string :=
  pad2 (month d) +:+ "." +:+ pad2 (day d) +:+ "." +:+ pad2 (year d mod 100).

(** ["%m.%d.%Y"] *)
Definition m_d_Y (d : date) : string :=
  pad2 (month d) +:+ "." +:+ pad2 (day d) +:+ "." +:+ dec (year d).

(** ["%-m.%-d.%y"]: month and day without leading zeros. *)
Definition m_d_y_nopad (d : date) : string :=
  dec (month d) +:+ "." +:+ dec (day d) +:+ "." +:+ pad2 (year d mod 100).

(** ["%-m/%-d/%Y"] *)
Definition m_d_Y_slash (d : date) : string :=
  dec (month d) +:+ "/" +:+ dec (day d) +:+ "/" +:+ dec (year d).

End Strftime.

(** ** What an HTTP request produced *)

(** Either the request raised (connection error, timeout), or a response
    came back with a status code; [json = None] is a body on which
    [response.json()] raises. *)
Inductive http_result (A : Type) : Type :=
  | ConnectionError
  | Response (status_code : Z) (json : option A).

Arguments ConnectionError {A}.
Arguments Response {A} status_code json.

(** ** The metrics dictionary emitted by both collectors *)

(** The six local rate variables of a calculator, before rounding. *)
Record rates : Type := mkrates {
  delivery_rate : PyNum.pynum;
  open_rate : PyNum.pynum;
  unique_open_rate : PyNum.pynum;
  ctr : PyNum.pynum;
  uctr : PyNum.pynum;
  unsubscribe_rate : PyNum.pynum
}.

(** [delivery_rate = open_rate = ... = unsubscribe_rate = 0] *)
Definition zero_rates : rates :=
  let z := PyNum.PyInt 0 in mkrates z z z z z z.

Record metric : Type := mkmetric {
  m_Date : string;
  m_Brand : string;
  m_Platform : string;
  m_Campaign_Type : string;
  m_Sends : Z;
  m_Delivered : PyNum.pynum;
  m_Opens : Z;
  m_Open_Rate : PyNum.pynum;
  m_Unique_Opens : Z;
  m_Unique_Open_Rate : PyNum.pynum;
  m_Clicks : Z;
  m_CTR : PyNum.pynum;
  m_Unique_Clicks : Z;
  m_UCTR : PyNum.pynum;
  m_Brand_List_Size : Z;
  m_List_Growth : Z;
  m_Pct_Unsubscribe : PyNum.pynum;
  m_Unsubscribes : Z;
  m_Spam : Z
}.

(** ** Page loops, read without their filters

    Both collectors walk a paginated listing and keep the items that pass
    a filter.  [pages_read] is the walk alone: the items the loop iterates
    over and the value of the page counter when the loop is left, given
    which pages make the loop stop.  It has no access to the target date. *)

Module Paging.

Section Reader.
Context {Item : Type}.

(** The last page number the loop may request. *)
Variable cap : Z.
(** The loop is left at this page. *)
Variable stops : Z -> bool.
(** The items the loop iterates over at this page. *)
Variable items : Z -> list Item.

Fixpoint pages_read (fuel : nat) (page : Z) : list Item * Z :=
  match fuel with
  | O => ([], page)
  | S fuel' =>
      if page <=? cap then
        if stops page then (items page, page)
        else
          let rest := pages_read fuel' (page + 1) in
          (items page ++ fst rest, snd rest)
      else ([], page)
  end.

End Reader.

(** The [n] page numbers from [first] on. *)
Definition pages_from (first : Z) (n : nat) : list Z :=
  map (fun i => first + Z.of_nat i) (seq 0 n).

End Paging.

(** ** The rate of the specification *)

Module RateSpec.
Import PyNum.

(** The six rate entries of a metrics dictionary, in the order
    delivered, open, unique open, CTR, UCTR, unsubscribe. *)
Definition rate_fields (m : metric) : list pynum :=
  [m_Delivered m; m_Open_Rate m; m_Unique_Open_Rate m; m_CTR m;
   m_UCTR m; m_Pct_Unsubscribe m].

(** Follows the specification: [rate = round(numerator / sends * 100, 2)]
    for [sends > 0], with no cap. *)
Definition spec_rate (numerator sends : Z) : result pynum :=
  let* q := int_truediv numerator sends in
  Ok (round (PyFloat (float_mul_int q 100)) 2).

(** The unsubscribe rate as a fraction, to 4 places. *)
Definition spec_unsubscribe_fraction (unsubscribes sends : Z)
    : result pynum :=
  let* q := int_truediv unsubscribes sends in
  Ok (round (PyFloat q) 4).

(** The unsubscribe rate as a percentage, to 4 places. *)
Definition spec_unsubscribe_percent (unsubscribes sends : Z)
    : result pynum :=
  let* q := int_truediv unsubscribes sends in
  Ok (round (PyFloat (float_mul_int q 100)) 4).

(** The quotient [a / b] of two integers when it is in range: the
    double nearest to it. *)
Definition quotient_of (a b : Z) : spec_float :=
  SFdiv prec emax (exact_of_Z a) (exact_of_Z b).

(** [a / b * 100] when the quotient is in range. *)
Definition percent_of (a b : Z) : spec_float :=
  float_mul_int (quotient_of a b) 100.

(** A counter whose quotient by any positive [sends] is a double. *)
Definition in_float_range (n : Z) : Prop :=
  Z.abs n < overflow_threshold.

End RateSpec.

(** ** The tag-driven collector (Beehiiv) *)

Module Beehiiv.
Import PyNum PyStr.

(** The [stats.email] block of a post. *)
Record email_stats : Type := mkstats {
  recipients : option Z;
  delivered : option Z;
  opens : option Z;
  unique_opens : option Z;
  clicks : option Z;
  unique_clicks : option Z;
  unsubscribes : option Z;
  spam_reports : option Z
}.

(** The empty dictionary [{}] that the two [.get(..., {})] fall back to. *)
Definition empty_stats : email_stats :=
  mkstats None None None None None None None None.

(** A raw post; [stats_email] is [None] when ["stats"] or its ["email"]
    entry is missing. *)
Record post : Type := mkpost {
  publish_date : option Z;
  title : option string;
  content_tags : option (list string);
  stats_email : option email_stats
}.

(** The JSON body of one page of the post listing. *)
Record posts_page : Type := mkpage {
  data : option (list post);
  total_pages : option Z
}.

Record publication : Type := mkpub { pub_id : string; pub_name : string }.

(** What [get_posts_for_date] returns. *)
Record search_result : Type := mkresult {
  posts : list post;
  recipients_total : Z
}.

(** [_load_publications]: the catalog by display name, later entries of
    the response overwriting earlier ones; any failure leaves it empty. *)
Definition load_publications
    (resp : http_result (option (list publication)))
    : gmap string publication :=
  match resp with
  | Response 200 (Some body) =>
      fold_left (fun pubs pub => <[pub_name pub := pub]> pubs)
                (dget body []) ∅
  | _ => ∅
  end.

Definition newsletter_variations : list string :=
  ["newsletter"; "news-letter"; "news_letter";
   "daily newsletter"; "daily-newsletter"; "daily_newsletter"]%string.

(** [is_newsletter_post] *)
Definition is_newsletter_post (content_tags : list string) : bool :=
  match content_tags with
  | [] => false
  | _ =>
      existsb (fun tag =>
                 existsb (fun variation => substr_in variation tag)
                         newsletter_variations)
              (map lower content_tags)
  end.

Definition max_pages : Z := 50.

Definition no_tag_brands : list string :=
  ["News Flash"; "News Stand"]%string.

(** [brand_name not in no_tag_brands] *)
Definition use_tag_filter (brand_name : string) : bool :=
  negb (existsb (String.eqb brand_name) no_tag_brands).

(** Truthiness of [post.get("publish_date")]. *)
Definition has_publish_date (p : post) : bool :=
  match publish_date p with
  | Some ts => negb (ts =? 0)
  | None => false
  end.

(** The accumulators of the page loop. *)
Record accum : Type := mkaccum {
  newsletter_posts : list post;
  total_recipients : Z
}.

Definition post_recipients (p : post) : Z :=
  dget (recipients (dget (stats_email p) empty_stats)) 0.

(** The six numerators of the rates of a post, missing keys read as 0:
    delivered, opens, unique opens, clicks, unique clicks, unsubscribes. *)
Definition numerators (p : post) : list Z :=
  let e := dget (stats_email p) empty_stats in
  [dget (delivered e) 0; dget (opens e) 0; dget (unique_opens e) 0;
   dget (clicks e) 0; dget (unique_clicks e) 0; dget (unsubscribes e) 0].

(** [total_recipients += recipients] and, with full data, the append. *)
Definition collect_post (get_full_data : bool) (p : post) (acc : accum)
    : accum :=
  {| newsletter_posts :=
       if get_full_data then newsletter_posts acc ++ [p]
       else newsletter_posts acc;
     total_recipients := total_recipients acc + post_recipients p |}.


(** The accumulators after collecting the posts of [ps] in order. *)
Definition collect_all (get_full_data : bool) (ps : list post)
    (acc : accum) : accum :=
  fold_left (fun a p => collect_post get_full_data p a) ps acc.

(** The sum of the recipient counts of [ps]. *)
Definition sum_recipients (ps : list post) : Z :=
  fold_right (fun p total => post_recipients p + total) 0 ps.

Section Search.

(** [datetime.fromtimestamp] in the local time zone of the process; it
    raises on a timestamp it cannot convert. *)
Variable fromtimestamp : Z -> result date.

(** The body of [for post in posts], for one post. *)
Definition scan_post (tag_filter get_full_data : bool)
    (target_date : date) (p : post) (acc : accum) : result accum :=
  if negb (has_publish_date p) then Ok acc
  else
    let* post_date := fromtimestamp (dget (publish_date p) 0) in
    if date_eqb post_date target_date then
      if substr_in "Dedicated CPM" (dget (title p) "") then Ok acc
      else if tag_filter then
        if is_newsletter_post (dget (content_tags p) [])
        then Ok (collect_post get_full_data p acc)
        else Ok acc
      else Ok (collect_post get_full_data p acc)
    else Ok acc.

(** [for post in posts]: an exception leaves the accumulators as the
    earlier posts of the page set them. *)
Fixpoint scan_posts (tag_filter get_full_data : bool)
    (target_date : date) (ps : list post) (acc : accum)
    : accum * option exn :=
  match ps with
  | [] => (acc, None)
  | p :: rest =>
      match scan_post tag_filter get_full_data target_date p acc with
      | Ok acc' =>
          scan_posts tag_filter get_full_data target_date rest acc'
      | Raise e => (acc, Some e)
      end
  end.

(** [while page <= max_pages]: the accumulators and the value of
    [page] when the loop is left. *)
Fixpoint search_pages (session_get : Z -> http_result posts_page)
    (tag_filter get_full_data : bool) (target_date : date)
    (fuel : nat) (page : Z) (acc : accum) : accum * Z :=
  match fuel with
  | O => (acc, page)
  | S fuel' =>
      if page <=? max_pages then
        match session_get page with
        | ConnectionError => (acc, page)
        | Response status_code body =>
            if negb (status_code =? 200) then (acc, page)
            else
              match body with
              | None => (acc, page)
              | Some body =>
                  match dget (data body) [] with
                  | [] => (acc, page)
                  | ps =>
                      match scan_posts tag_filter get_full_data
                                       target_date ps acc with
                      | (acc', Some _) => (acc', page)
                      | (acc', None) =>
                          if page >=? dget (total_pages body) 1
                          then (acc', page)
                          else search_pages session_get tag_filter
                                 get_full_data target_date fuel'
                                 (page + 1) acc'
                      end
                  end
              end
        end
      else (acc, page)
  end.

(** The loop of [get_posts_for_date] from [page = 1] with empty
    accumulators. *)
Definition run_search (session_get : Z -> http_result posts_page)
    (brand_name : string) (target_date : date) (get_full_data : bool)
    : accum * Z :=
  search_pages session_get (use_tag_filter brand_name) get_full_data
               target_date (Z.to_nat max_pages) 1 (mkaccum [] 0).

(** [get_posts_for_date]; [session_get] maps a publication id and a
    page number to what the request for that page produced. *)
Definition get_posts_for_date
    (publications : gmap string publication)
    (session_get : string -> Z -> http_result posts_page)
    (brand_name : string) (target_date : date) (get_full_data : bool)
    : search_result :=
  match publications !! brand_name with
  | None => mkresult [] 0
  | Some pub =>
      let acc := fst (run_search (session_get (pub_id pub)) brand_name
                                 target_date get_full_data) in
      mkresult (newsletter_posts acc) (total_recipients acc)
  end.

(** *** The loop read through [Paging] *)

(** Scanning the post raises nothing. *)
Definition scannable (p : post) : bool :=
  negb (has_publish_date p) ||
  match fromtimestamp (dget (publish_date p) 0) with
  | Ok _ => true
  | Raise _ => false
  end.

(** The posts of a page up to the first one that raises. *)
Fixpoint scanned (ps : list post) : list post :=
  match ps with
  | [] => []
  | p :: rest => if scannable p then p :: scanned rest else []
  end.

(** A scanned post is collected: it has a publish date, that date is
    the target date, the title has no ["Dedicated CPM"], and under the
    tag filter a tag names a newsletter. *)
Definition selected (tag_filter : bool) (target_date : date) (p : post)
    : bool :=
  has_publish_date p &&
  match fromtimestamp (dget (publish_date p) 0) with
  | Ok post_date =>
      date_eqb post_date target_date
      && negb (substr_in "Dedicated CPM" (dget (title p) ""))
      && (negb tag_filter
          || is_newsletter_post (dget (content_tags p) []))
  | Raise _ => false
  end.

(** The posts of a page that came back with status 200 and a body. *)
Definition page_posts (r : http_result posts_page) : list post :=
  match r with
  | Response status_code (Some body) =>
      if status_code =? 200 then dget (data body) [] else []
  | _ => []
  end.

(** The posts of a page that the loop iterates over. *)
Definition page_scanned (r : http_result posts_page) : list post :=
  scanned (page_posts r).

(** The request failed: it raised, the status is not 200, or the body
    does not decode. *)
Definition failed (r : http_result posts_page) : bool :=
  match r with
  | ConnectionError => true
  | Response status_code body =>
      negb (status_code =? 200) ||
      match body with None => true | Some _ => false end
  end.

(** Every way the loop is left at [page] before the cap: a failed
    request, a page of zero posts, a post that raises, or
    [page >= total_pages]. *)
Definition stops (r : http_result posts_page) (page : Z) : bool :=
  failed r ||
  match r with
  | Response _ (Some body) =>
      match dget (data body) [] with
      | [] => true
      | ps =>
          negb (forallb scannable ps)
          || (page >=? dget (total_pages body) 1)
      end
  | _ => true
  end.

(** The stop conditions of the specification, at [page]: the cap is
    exceeded, the page signals the last page, the page has zero posts,
    or the status is a client error (4xx). *)
Definition listed_stop (r : http_result posts_page) (page : Z) : bool :=
  (max_pages <? page) ||
  match r with
  | ConnectionError => false
  | Response status_code body =>
      if status_code =? 200 then
        match body with
        | Some body =>
            match dget (data body) [] with
            | [] => true
            | _ => page >=? dget (total_pages body) 1
            end
        | None => false
        end
      else (400 <=? status_code) && (status_code <? 500)
  end.

(** [post_date] of [extract_metrics]; [now] is what [datetime.now()]
    reads. *)
Definition post_date_of (now : date) (p : post) : result date :=
  if has_publish_date p then fromtimestamp (dget (publish_date p) 0)
  else Ok now.

(** The rates of [extract_metrics], all on [sends]. *)
Definition compute_rates
    (sends delivered opens unique_opens clicks unique_clicks
     unsubscribes : Z) : result rates :=
  if sends >? 0 then
    let* delivery_rate := ratio_times_100 delivered sends in
    let* open_rate := ratio_times_100 opens sends in
    let* unique_open_rate := ratio_times_100 unique_opens sends in
    let* ctr := ratio_times_100 clicks sends in
    let* uctr := ratio_times_100 unique_clicks sends in
    let* unsubscribe_rate := ratio unsubscribes sends in
    Ok (mkrates delivery_rate open_rate unique_open_rate ctr uctr
                unsubscribe_rate)
  else Ok zero_rates.

(** [extract_metrics] *)
Definition extract_metrics (now : date) (p : post) (brand_name : string)
    (previous_day_recipients : Z) : result metric :=
  let* post_date := post_date_of now p in
  let email_stats := dget (stats_email p) empty_stats in
  let sends := dget (recipients email_stats) 0 in
  let delivered := dget (delivered email_stats) 0 in
  let opens := dget (opens email_stats) 0 in
  let unique_opens := dget (unique_opens email_stats) 0 in
  let clicks := dget (clicks email_stats) 0 in
  let unique_clicks := dget (unique_clicks email_stats) 0 in
  let unsubscribes := dget (unsubscribes email_stats) 0 in
  let spam := dget (spam_reports email_stats) 0 in
  let* r := compute_rates sends delivered opens unique_opens clicks
                          unique_clicks unsubscribes in
  let list_growth := sends - previous_day_recipients in
  Ok {| m_Date := Strftime.iso post_date;
        m_Brand := brand_name;
        m_Platform := "Beehiiv";
        m_Campaign_Type := "Newsletter";
        m_Sends := sends;
        m_Delivered := round (delivery_rate r) 2;
        m_Opens := opens;
        m_Open_Rate := round (open_rate r) 2;
        m_Unique_Opens := unique_opens;
        m_Unique_Open_Rate := round (unique_open_rate r) 2;
        m_Clicks := clicks;
        m_CTR := round (ctr r) 2;
        m_Unique_Clicks := unique_clicks;
        m_UCTR := round (uctr r) 2;
        m_Brand_List_Size := sends;
        m_List_Growth := list_growth;
        m_Pct_Unsubscribe := round (unsubscribe_rate r) 4;
        m_Unsubscribes := unsubscribes;
        m_Spam := spam |}.

(** The body of [collect] for one brand of a group: the search of the
    day before for the recipient count, the search of the target day with
    full data, and the metrics of each post.  The two searches are given
    what their own requests produced. *)
Definition collect_brand (now : date)
    (publications : gmap string publication)
    (get_before get_yesterday : string -> Z -> http_result posts_page)
    (brand_name : string) (yesterday day_before_yesterday : date)
    : result (list metric) :=
  let day_before_data :=
    get_posts_for_date publications get_before brand_name
                       day_before_yesterday false in
  let previous_recipients := recipients_total day_before_data in
  let yesterday_data :=
    get_posts_for_date publications get_yesterday brand_name yesterday
                       true in
  map_result
    (fun post => extract_metrics now post brand_name previous_recipients)
    (posts yesterday_data).

End Search.

End Beehiiv.

(** ** The name-pattern collector (TinyEmail) *)

Module TinyEmail.
Import PyNum PyStr.

(** A raw campaign item; [name] is [campaign["campaign"]["name"]]. *)
Record campaign : Type := mkcampaign {
  name : option string;
  status : option string;
  sent : option Z;
  delivered : option Z;
  totalOpen : option Z;
  open : option Z;
  totalClicked : option Z;
  clicked : option Z;
  unsubscribed : option Z;
  spam : option Z
}.

(** The ["campaigns"] entry of one page of the listing; both fields are
    [None] when the entry itself is missing. *)
Record campaigns_page : Type := mkpage {
  content : option (list campaign);
  last : option bool
}.

Definition campaign_name (c : campaign) : string := dget (name c) "".
Definition campaign_status (c : campaign) : string := dget (status c) "".
Definition campaign_sends (c : campaign) : Z := dget (sent c) 0.

(** The six numerators of the rates of a campaign, missing keys read as
    0: delivered, total opens, unique opens, total clicks, unique clicks,
    unsubscribes. *)
Definition numerators (c : campaign) : list Z :=
  [dget (delivered c) 0; dget (totalOpen c) 0; dget (open c) 0;
   dget (totalClicked c) 0; dget (clicked c) 0; dget (unsubscribed c) 0].

(** The date strings looked for in a campaign name. *)
Definition date_formats (target_date : date) : list string :=
  [Strftime.m_d_y target_date;
   Strftime.m_d_Y target_date;
   Strftime.m_d_y_nopad target_date;
   Strftime.iso target_date].

(** [any(date_fmt in name for date_fmt in date_formats)] *)
Definition matches_date (target_date : date) (c : campaign) : bool :=
  existsb (fun date_fmt => substr_in date_fmt (campaign_name c))
          (date_formats target_date).

Definition page_limit : Z := 20.

(** [while page < 20]: the campaigns found and the value of [page]
    when the loop is left. *)
Fixpoint fetch_pages (requests_get : Z -> http_result campaigns_page)
    (target_date : date) (fuel : nat) (page : Z)
    (found_campaigns : list campaign) : list campaign * Z :=
  match fuel with
  | O => (found_campaigns, page)
  | S fuel' =>
      if page <? page_limit then
        match requests_get page with
        | ConnectionError => (found_campaigns, page)
        | Response status_code body =>
            if status_code =? 200 then
              match body with
              | None => (found_campaigns, page)
              | Some campaigns_data =>
                  let found :=
                    found_campaigns ++
                    List.filter (matches_date target_date)
                                (dget (content campaigns_data) []) in
                  if dget (last campaigns_data) true then (found, page)
                  else fetch_pages requests_get target_date fuel'
                                   (page + 1) found
              end
            else (found_campaigns, page)
        end
      else (found_campaigns, page)
  end.

Definition run_search (requests_get : Z -> http_result campaigns_page)
    (target_date : date) : list campaign * Z :=
  fetch_pages requests_get target_date (Z.to_nat page_limit) 0 [].

(** [get_campaigns_for_date] *)
Definition get_campaigns_for_date
    (requests_get : Z -> http_result campaigns_page) (target_date : date)
    : list campaign :=
  fst (run_search requests_get target_date).

(** [status == "COMPLETED" and sends > 100] *)
Definition has_volume (c : campaign) : bool :=
  String.eqb (campaign_status c) "COMPLETED" && (campaign_sends c >? 100).

(** [is_pm] of [get_previous_sends]. *)
Definition is_pm (name : string) : bool :=
  substr_in "Daily Digest PM" name ||
  substr_in "Dedicated CPM" name ||
  (substr_in " PM " name && substr_in "Daily Digest" name
     && negb (substr_in "CPM" name)) ||
  substr_in " PM-" name ||
  substr_in "_PM" name.

(** [previous_sends[segment] += sends], creating the entry at 0. *)
Definition add_sends (segment : string) (sends : Z)
    (previous_sends : gmap string Z) : gmap string Z :=
  <[segment := dget (previous_sends !! segment) 0 + sends]> previous_sends.

(** [get_previous_sends] *)
Definition get_previous_sends (campaigns : list campaign)
    : gmap string Z :=
  fold_left
    (fun previous_sends c =>
       if has_volume c then
         let segment := if is_pm (campaign_name c) then "PM" else "AM" in
         add_sends segment (campaign_sends c) previous_sends
       else previous_sends)
    campaigns ∅.

(** [is_daily_digest_pm] of [separate_all_campaigns]. *)
Definition is_daily_digest_pm (name : string) : bool :=
  substr_in "Daily Digest PM" name ||
  (substr_in " PM " name && substr_in "Daily Digest" name
     && negb (substr_in "CPM" name)).

(** [is_dedicated_cpm] of [separate_all_campaigns]. *)
Definition is_dedicated_cpm (name : string) : bool :=
  substr_in "Dedicated CPM" name ||
  (substr_in "CPM" name && negb (substr_in "Daily Digest" name)).

(** [separate_all_campaigns]: the AM list and the PM list. *)
Definition separate_all_campaigns (campaigns : list campaign)
    : list campaign * list campaign :=
  fold_left
    (fun '(am_campaigns, pm_campaigns) c =>
       if negb (String.eqb (campaign_status c) "COMPLETED")
          || (campaign_sends c <=? 100)
       then (am_campaigns, pm_campaigns)
       else if is_daily_digest_pm (campaign_name c)
               || is_dedicated_cpm (campaign_name c)
       then (am_campaigns, pm_campaigns ++ [c])
       else if substr_in "Daily Digest" (campaign_name c)
       then (am_campaigns ++ [c], pm_campaigns)
       else (am_campaigns, pm_campaigns))
    campaigns ([], []).

(** The rates of [create_metric], all on [sends]. *)
Definition compute_rates
    (sends delivered total_opens unique_opens total_clicks unique_clicks
     unsubscribes : Z) : result rates :=
  if sends >? 0 then
    let* delivery_rate := ratio_times_100 delivered sends in
    let* open_rate := ratio_times_100 total_opens sends in
    let* unique_open_rate := ratio_times_100 unique_opens sends in
    let* ctr := ratio_times_100 total_clicks sends in
    let* uctr := ratio_times_100 unique_clicks sends in
    let* unsubscribe_rate := ratio_times_100 unsubscribes sends in
    Ok (mkrates delivery_rate open_rate unique_open_rate ctr uctr
                unsubscribe_rate)
  else Ok zero_rates.

(** [create_metric] *)
Definition create_metric (c : campaign) (brand_name : string)
    (target_date : date) (segment : string) (list_growth : Z)
    : result metric :=
  let sends := dget (sent c) 0 in
  let delivered := dget (delivered c) 0 in
  let total_opens := dget (totalOpen c) 0 in
  let unique_opens := dget (open c) 0 in
  let total_clicks := dget (totalClicked c) 0 in
  let unique_clicks := dget (clicked c) 0 in
  let unsubscribes := dget (unsubscribed c) 0 in
  let spam := dget (spam c) 0 in
  let* r := compute_rates sends delivered total_opens unique_opens
                          total_clicks unique_clicks unsubscribes in
  Ok {| m_Date := Strftime.iso target_date;
        m_Brand := brand_name;
        m_Platform := "TinyEmail";
        m_Campaign_Type :=
          if existsb (String.eqb segment) ["AM"; "PM"]%string
          then segment else "Newsletter";
        m_Sends := sends;
        m_Delivered := round (delivery_rate r) 2;
        m_Opens := total_opens;
        m_Open_Rate := round (open_rate r) 2;
        m_Unique_Opens := unique_opens;
        m_Unique_Open_Rate := round (unique_open_rate r) 2;
        m_Clicks := total_clicks;
        m_CTR := round (ctr r) 2;
        m_Unique_Clicks := unique_clicks;
        m_UCTR := round (uctr r) 2;
        m_Brand_List_Size := sends;
        m_List_Growth := list_growth;
        m_Pct_Unsubscribe := round (unsubscribe_rate r) 4;
        m_Unsubscribes := unsubscribes;
        m_Spam := spam |}.

(** [process_campaign] *)
Definition process_campaign (brand_names : gmap string string)
    (c : campaign) (api_brand segment : string) (target_date : date)
    (prev_sends : Z) : result metric :=
  let sends := dget (sent c) 0 in
  let display_brand := dget (brand_names !! api_brand) api_brand in
  let brand_with_segment := display_brand +:+ " " +:+ segment in
  let list_growth := sends - prev_sends in
  create_metric c brand_with_segment target_date segment list_growth.

(** The body of [collect] for one API key: the search of the target day,
    the search of the day before for the baseline, the separation, and the
    metrics of the AM campaigns followed by those of the PM campaigns.
    The two searches are given what their own requests produced. *)
Definition collect_key (brand_names : gmap string string)
    (get_yesterday get_before : Z -> http_result campaigns_page)
    (api_brand : string) (yesterday day_before : date)
    : result (list metric) :=
  let yesterday_campaigns :=
    get_campaigns_for_date get_yesterday yesterday in
  let previous_campaigns := get_campaigns_for_date get_before day_before in
  let previous_sends := get_previous_sends previous_campaigns in
  let '(am_campaigns, pm_campaigns) :=
    separate_all_campaigns yesterday_campaigns in
  let* am_metrics :=
    map_result
      (fun c => process_campaign brand_names c api_brand "AM" yesterday
                                 (dget (previous_sends !! "AM") 0))
      am_campaigns in
  let* pm_metrics :=
    map_result
      (fun c => process_campaign brand_names c api_brand "PM" yesterday
                                 (dget (previous_sends !! "PM") 0))
      pm_campaigns in
  Ok (am_metrics ++ pm_metrics).

(** *** The loop read through [Paging] *)

(** The campaigns of a page that came back with status 200 and a
    body. *)
Definition page_content (r : http_result campaigns_page)
    : list campaign :=
  match r with
  | Response status_code (Some campaigns_data) =>
      if status_code =? 200 then dget (content campaigns_data) [] else []
  | _ => []
  end.

(** The request failed: it raised, the status is not 200, or the body
    does not decode. *)
Definition failed (r : http_result campaigns_page) : bool :=
  match r with
  | ConnectionError => true
  | Response status_code body =>
      negb (status_code =? 200) ||
      match body with None => true | Some _ => false end
  end.

(** Every way the loop is left before the cap: a failed request or a
    page flagged (or defaulting to) [last]. *)
Definition stops (r : http_result campaigns_page) : bool :=
  failed r ||
  match r with
  | Response _ (Some campaigns_data) => dget (last campaigns_data) true
  | _ => true
  end.

(** The stop conditions of the specification, at [page]: the cap is
    reached, the page signals the last page, the page has zero items, or
    the status is a client error (4xx). *)
Definition listed_stop (r : http_result campaigns_page) (page : Z)
    : bool :=
  (page_limit <=? page) ||
  match r with
  | ConnectionError => false
  | Response status_code body =>
      if status_code =? 200 then
        match body with
        | Some campaigns_data =>
            dget (last campaigns_data) true ||
            match dget (content campaigns_data) [] with
            | [] => true
            | _ => false
            end
        | None => false
        end
      else (400 <=? status_code) && (status_code <? 500)
  end.

(** *** The classifier read as two filters *)

(** The campaign lands in the PM list of [separate_all_campaigns]. *)
Definition goes_pm (c : campaign) : bool :=
  has_volume c &&
  (is_daily_digest_pm (campaign_name c)
   || is_dedicated_cpm (campaign_name c)).

(** The campaign lands in the AM list of [separate_all_campaigns]. *)
Definition goes_am (c : campaign) : bool :=
  has_volume c &&
  negb (is_daily_digest_pm (campaign_name c)
        || is_dedicated_cpm (campaign_name c)) &&
  substr_in "Daily Digest" (campaign_name c).

(** The segment [get_previous_sends] books a campaign under. *)
Definition baseline_segment (c : campaign) : string :=
  if is_pm (campaign_name c) then "PM" else "AM".

(** The sends of the campaigns with volume booked under [segment]. *)
Definition baseline (segment : string) (campaigns : list campaign) : Z :=
  fold_right
    (fun c total =>
       if has_volume c && String.eqb (baseline_segment c) segment
       then campaign_sends c + total else total)
    0 campaigns.

(** A name carries one of the five PM markers of the specification. *)
Definition has_pm_marker (name : string) : bool :=
  substr_in "Daily Digest PM" name
  || substr_in "Dedicated CPM" name
  || (substr_in " PM " name && substr_in "Daily Digest" name
      && negb (substr_in "CPM" name))
  || substr_in " PM-" name
  || substr_in "_PM" name.

End TinyEmail.

(** ** The persistence writer (Supabase) *)

Module SupabaseWriter.
Import PyNum.

(** The [data] dictionary that [write_metrics] upserts. *)
Record row : Type := mkrow {
  col_date : string;
  col_brand : string;
  col_platform : string;
  col_campaign_type : option string;
  col_sends : Z;
  col_delivered : Z;
  col_opens : Z;
  col_open_rate : spec_float;
  col_unique_opens : Z;
  col_unique_open_rate : spec_float;
  col_clicks : Z;
  col_ctr : spec_float;
  col_unique_clicks : Z;
  col_uctr : spec_float;
  col_brand_list_size : Z;
  col_list_growth : Z;
  col_unsubscribes : Z;
  col_unsubscribe_rate : spec_float;
  col_spam_reports : Z;
  col_created_at : string;
  col_updated_at : string
}.

(** The transformation of a record into [data]; the two time stamps are
    what the two [datetime.now().isoformat()] calls read. *)
Definition transform (created_at updated_at : string) (record : metric)
    : result row :=
  let* delivered_float := to_float (m_Delivered record) in
  let* delivered := int_of_float delivered_float in
  let* open_rate := to_float (m_Open_Rate record) in
  let* unique_open_rate := to_float (m_Unique_Open_Rate record) in
  let* ctr := to_float (m_CTR record) in
  let* uctr := to_float (m_UCTR record) in
  let* unsubscribe_rate := to_float (m_Pct_Unsubscribe record) in
  Ok {| col_date := m_Date record;
        col_brand := m_Brand record;
        col_platform := m_Platform record;
        col_campaign_type := Some (m_Campaign_Type record);
        col_sends := m_Sends record;
        col_delivered := delivered;
        col_opens := m_Opens record;
        col_open_rate := open_rate;
        col_unique_opens := m_Unique_Opens record;
        col_unique_open_rate := unique_open_rate;
        col_clicks := m_Clicks record;
        col_ctr := ctr;
        col_unique_clicks := m_Unique_Clicks record;
        col_uctr := uctr;
        col_brand_list_size := m_Brand_List_Size record;
        col_list_growth := m_List_Growth record;
        col_unsubscribes := m_Unsubscribes record;
        col_unsubscribe_rate := unsubscribe_rate;
        col_spam_reports := m_Spam record;
        col_created_at := created_at;
        col_updated_at := updated_at |}.

(** A rate as the calculators emit it: a float, or the integer 0. *)
Definition rate_value (x : pynum) : Prop :=
  match x with
  | PyFloat _ => True
  | PyInt z => z = 0
  end.

(** The six local rates of a calculator are such values. *)
Definition rates_are_values (r : rates) : Prop :=
  rate_value (delivery_rate r) /\ rate_value (open_rate r)
  /\ rate_value (unique_open_rate r) /\ rate_value (ctr r)
  /\ rate_value (uctr r) /\ rate_value (unsubscribe_rate r).

(** A rate that is a finite number. *)
Definition finite_rate (x : pynum) : Prop :=
  match x with
  | PyFloat (S754_zero _) | PyFloat (S754_finite _ _ _) => True
  | PyFloat _ => False
  | PyInt z => z = 0
  end.

(** The column [f] holds the value the record carries in [x]: the same
    float, or a float equal to the integer. *)
Definition same_value (x : pynum) (f : spec_float) : Prop :=
  match x with
  | PyFloat g => f = g
  | PyInt z => int_eq_float z f = true
  end.

(** [k] is the float [f] truncated toward zero: with the sign of [f]
    removed, [k <= |f| < k + 1]. *)
Definition is_truncation (f : spec_float) (k : Z) : Prop :=
  match f with
  | S754_zero _ => k = 0
  | S754_finite s m e =>
      let a := cond_Zopp s k in
      0 <= a
      /\ (if 0 <=? e then a = Zpos m * 2 ^ e
          else a * 2 ^ (- e) <= Zpos m < (a + 1) * 2 ^ (- e))
  | _ => False
  end.

(** The table, keyed by the conflict target [date,brand,campaign_type]. *)
Definition table_key (r : row) : string * string * option string :=
  (col_date r, col_brand r, col_campaign_type r).

(** The table type of the store. *)
Definition table : Type := gmap (string * string * option string) row.

(** What the request [upsert(...).execute()] did: the store took the row
    and the call returned; the store refused it (or was not reached) and
    the call raised; or the store took the row and the call raised all
    the same, the answer being lost. *)
Inductive upsert : Type :=
  | Stored
  | Refused
  | StoredThenRaised.

(** [write_metrics]: transform, then upsert on the key.  The result is
    the table after the call and whether the call returned [True];
    [false] stands for the exception that the call raises when the
    transformation or the request raises (it never returns [False]). *)
Definition write_metrics (store : table) (request : upsert)
    (created_at updated_at : string) (record : metric) : table * bool :=
  match transform created_at updated_at record with
  | Ok data =>
      match request with
      | Stored => (<[table_key data := data]> store, true)
      | StoredThenRaised => (<[table_key data := data]> store, false)
      | Refused => (store, false)
      end
  | Raise _ => (store, false)
  end.

(** [write_batch]: the loop over the records, each written with the two
    readings of the clock its own [write_metrics] call makes; [clock i]
    is the pair read for the record at position [i] and [requests i] what
    its request did.  A record whose write raises is counted and
    skipped. *)
Fixpoint write_batch_from (clock : nat -> string * string)
    (requests : nat -> upsert) (i : nat) (store : table)
    (records : list metric) (success failed : Z) : table * (Z * Z) :=
  match records with
  | [] => (store, (success, failed))
  | record :: rest =>
      match write_metrics store (requests i) (fst (clock i))
                          (snd (clock i)) record with
      | (store', true) =>
          write_batch_from clock requests (S i) store' rest (success + 1)
                           failed
      | (store', false) =>
          write_batch_from clock requests (S i) store' rest success
                           (failed + 1)
      end
  end.

(** [write_batch]: the store after the loop and
    [(success_count, failure_count)]. *)
Definition write_batch (clock : nat -> string * string)
    (requests : nat -> upsert) (store : table) (records : list metric)
    : table * (Z * Z) :=
  write_batch_from clock requests 0 store records 0 0.

(** The row a record is written as, when its transformation succeeds. *)
Definition row_of (clock : nat -> string * string) (i : nat)
    (record : metric) : option row :=
  match transform (fst (clock i)) (snd (clock i)) record with
  | Ok data => Some data
  | Raise _ => None
  end.

(** The row that the write at position [i] leaves in the store, if
    any. *)
Definition written (clock : nat -> string * string)
    (requests : nat -> upsert) (i : nat) (record : metric) : option row :=
  match requests i with
  | Refused => None
  | _ => row_of clock i record
  end.

(** The write at position [i] returns: the record is transformed and the
    request goes through. *)
Definition returns (clock : nat -> string * string)
    (requests : nat -> upsert) (i : nat) (record : metric) : bool :=
  match requests i, row_of clock i record with
  | Stored, Some _ => true
  | _, _ => false
  end.

(** The records with their positions, counted from [i]. *)
Definition numbered (i : nat) (records : list metric)
    : list (nat * metric) :=
  combine (seq i (length records)) records.

(** The conflict target of a record: the three columns copied from it. *)
Definition record_key (record : metric) : string * string * option string :=
  (m_Date record, m_Brand record, Some (m_Campaign_Type record)).

End SupabaseWriter.

(** ** A concrete clock: the process runs in UTC *)

Module Utc.

(** The proleptic Gregorian date of a day number counted from
    1970-01-01. *)
Definition civil_from_days (days : Z) : date :=
  let z := days + 719468 in
  let era := z / 146097 in
  let doe := z - era * 146097 in
  let yoe := (doe - doe / 1460 + doe / 36524 - doe / 146096) / 365 in
  let doy := doe - (365 * yoe + yoe / 4 - yoe / 100) in
  let mp := (5 * doy + 2) / 153 in
  let d := doy - (153 * mp + 2) / 5 + 1 in
  let m := if mp <? 10 then mp + 3 else mp - 9 in
  let y := yoe + era * 400 + (if m <=? 2 then 1 else 0) in
  mkdate y m d.

(** [datetime.fromtimestamp] when the local zone is UTC; a year outside
    1..9999 raises. *)
Definition fromtimestamp (ts : Z) : result date :=
  let d := civil_from_days (ts / 86400) in
  if (1 <=? year d) && (year d <=? 9999) then Ok d
  else Raise ValueError.

End Utc.

(** ** Calendar days *)

Module Calendar.

(** A [datetime] at midnight is held as its number of days since
    1970-01-01; [datetime.min] and [datetime.max] fall on these days. *)
Definition min_day : Z := -719162.
Definition max_day : Z := 2932896.

(** The day number of a proleptic Gregorian date. *)
Definition days_from_civil (d : date) : Z :=
  let y := if month d <=? 2 then year d - 1 else year d in
  let era := y / 400 in
  let yoe := y - era * 400 in
  let mp := if month d >? 2 then month d - 3 else month d + 9 in
  let doy := (153 * mp + 2) / 5 + day d - 1 in
  let doe := yoe * 365 + yoe / 4 - yoe / 100 + doy in
  era * 146097 + doe - 719468.

(** [weekday()]: Monday is 0; 1970-01-01 was a Thursday. *)
Definition weekday (days : Z) : Z := (days + 3) mod 7.

(** [current + timedelta(days=1)], which raises past [datetime.max]. *)
Definition add_day (days : Z) : result Z :=
  if days + 1 <=? max_day then Ok (days + 1) else Raise OverflowError.

(** [strftime("%Y-%m-%d")] of a day. *)
Definition iso (days : Z) : string :=
  Strftime.iso (Utc.civil_from_days days).

End Calendar.

(** ** The entry point (collector_main) *)

Module CollectorMain.

(** [TINYEMAIL_CONFIG['BRAND_NAMES']] *)
Definition BRAND_NAMES : gmap string string :=
  <["AC" := "American Conservative"]>
    (<["CD" := "Conservatives Daily"]>
       (<["WR" := "Worldly Reports"]>
          (<["PW" := "Patriots Wire"]> ∅))).

(** The keys of [TINYEMAIL_CONFIG['API_KEYS']], in order. *)
Definition API_KEYS : list string := ["AC"; "CD"; "WR"; "PW"]%string.

(** The [brands] of the two groups of [BEEHIIV_CONFIG], in order. *)
Definition BEEHIIV_GROUPS : list (string * list string) :=
  [("group1", ["Americans Daily Digest"; "Republicans Report"]);
   ("group2", ["Keeping Up With America"; "News Stand"; "News Flash"])
  ]%string.

(** [write_to_supabase]: the loop over the collected records with its
    own counters, once the client of the writer is created; the line
    printed after a write reads three keys of the record and raises
    nothing on a record of a collector. *)
Fixpoint write_to_supabase_from (clock : nat -> string * string)
    (requests : nat -> SupabaseWriter.upsert) (i : nat)
    (store : SupabaseWriter.table) (data : list metric)
    (success_count fail_count : Z) : SupabaseWriter.table * (Z * Z) :=
  match data with
  | [] => (store, (success_count, fail_count))
  | record :: rest =>
      match SupabaseWriter.write_metrics store (requests i) (fst (clock i))
              (snd (clock i)) record with
      | (store', true) =>
          write_to_supabase_from clock requests (S i) store' rest
                                 (success_count + 1) fail_count
      | (store', false) =>
          write_to_supabase_from clock requests (S i) store' rest
                                 success_count (fail_count + 1)
      end
  end.

Definition write_to_supabase (clock : nat -> string * string)
    (requests : nat -> SupabaseWriter.upsert)
    (store : SupabaseWriter.table) (data : list metric)
    : SupabaseWriter.table * (Z * Z) :=
  write_to_supabase_from clock requests 0 store data 0 0.

(** Truthiness of a string or [None]. *)
Definition given (s : option string) : bool :=
  match s with
  | Some v => negb (String.eqb v "")
  | None => false
  end.

Section Environment.

(** [os.getenv] *)
Variable getenv : string -> option string.

Definition SUPABASE_URL : option string := getenv "SUPABASE_URL".
Definition SUPABASE_KEY : option string := getenv "SUPABASE_KEY".

(** [TINYEMAIL_CONFIG['API_KEYS']], in order. *)
Definition TINYEMAIL_API_KEYS : list (string * option string) :=
  [("AC", getenv "TINYEMAIL_API_KEY_AC");
   ("CD", getenv "TINYEMAIL_API_KEY_CD");
   ("WR", getenv "TINYEMAIL_API_KEY_WR");
   ("PW", getenv "TINYEMAIL_API_KEY_PW")]%string.

(** [BEEHIIV_CONFIG[group]['api_key']] *)
Definition BEEHIIV_API_KEYS : gmap string (option string) :=
  <["group1" := getenv "BEEHIIV_API_KEY_GROUP1"]>
    (<["group2" := getenv "BEEHIIV_API_KEY_GROUP2"]> ∅).

(** [tiny_mapping] of [validate_config]. *)
Definition tiny_mapping : gmap string string :=
  <["AC" := "TINYEMAIL_API_KEY_AC"]>
    (<["CD" := "TINYEMAIL_API_KEY_CD"]>
       (<["WR" := "TINYEMAIL_API_KEY_WR"]>
          (<["PW" := "TINYEMAIL_API_KEY_PW"]> ∅))).

(** [validate_config]: the list [missing]; the process exits with
    code 1 when it is not empty. *)
Definition validate_config : list string :=
  let missing := [] in
  let missing :=
    if negb (given SUPABASE_URL) then missing ++ ["SUPABASE_URL"]
    else missing in
  let missing :=
    if negb (given SUPABASE_KEY) then missing ++ ["SUPABASE_KEY"]
    else missing in
  let missing :=
    fold_left
      (fun missing '(brand_code, api_key) =>
         if negb (given api_key)
         then missing ++ [dget (tiny_mapping !! brand_code) ""]
         else missing)
      TINYEMAIL_API_KEYS missing in
  fold_left
    (fun missing group =>
       if negb (given (dget (BEEHIIV_API_KEYS !! group) None))
       then missing ++ ["BEEHIIV_API_KEY_" +:+ PyStr.upper group]
       else missing)
    ["group1"; "group2"]%string missing.

(** The variables that the configuration reads, in the order in which
    [validate_config] checks them. *)
Definition required_variables : list string :=
  ["SUPABASE_URL"; "SUPABASE_KEY"; "TINYEMAIL_API_KEY_AC";
   "TINYEMAIL_API_KEY_CD"; "TINYEMAIL_API_KEY_WR"; "TINYEMAIL_API_KEY_PW";
   "BEEHIIV_API_KEY_GROUP1"; "BEEHIIV_API_KEY_GROUP2"]%string.

End Environment.

(** The parsed command line of [main]. *)
Record arguments : Type := mkargs {
  date : option string;
  start_date : option string;
  end_date : option string;
  validate_only : bool
}.

Section Dates.

(** [datetime.strptime(s, "%Y-%m-%d")]: the day, or [ValueError]. *)
Variable strptime : string -> result Z.

(** [while current <= end]: the dates appended, each turn ending with
    [current += timedelta(days=1)]. *)
Fixpoint date_range (fuel : nat) (current end_ : Z)
    (dates_to_collect : list string) : result (list string) :=
  match fuel with
  | O => Ok dates_to_collect
  | S fuel' =>
      if current <=? end_ then
        let dates_to_collect := dates_to_collect ++ [Calendar.iso current] in
        let* next := Calendar.add_day current in
        date_range fuel' next end_ dates_to_collect
      else Ok dates_to_collect
  end.

(** The dates that [main] collects; [yesterday] is the day before the
    clock's day in the form "YYYY-MM-DD". *)
Definition dates_to_collect (args : arguments) (yesterday : string)
    : result (list string) :=
  if given (start_date args) && given (end_date args) then
    let* start := strptime (dget (start_date args) "") in
    let* end_ := strptime (dget (end_date args) "") in
    date_range (Z.to_nat (end_ - start + 1)) start end_ []
  else if given (date args) then Ok [dget (date args) ""]
  else Ok [yesterday].

End Dates.

End CollectorMain.

(** ** The exporter (daily_export) *)

Module DailyExport.
Import PyNum PyStr.

Definition BEEHIIV_BRANDS : list string :=
  ["Keeping Up With America"; "Americans Daily Digest";
   "Republicans Report"; "News Stand"; "News Flash"]%string.

Definition TINYEMAIL_BRANDS : list string :=
  ["American Conservative AM"; "American Conservative PM";
   "Conservatives Daily AM"; "Conservatives Daily PM";
   "Worldly Reports AM"; "Worldly Reports PM";
   "Patriots Wire AM"; "Patriots Wire PM"]%string.

Definition HEADERS : list string :=
  ["Date"; "Brands"; "Sends"; "Delivered"; "Opens"; "Open Rate";
   "Unique Opens"; "Unique Open Rate"; "Clicks"; "CTR";
   "Unique Clicks"; "UCTR"; "Brand List Size"; "List Growth";
   "% Unsuscribe"; "Unsuscribe"; "Spam"]%string.

(** What a record of the table holds under a key: nothing, a null, or
    a value. *)
Inductive entry (A : Type) : Type :=
  | Absent
  | Null
  | Present (a : A).

Arguments Absent {A}.
Arguments Null {A}.
Arguments Present {A} a.

(** [record.get(key, default)]; [None] is Python's [None]. *)
Definition get {A : Type} (e : entry A) (default : A) : option A :=
  match e with
  | Absent => Some default
  | Null => None
  | Present a => Some a
  end.

(** A record of [newsletter_metrics] as the query returns it. *)
Record record : Type := mkrecord {
  r_date : string;
  r_brand : string;
  r_sends : entry Z;
  r_delivered : entry pynum;
  r_opens : entry Z;
  r_open_rate : entry pynum;
  r_unique_opens : entry Z;
  r_unique_open_rate : entry pynum;
  r_clicks : entry Z;
  r_ctr : entry pynum;
  r_unique_clicks : entry Z;
  r_uctr : entry pynum;
  r_brand_list_size : entry Z;
  r_list_growth : entry Z;
  r_unsubscribe_rate : entry pynum;
  r_unsubscribes : entry Z;
  r_spam_reports : entry Z
}.

(** A cell of a CSV row: a string, or an integer copied from a record. *)
Inductive cell : Type :=
  | Text (s : string)
  | Number (z : Z).

(** Truthiness of an integer or [None]. *)
Definition truthy (v : option Z) : bool :=
  match v with
  | Some z => negb (z =? 0)
  | None => false
  end.

(** Commas between groups of three digits, on the digits in reverse. *)
Fixpoint commas_rev (digits : list ascii) : list ascii :=
  match digits with
  | a :: b :: c :: ((_ :: _) as rest) =>
      a :: b :: c :: ","%char :: commas_rev rest
  | _ => digits
  end.

(** [f"{value:,}"], and [f"{value:+,}"] when [plus]. *)
Definition format_int (plus : bool) (value : Z) : string :=
  (if value <? 0 then "-" else if plus then "+" else "")
  +:+ string_of_list_ascii
        (rev (commas_rev (rev (list_ascii_of_string (dec (Z.abs value)))))).

(** [digits] padded with zeros on the left to [width] characters. *)
Definition zero_pad (width : nat) (digits : string) : string :=
  string_of_list_ascii (repeat "0"%char (width - String.length digits))
  +:+ digits.

(** The decimal with [places] places of a non-negative integer counted
    in units of [10^-places]. *)
Definition fixed_digits (n : Z) (places : nat) : string :=
  let unit := 10 ^ Z.of_nat places in
  match places with
  | O => dec n
  | _ => dec (n / unit) +:+ "." +:+ zero_pad places (dec (n mod unit))
  end.

(** [f"{x:.{places}f}"] on a float: the decimal with [places] places
    nearest to the exact value, ties to even. *)
Definition format_float (x : spec_float) (places : nat) : string :=
  match x with
  | S754_nan => "nan"
  | S754_infinity s => if s then "-inf" else "inf"
  | S754_zero s => (if s then "-" else "") +:+ fixed_digits 0 places
  | S754_finite s m e =>
      (if s then "-" else "")
      +:+ fixed_digits (scaled_half_even m e (Z.of_nat places)) places
  end.

(** [f"{value:.{places}f}"] on a number; an integer is converted to a
    float first. *)
Definition format_fixed (value : pynum) (places : nat) : result string :=
  let* x := to_float value in
  Ok (format_float x places).

(** [format_number] *)
Definition format_number (value : option Z) (show_sign : bool) : string :=
  match value with
  | None => ""
  | Some v =>
      if show_sign && negb (v =? 0) then format_int true v
      else format_int false v
  end.

(** [format_percentage] *)
Definition format_percentage (value : option pynum) (decimal_places : nat)
    : result string :=
  match value with
  | None => Ok ""
  | Some v =>
      if eqb v (PyInt 0) then Ok ""
      else
        let* digits := format_fixed v decimal_places in
        Ok (digits +:+ "%")
  end.

(** [format_decimal] *)
Definition format_decimal (value : option pynum) (decimal_places : nat)
    : result string :=
  match value with
  | None => Ok ""
  | Some v =>
      if eqb v (PyInt 0) then Ok ""
      else format_fixed v decimal_places
  end.

(** [[""] * n] *)
Definition blanks (n : nat) : list cell := repeat (Text "") n.

(** The grouping loop: [data_by_date[date][brand] = record]. *)
Definition group_by_date (data : list record)
    : gmap string (gmap string record) :=
  fold_left
    (fun data_by_date record =>
       let date := r_date record in
       let data_by_date :=
         match data_by_date !! date with
         | None => <[date := ∅]> data_by_date
         | Some _ => data_by_date
         end in
       <[date := <[r_brand record := record]>
                   (dget (data_by_date !! date) ∅)]> data_by_date)
    data ∅.

(** [record.get(key, "") if record.get(key) else ""] *)
Definition count_cell (e : entry Z) : cell :=
  match e with
  | Present z => if negb (z =? 0) then Number z else Text ""
  | _ => Text ""
  end.

(** The row of a brand with a record, on a week day. *)
Definition full_row (display_date : string) (i : nat) (brand : string)
    (record : record) : result (list cell) :=
  let list_growth := get (r_list_growth record) 0 in
  let* delivered := format_percentage (get (r_delivered record) (PyInt 0)) 2 in
  let* open_rate := format_percentage (get (r_open_rate record) (PyInt 0)) 2 in
  let* unique_open_rate :=
    format_percentage (get (r_unique_open_rate record) (PyInt 0)) 2 in
  let* ctr := format_percentage (get (r_ctr record) (PyInt 0)) 2 in
  let* uctr := format_percentage (get (r_uctr record) (PyInt 0)) 2 in
  let* unsubscribe_rate :=
    format_decimal (get (r_unsubscribe_rate record) (PyInt 0)) 4 in
  Ok [Text (if (i =? 0)%nat then display_date else "");
      Text brand;
      Text (format_number (get (r_sends record) 0) false);
      Text delivered;
      Text (format_number (get (r_opens record) 0) false);
      Text open_rate;
      Text (format_number (get (r_unique_opens record) 0) false);
      Text unique_open_rate;
      Text (format_number (get (r_clicks record) 0) false);
      Text ctr;
      Text (format_number (get (r_unique_clicks record) 0) false);
      Text uctr;
      Text (format_number (get (r_brand_list_size record) 0) false);
      Text (if truthy list_growth then format_number list_growth true
            else "0");
      Text unsubscribe_rate;
      count_cell (r_unsubscribes record);
      count_cell (r_spam_reports record)].

(** The row of a brand on a weekend day or without a record. *)
Definition short_row (display_date : string) (i : nat) (brand : string)
    (record : option record) (is_weekend : bool) : list cell :=
  let sends :=
    match record with
    | Some r => get (r_sends r) 0
    | None => Some 0
    end in
  [Text (if (i =? 0)%nat then display_date else "");
   Text brand;
   Text (if truthy sends then format_number sends false else "")]
  ++ blanks 9
  ++ [Text (if truthy sends then format_number sends false else "");
      Text (if is_weekend then "0" else "")]
  ++ blanks 3.

(** [for i, brand in enumerate(brands)], from index [i]. *)
Fixpoint brand_rows (display_date : string) (is_weekend : bool)
    (date_data : gmap string record) (i : nat) (brands : list string)
    : result (list (list cell)) :=
  match brands with
  | [] => Ok []
  | brand :: rest =>
      let record := date_data !! brand in
      let* row :=
        match record with
        | Some r =>
            if negb is_weekend then full_row display_date i brand r
            else Ok (short_row display_date i brand record is_weekend)
        | None => Ok (short_row display_date i brand record is_weekend)
        end in
      let* rows := brand_rows display_date is_weekend date_data (S i) rest in
      Ok (row :: rows)
  end.


(** The last record of the data with this date and this brand. *)
Definition latest (data : list record) (date brand : string)
    : option record :=
  List.find
    (fun r => String.eqb (r_date r) date && String.eqb (r_brand r) brand)
    (rev data).

Section Sheet.

(** [datetime.strptime(s, "%Y-%m-%d")]: the day, or [ValueError]. *)
Variable strptime : string -> result Z.

(** [is_weekend] *)
Definition is_weekend (date_str : string) : result bool :=
  let* date := strptime date_str in
  Ok (Calendar.weekday date >=? 5).

(** [format_date_display] *)
Definition format_date_display (date_str : string) : result string :=
  let* date := strptime date_str in
  Ok (Strftime.m_d_Y_slash (Utc.civil_from_days date)).

(** The rows of one day: the date row and a row per brand. *)
Definition day_rows (data_by_date : gmap string (gmap string record))
    (brands : list string) (current : Z) : result (list (list cell)) :=
  let date_str := Calendar.iso current in
  let* display_date := format_date_display date_str in
  let* is_weekend := is_weekend date_str in
  let date_data := dget (data_by_date !! date_str) ∅ in
  let* rows := brand_rows display_date is_weekend date_data 0 brands in
  Ok ((Text display_date :: blanks 16) :: rows).

(** [while current <= end]: one turn per day, each ending with
    [current += timedelta(days=1)]. *)
Fixpoint date_rows (fuel : nat) (current end_ : Z)
    (data_by_date : gmap string (gmap string record))
    (brands : list string) (rows : list (list cell))
    : result (list (list cell)) :=
  match fuel with
  | O => Ok rows
  | S fuel' =>
      if current <=? end_ then
        let* day := day_rows data_by_date brands current in
        let* next := Calendar.add_day current in
        date_rows fuel' next end_ data_by_date brands (rows ++ day)
      else Ok rows
  end.

(** The three rows above the days. *)
Definition header_rows (platform : string) : list (list cell) :=
  [blanks 17;
   [Text ""; Text ""; Text (upper platform)] ++ blanks 14;
   map Text HEADERS].

(** [generate_platform_csv] *)
Definition generate_platform_csv (data : list record)
    (start_date end_date platform : string) (brands : list string)
    : result (list (list cell)) :=
  let rows := header_rows platform in
  let data_by_date := group_by_date data in
  let* current := strptime start_date in
  let* end_ := strptime end_date in
  date_rows (Z.to_nat (end_ - current + 1)) current end_ data_by_date
            brands rows.


End Sheet.

End DailyExport.

(** ** The daily run (daily_automation) *)

Module DailyAutomation.
Import PyStr.

(** What [subprocess.run] returned. *)
Record completed_process : Type := mkprocess {
  returncode : Z;
  stdout : string;
  stderr : string
}.

(** What running a command produced: a finished process, the timeout,
    or another exception. *)
Inductive outcome : Type :=
  | Completed (result : completed_process)
  | TimeoutExpired
  | OtherException.

(** The parsed command line; [email] already holds the [REPORT_EMAIL]
    default. *)
Record arguments : Type := mkargs {
  date : option string;
  email : option string;
  no_email : bool;
  export_only : bool
}.

(** Truthiness of a string or [None]. *)
Definition given (s : option string) : bool :=
  match s with
  | Some v => negb (String.eqb v "")
  | None => false
  end.


Definition export_command (executable target_date : string)
    (email : option string) : list string :=
  [executable; "daily_export.py"; "--date"; target_date]
  ++ (if given email then ["--email"; dget email ""] else []).

(** The first line with the marker, cut after the marker and
    stripped. *)
Fixpoint exported_path (lines : list string) : option string :=
  match lines with
  | [] => None
  | line :: rest =>
      if substr_in "Exported to:" line
      then Some (strip (nth 1 (split "Exported to:" line) ""))
      else exported_path rest
  end.

Section Run.

(** [sys.executable], and what running a command produces. *)
Variable executable : string.
Variable run : list string -> outcome.


(** [run_export] *)
Definition run_export (target_date : string) (email : option string)
    : option string :=
  match run (export_command executable target_date email) with
  | Completed result =>
      if returncode result =? 0
      then exported_path (split newline (stdout result))
      else None
  | _ => None
  end.



End Run.

End DailyAutomation.

(** ** Sample data *)

Module Samples.

Definition target : date := mkdate 2025 10 15.
Definition day_before : date := mkdate 2025 10 14.

(** 2025-10-15 12:00:00 UTC. *)
Definition ts_target : Z := 1760529600.
(** 2025-10-13 12:00:00 UTC. *)
Definition ts_other : Z := 1760356800.

Definition stats_of (recipients delivered opens : Z)
    : option Beehiiv.email_stats :=
  Some (Beehiiv.mkstats (Some recipients) (Some delivered) (Some opens)
          (Some (opens / 2)) (Some 40) (Some 30) (Some 5) (Some 1)).

Definition post_newsletter : Beehiiv.post :=
  Beehiiv.mkpost (Some ts_target) (Some "Morning Brief")
    (Some ["Daily-Newsletter"]) (stats_of 5000 4900 2000).


Definition post_cpm : Beehiiv.post :=
  Beehiiv.mkpost (Some ts_target) (Some "Dedicated CPM 10.15.25")
    (Some ["newsletter"]) (stats_of 8000 7900 3000).

Definition post_old : Beehiiv.post :=
  Beehiiv.mkpost (Some ts_other) (Some "Earlier Brief")
    (Some ["newsletter"]) (stats_of 4000 3900 1500).

Definition post_undated : Beehiiv.post :=
  Beehiiv.mkpost None (Some "Draft") (Some ["newsletter"])
    (stats_of 777 0 0).

(** Delivered to 4532 of 5000 recipients: 90.64 percent. *)
Definition post_delivered : Beehiiv.post :=
  Beehiiv.mkpost (Some ts_target) (Some "Morning Brief")
    (Some ["newsletter"]) (stats_of 5000 4532 2000).

(** Opened three times per recipient. *)
Definition post_reopened : Beehiiv.post :=
  Beehiiv.mkpost (Some ts_target) (Some "Morning Brief")
    (Some ["newsletter"]) (stats_of 100 100 300).

Definition post_unsent : Beehiiv.post :=
  Beehiiv.mkpost (Some ts_target) (Some "Morning Brief")
    (Some ["newsletter"]) (stats_of 0 0 0).

Definition catalog : gmap string Beehiiv.publication :=
  Beehiiv.load_publications
    (Response 200
       (Some (Some [Beehiiv.mkpub "pub_1" "Daily Brief";
                    Beehiiv.mkpub "pub_2" "News Flash"]))).

Definition ok_page (ps : list Beehiiv.post) (total_pages : Z)
    : http_result Beehiiv.posts_page :=
  Response 200 (Some (Beehiiv.mkpage (Some ps) (Some total_pages))).

(** Page 1 holds another day only; the target day is on page 2. *)
Definition api_two_pages (pub_id : string) (page : Z)
    : http_result Beehiiv.posts_page :=
  if page =? 1 then ok_page [post_old] 2
  else if page =? 2 then ok_page [post_newsletter; post_undated] 2
  else Response 404 None.

(** Page 1 answers 500; the target day is on page 2. *)
Definition api_error_first (pub_id : string) (page : Z)
    : http_result Beehiiv.posts_page :=
  if page =? 1 then Response 500 None
  else ok_page [post_newsletter] 2.

(** Page 1 is fine, page 2 answers 503. *)
Definition api_error_second (pub_id : string) (page : Z)
    : http_result Beehiiv.posts_page :=
  if page =? 1 then ok_page [post_newsletter; post_old] 3
  else if page =? 2 then Response 503 None
  else ok_page [post_newsletter] 3.


Definition api_cpm (pub_id : string) (page : Z)
    : http_result Beehiiv.posts_page :=
  ok_page [post_cpm; post_newsletter] 1.

Definition campaign_of (name : string) (status : string) (sent : Z)
    : TinyEmail.campaign :=
  TinyEmail.mkcampaign (Some name) (Some status) (Some sent)
    (Some (sent - 20)) (Some 900) (Some 700) (Some 120) (Some 100)
    (Some 5) (Some 0).

Definition digest_pm : TinyEmail.campaign :=
  campaign_of "Daily Digest PM 10.15.25" "COMPLETED" 5000.

Definition digest_am : TinyEmail.campaign :=
  campaign_of "Daily Digest 10.15.25" "COMPLETED" 6000.

Definition welcome : TinyEmail.campaign :=
  campaign_of "Welcome Series 10.15.25" "COMPLETED" 3000.

Definition digest_underscore_pm : TinyEmail.campaign :=
  campaign_of "Daily Digest_PM 10.15.25" "COMPLETED" 5000.

Definition digest_test_send : TinyEmail.campaign :=
  campaign_of "Daily Digest 10.15.25 TEST" "COMPLETED" 50.

Definition digest_old : TinyEmail.campaign :=
  campaign_of "Daily Digest 10.13.25" "COMPLETED" 6100.

(** 900 opens on 300 sends. *)
Definition digest_reopened : TinyEmail.campaign :=
  campaign_of "Daily Digest 10.15.25" "COMPLETED" 300.

Definition digest_unsent : TinyEmail.campaign :=
  campaign_of "Daily Digest 10.15.25" "COMPLETED" 0.

Definition ok_campaigns (cs : list TinyEmail.campaign) (last : bool)
    : http_result TinyEmail.campaigns_page :=
  Response 200 (Some (TinyEmail.mkpage (Some cs) (Some last))).

(** Page 0 holds another day only; the target day is on page 1. *)
Definition tiny_two_pages (page : Z)
    : http_result TinyEmail.campaigns_page :=
  if page =? 0 then ok_campaigns [digest_old] false
  else ok_campaigns [digest_am; digest_pm] true.

Definition digest_day_before : TinyEmail.campaign :=
  campaign_of "Daily Digest 10.14.25" "COMPLETED" 6100.

(** The listing as the search of the day before sees it. *)
Definition tiny_day_before (page : Z)
    : http_result TinyEmail.campaigns_page :=
  ok_campaigns [digest_am; digest_day_before] true.

(** Page 0 answers 500; the target day is on page 1. *)
Definition tiny_error_first (page : Z)
    : http_result TinyEmail.campaigns_page :=
  if page =? 0 then Response 500 None
  else ok_campaigns [digest_am] true.

(** Page 0 is fine, the request for page 1 raises. *)
Definition tiny_error_second (page : Z)
    : http_result TinyEmail.campaigns_page :=
  if page =? 0 then ok_campaigns [digest_am; digest_old] false
  else ConnectionError.

(** 2025-10-14 12:00:00 UTC. *)
Definition ts_day_before : Z := 1760443200.

Definition post_day_before : Beehiiv.post :=
  Beehiiv.mkpost (Some ts_day_before) (Some "Morning Brief")
    (Some ["newsletter"]) (stats_of 4800 4700 1900).

(** One page with the target day and the day before. *)
Definition api_two_days (pub_id : string) (page : Z)
    : http_result Beehiiv.posts_page :=
  ok_page [post_newsletter; post_day_before] 1.

(** A sponsored mail: "CPM" without "Daily Digest" or "Dedicated". *)
Definition sponsor_cpm : TinyEmail.campaign :=
  campaign_of "Sponsor CPM 10.15.25" "COMPLETED" 7000.

Definition dedicated_cpm : TinyEmail.campaign :=
  campaign_of "Dedicated CPM 10.15.25" "COMPLETED" 8000.

(** A day with two PM campaigns and no AM campaign. *)
Definition tiny_two_pm (page : Z)
    : http_result TinyEmail.campaigns_page :=
  ok_campaigns [digest_pm; dedicated_cpm] true.

(** Two posts of one brand on the target day. *)
Definition post_evening : Beehiiv.post :=
  Beehiiv.mkpost (Some ts_target) (Some "Evening Brief")
    (Some ["newsletter"]) (stats_of 5200 5100 2100).

Definition api_two_posts (pub_id : string) (page : Z)
    : http_result Beehiiv.posts_page :=
  ok_page [post_newsletter; post_evening] 1.

(** Every request goes through. *)
Definition all_stored (i : nat) : SupabaseWriter.upsert :=
  SupabaseWriter.Stored.

(** The store refuses the second request. *)
Definition second_refused (i : nat) : SupabaseWriter.upsert :=
  if Nat.eqb i 1 then SupabaseWriter.Refused else SupabaseWriter.Stored.

(** A clock that stands still. *)
Definition clock (i : nat) : string * string :=
  ("2025-10-16T06:00:00", "2025-10-16T06:00:00").

(** No page ever signals the last one; the target day first shows
    on the page after the cap. *)
Definition api_endless (pub_id : string) (page : Z)
    : http_result Beehiiv.posts_page :=
  if page <=? Beehiiv.max_pages then ok_page [post_old] 60
  else ok_page [post_newsletter] 60.

Definition tiny_endless (page : Z)
    : http_result TinyEmail.campaigns_page :=
  if page <? TinyEmail.page_limit then ok_campaigns [digest_old] false
  else ok_campaigns [digest_am] false.

(** 2025-01-05 and a campaign of 2025-11-05 named without padding. *)
Definition january_fifth : date := mkdate 2025 1 5.

Definition digest_november : TinyEmail.campaign :=
  campaign_of "Daily Digest 11.5.25" "COMPLETED" 6000.

(** A decimal digit. *)
Definition digit (c : ascii) : option Z :=
  let n := N_of_ascii c in
  if ((48 <=? n) && (n <=? 57))%N then Some (Z.of_N n - 48) else None.

(** A parser of the zero-padded form ["YYYY-MM-DD"]. *)
Definition parse_iso (s : string) : result Z :=
  match list_ascii_of_string s with
  | [y1; y2; y3; y4; "-"%char; m1; m2; "-"%char; d1; d2] =>
      match digit y1, digit y2, digit y3, digit y4,
            digit m1, digit m2, digit d1, digit d2 with
      | Some a, Some b, Some c, Some d, Some e, Some f, Some g, Some h =>
          let y := 1000 * a + 100 * b + 10 * c + d in
          let m := 10 * e + f in
          let dd := 10 * g + h in
          if (1 <=? y) && (1 <=? m) && (m <=? 12) && (1 <=? dd)
             && (dd <=? 31)
          then Ok (Calendar.days_from_civil (mkdate y m dd))
          else Raise ValueError
      | _, _, _, _, _, _, _, _ => Raise ValueError
      end
  | _ => Raise ValueError
  end.

(** 2025-10-17 was a Friday, 2025-10-18 a Saturday. *)
Definition friday : Z := 20378.
Definition saturday : Z := 20379.

Definition stored (date brand : string) (sends delivered : Z)
    (open_rate : spec_float) : DailyExport.record :=
  DailyExport.mkrecord date brand (DailyExport.Present sends)
    (DailyExport.Present (PyNum.PyInt delivered))
    (DailyExport.Present 2000)
    (DailyExport.Present (PyNum.PyFloat open_rate))
    (DailyExport.Present 1000) DailyExport.Null
    (DailyExport.Present 40) DailyExport.Absent
    (DailyExport.Present 30)
    (DailyExport.Present (PyNum.PyInt 0))
    (DailyExport.Present sends) (DailyExport.Present (-120))
    (DailyExport.Present (PyNum.PyFloat (PyNum.float_of_Z 0)))
    (DailyExport.Present 5) (DailyExport.Present 0).

(** 40.0 as a double. *)
Definition forty : spec_float := PyNum.float_of_Z 40.

Definition stored_friday : DailyExport.record :=
  stored "2025-10-17" "News Flash" 5000 90 forty.


(** A brand that the exporter does not list. *)
Definition stored_unlisted : DailyExport.record :=
  stored "2025-10-17" "Daily Brief" 7000 95 forty.

(** An earlier record for the same day and brand as [stored_friday]. *)
Definition stored_earlier : DailyExport.record :=
  stored "2025-10-17" "News Flash" 4000 80 forty.

(** What the export prints when it also sends the report. *)
Definition export_output : string :=
  "Exporting newsletter data from 2025-10-15 to 2025-10-15..."
  +:+ PyStr.newline +:+ "Fetching TinyEmail data..."
  +:+ PyStr.newline +:+ "Exported to: exports/newsletter_2025-10-15.csv"
  +:+ PyStr.newline +:+ "Email sent successfully to ops@example.com"
  +:+ PyStr.newline.

(** Every command ends with code 0; the output is that of the
    export. *)
Definition run_ok (cmd : list string) : DailyAutomation.outcome :=
  DailyAutomation.Completed (DailyAutomation.mkprocess 0 export_output "").

(** "exports/n.csv" between U+00A0 (C2 A0) and U+2003 (E2 80 83). *)
Definition wrapped_path : string :=
  String (ascii_of_nat 194) (String (ascii_of_nat 160) "exports/n.csv")
  +:+ String (ascii_of_nat 226)
        (String (ascii_of_nat 128) (String (ascii_of_nat 131) "")).

(** An export that prints the wrapped path and nothing else. *)
Definition run_wrapped (cmd : list string) : DailyAutomation.outcome :=
  DailyAutomation.Completed
    (DailyAutomation.mkprocess 0 ("Exported to: " +:+ wrapped_path) "").


End Samples.

(** * Facts *)

(** ** Page walks *)

Module PagingFacts.
Import Paging.

Lemma pages_from_succ (first : Z) (n : nat) :
  pages_from first (S n) = first :: pages_from (first + 1) n.
Proof.
  unfold pages_from. simpl. f_equal; [lia|].
  rewrite <- seq_shift, map_map. apply map_ext. intros i. lia.
Qed.

Lemma in_pages_from (first : Z) (n : nat) (q : Z) :
  In q (pages_from first n) <-> first <= q < first + Z.of_nat n.
Proof.
  unfold pages_from. rewrite in_map_iff. split.
  - intros (i & <- & Hi). apply in_seq in Hi. lia.
  - intros Hq. exists (Z.to_nat (q - first)). split; [lia|].
    apply in_seq. lia.
Qed.

Section Reader.
Context {Item : Type}.
Variable cap : Z.
Variable stops : Z -> bool.
Variable items : Z -> list Item.

Local Abbreviation walk := (pages_read cap stops items).

(** The counter never goes back. *)
Lemma final_page_ge (fuel : nat) (page : Z) :
  page <= snd (walk fuel page).
Proof.
  revert page. induction fuel as [|fuel IH]; intros page; simpl; [lia|].
  destruct (page <=? cap); [|simpl; lia].
  destruct (stops page); simpl; [lia|].
  specialize (IH (page + 1)). lia.
Qed.

(** The counter never passes the page after the cap. *)
Lemma final_page_le (fuel : nat) (page : Z) :
  page <= cap + 1 -> snd (walk fuel page) <= cap + 1.
Proof.
  revert page. induction fuel as [|fuel IH]; intros page Hp; simpl;
    [lia|].
  destruct (page <=? cap) eqn:Hc; [|simpl; lia].
  destruct (stops page); simpl; [lia|].
  apply IH. lia.
Qed.

(** With enough fuel the loop is left past the cap or at a page that
    stops it. *)
Lemma final_page_reason (fuel : nat) (page : Z) :
  cap + 1 - page <= Z.of_nat fuel ->
  cap < snd (walk fuel page) \/ stops (snd (walk fuel page)) = true.
Proof.
  revert page. induction fuel as [|fuel IH]; intros page Hf; simpl.
  - left. lia.
  - destruct (page <=? cap) eqn:Hc; [|simpl; left; lia].
    destruct (stops page) eqn:Hs; simpl; [now right|].
    apply IH. lia.
Qed.

(** No page before the final one stops the loop, and each is within
    the cap. *)
Lemma before_final_page (fuel : nat) (page q : Z) :
  page <= q < snd (walk fuel page) ->
  stops q = false /\ q <= cap.
Proof.
  revert page. induction fuel as [|fuel IH]; intros page; simpl; [lia|].
  destruct (page <=? cap) eqn:Hc; [|simpl; lia].
  destruct (stops page) eqn:Hs; simpl; [lia|].
  intros Hq. destruct (Z.eq_dec q page) as [->|Hne].
  - split; [assumption|lia].
  - apply (IH (page + 1)). lia.
Qed.

(** The items of every page up to the final one were iterated over. *)
Lemma items_read (fuel : nat) (page q : Z) (x : Item) :
  cap + 1 - page <= Z.of_nat fuel ->
  page <= q <= snd (walk fuel page) -> q <= cap ->
  In x (items q) -> In x (fst (walk fuel page)).
Proof.
  revert page. induction fuel as [|fuel IH]; intros page Hf; simpl.
  - lia.
  - destruct (page <=? cap) eqn:Hc; [|simpl; lia].
    destruct (stops page) eqn:Hs; simpl.
    + intros Hq _ Hx. now replace page with q by lia.
    + intros Hq Hcap Hx. apply in_or_app.
      destruct (Z.eq_dec q page) as [->|Hne]; [now left|right].
      apply IH; [lia|lia|assumption|assumption].
Qed.

(** Only items of those pages were iterated over. *)
Lemma read_items (fuel : nat) (page : Z) (x : Item) :
  In x (fst (walk fuel page)) ->
  exists q, page <= q <= snd (walk fuel page) /\ q <= cap
            /\ In x (items q).
Proof.
  revert page. induction fuel as [|fuel IH]; intros page; simpl;
    [contradiction|].
  destruct (page <=? cap) eqn:Hc; [|simpl; contradiction].
  destruct (stops page) eqn:Hs; simpl.
  - intros Hx. exists page. repeat split; [lia|lia|lia|assumption].
  - intros Hx. apply in_app_or in Hx. destruct Hx as [Hx|Hx].
    + exists page. pose proof (final_page_ge fuel (page + 1)).
      repeat split; [lia|lia|lia|assumption].
    + destruct (IH _ Hx) as (q & Hq & Hqc & Hin).
      exists q. repeat split; [lia|lia|assumption|assumption].
Qed.

(** When the first page that stops the loop is [k], the walk is the
    pages before [k] followed by what was iterated over at [k]. *)
Lemma walk_until (fuel : nat) (page k : Z) :
  page <= k <= cap ->
  k + 1 - page <= Z.of_nat fuel ->
  (forall q, page <= q < k -> stops q = false) ->
  stops k = true ->
  walk fuel page =
    (flat_map items (pages_from page (Z.to_nat (k - page))) ++ items k,
     k).
Proof.
  revert page. induction fuel as [|fuel IH]; intros page Hk Hf Hbefore Hs.
  - lia.
  - simpl. replace (page <=? cap) with true by lia.
    destruct (Z.eq_dec page k) as [->|Hne].
    + rewrite Hs. now replace (k - k) with 0 by lia.
    + rewrite (Hbefore page) by lia.
      rewrite (IH (page + 1)); [|lia|lia|intros; apply Hbefore; lia|easy].
      simpl. f_equal.
      replace (Z.to_nat (k - page)) with (S (Z.to_nat (k - (page + 1))))
        by lia.
      rewrite pages_from_succ. simpl. now rewrite app_assoc.
Qed.

(** When no page within the cap stops the loop, the walk is every page
    up to the cap and the counter ends one past it. *)
Lemma walk_to_cap (fuel : nat) (page : Z) :
  page <= cap + 1 ->
  cap + 1 - page <= Z.of_nat fuel ->
  (forall q, page <= q <= cap -> stops q = false) ->
  walk fuel page =
    (flat_map items (pages_from page (Z.to_nat (cap + 1 - page))),
     cap + 1).
Proof.
  revert page. induction fuel as [|fuel IH]; intros page Hp Hf Hgo.
  - simpl. replace (cap + 1 - page) with 0 by lia.
    simpl. f_equal. lia.
  - simpl. destruct (Z.leb_spec page cap) as [Hle|Hgt].
    + rewrite (Hgo page) by lia.
      rewrite (IH (page + 1)); [|lia|lia|intros; apply Hgo; lia].
      simpl. f_equal.
      replace (Z.to_nat (cap + 1 - page))
        with (S (Z.to_nat (cap + 1 - (page + 1)))) by lia.
      now rewrite pages_from_succ.
    + replace (cap + 1 - page) with 0 by lia. simpl. f_equal. lia.
Qed.

(** More fuel than the cap allows pages changes nothing. *)
Lemma walk_fuel (fuel fuel' : nat) (page : Z) :
  cap + 1 - page <= Z.of_nat fuel ->
  cap + 1 - page <= Z.of_nat fuel' ->
  walk fuel page = walk fuel' page.
Proof.
  revert fuel' page. induction fuel as [|fuel IH];
    intros [|fuel'] page Hf Hf'; simpl; try reflexivity.
  - replace (page <=? cap) with false by lia. reflexivity.
  - replace (page <=? cap) with false by lia. reflexivity.
  - destruct (page <=? cap) eqn:Hc; [|reflexivity].
    destruct (stops page); [reflexivity|].
    rewrite (IH fuel' (page + 1)) by lia. reflexivity.
Qed.

End Reader.

(** The walk depends on the stop test and the items only through the
    pages within the cap. *)
Lemma walk_ext {Item : Type} (cap : Z) (stops stops' : Z -> bool)
    (items items' : Z -> list Item) (fuel : nat) (page : Z) :
  (forall q, page <= q <= cap -> stops q = stops' q) ->
  (forall q, page <= q <= cap -> items q = items' q) ->
  pages_read cap stops items fuel page
  = pages_read cap stops' items' fuel page.
Proof.
  revert page. induction fuel as [|fuel IH]; intros page Hs Hi; simpl;
    [reflexivity|].
  destruct (page <=? cap) eqn:Hc; [|reflexivity].
  rewrite <- (Hs page), <- (Hi page) by lia.
  destruct (stops page); [reflexivity|].
  rewrite (IH (page + 1)); [reflexivity| |]; intros; [apply Hs|apply Hi];
    lia.
Qed.

End PagingFacts.

(** ** Substrings *)

Module PyStrFacts.
Import PyStr.

Lemma prefix_iff (needle hay : string) :
  String.prefix needle hay = true <-> exists post, hay = needle +:+ post.
Proof.
  revert hay. induction needle as [|a needle IH]; intros hay.
  - split; [intros _; now exists hay|]. intros _. now destruct hay.
  - destruct hay as [|b hay]; simpl.
    + split; [discriminate|]. intros [post Hpost]. discriminate.
    + destruct (ascii_dec a b) as [->|Hab].
      * rewrite IH. split; intros [post Hpost]; exists post.
        -- now rewrite Hpost.
        -- now injection Hpost.
      * split; [discriminate|]. intros [post Hpost].
        injection Hpost as Heq _. now destruct Hab.
Qed.

(** [substr_in] is Python's [in]: the needle occurs somewhere in the
    haystack. *)
Lemma substr_in_iff (needle hay : string) :
  substr_in needle hay = true
  <-> exists pre post, hay = pre +:+ needle +:+ post.
Proof.
  induction hay as [|b hay IH].
  - change (substr_in needle "") with (String.prefix needle "" || false).
    rewrite orb_false_r, prefix_iff. split.
    + intros [post Hpost]. now exists EmptyString, post.
    + intros ([|c pre] & post & Hpost); [now exists post|discriminate].
  - change (substr_in needle (String b hay))
      with (String.prefix needle (String b hay) || substr_in needle hay).
    rewrite orb_true_iff, prefix_iff, IH. split.
    + intros [[post Hpost]|(pre & post & Hpost)].
      * now exists EmptyString, post.
      * exists (String b pre), post. simpl. now rewrite Hpost.
    + intros ([|c pre] & post & Hpost).
      * left. now exists post.
      * right. exists pre, post. simpl in Hpost. now injection Hpost.
Qed.

Lemma append_assoc (a b c : string) : (a +:+ b) +:+ c = a +:+ (b +:+ c).
Proof.
  induction a as [|x a IH]; [reflexivity|].
  change (String x ((a +:+ b) +:+ c) = String x (a +:+ (b +:+ c))).
  now rewrite IH.
Qed.

(** A name that contains [b] contains every substring of [b]. *)
Lemma substr_in_trans (a b c : string) :
  substr_in a b = true -> substr_in b c = true -> substr_in a c = true.
Proof.
  rewrite !substr_in_iff.
  intros (p1 & q1 & ->) (p2 & q2 & ->).
  exists (p2 +:+ p1), (q1 +:+ q2).
  now rewrite !append_assoc.
Qed.

End PyStrFacts.

(** ** Numbers *)

Module PyNumFacts.
Import PyNum RateSpec.

Lemma overflow_threshold_pos : 0 < overflow_threshold.
Proof. reflexivity. Qed.

(** A zero divisor is the only source of [ZeroDivisionError]. *)
Lemma int_truediv_zero_division (a b : Z) :
  int_truediv a b = Raise ZeroDivisionError <-> b = 0.
Proof.
  unfold int_truediv. destruct (Z.eqb_spec b 0) as [->|Hb].
  - tauto.
  - destruct (_ <=? _); split; try discriminate; contradiction.
Qed.

(** A numerator in range divides by any positive integer without an
    exception. *)
Lemma int_truediv_in_range (a b : Z) :
  in_float_range a -> 0 < b ->
  int_truediv a b
  = Ok (SFdiv prec emax (exact_of_Z a) (exact_of_Z b)).
Proof.
  unfold in_float_range, int_truediv. intros Ha Hb.
  pose proof overflow_threshold_pos as Ht.
  destruct (Z.eqb_spec b 0) as [->|_]; [lia|].
  destruct (Z.leb_spec (overflow_threshold * Z.abs b) (Z.abs a)) as [Hle|_];
    [|reflexivity].
  exfalso. revert Ha Hle Ht. generalize overflow_threshold. intros t. nia.
Qed.

Lemma ratio_times_100_in_range (a b : Z) :
  in_float_range a -> 0 < b ->
  ratio_times_100 a b
  = Ok (PyFloat (float_mul_int
                   (SFdiv prec emax (exact_of_Z a) (exact_of_Z b)) 100)).
Proof.
  intros Ha Hb. unfold ratio_times_100.
  now rewrite int_truediv_in_range.
Qed.

Lemma ratio_in_range (a b : Z) :
  in_float_range a -> 0 < b ->
  ratio a b = Ok (PyFloat (SFdiv prec emax (exact_of_Z a) (exact_of_Z b))).
Proof.
  intros Ha Hb. unfold ratio. now rewrite int_truediv_in_range.
Qed.

Lemma ratio_times_100_zero_division (a b : Z) :
  0 < b -> ratio_times_100 a b <> Raise ZeroDivisionError.
Proof.
  intros Hb. unfold ratio_times_100.
  destruct (int_truediv a b) as [q|e] eqn:Hq; simpl; [discriminate|].
  intros [= ->]. apply int_truediv_zero_division in Hq. lia.
Qed.

Lemma ratio_zero_division (a b : Z) :
  0 < b -> ratio a b <> Raise ZeroDivisionError.
Proof.
  intros Hb. unfold ratio.
  destruct (int_truediv a b) as [q|e] eqn:Hq; simpl; [discriminate|].
  intros [= ->]. apply int_truediv_zero_division in Hq. lia.
Qed.

(** With a positive divisor the only exception is [OverflowError]. *)
Lemma ratio_times_100_raises (a b : Z) (e : exn) :
  0 < b -> ratio_times_100 a b = Raise e -> e = OverflowError.
Proof.
  intros Hb. unfold ratio_times_100, int_truediv.
  destruct (Z.eqb_spec b 0) as [->|_]; [lia|].
  destruct (_ <=? _); simpl; [now intros [= <-]|discriminate].
Qed.

Lemma ratio_raises (a b : Z) (e : exn) :
  0 < b -> ratio a b = Raise e -> e = OverflowError.
Proof.
  intros Hb. unfold ratio, int_truediv.
  destruct (Z.eqb_spec b 0) as [->|_]; [lia|].
  destruct (_ <=? _); simpl; [now intros [= <-]|discriminate].
Qed.

Lemma spec_rate_in_range (a b : Z) :
  in_float_range a -> 0 < b ->
  spec_rate a b = Ok (round (PyFloat (percent_of a b)) 2).
Proof.
  intros Ha Hb. unfold spec_rate. now rewrite int_truediv_in_range.
Qed.

End PyNumFacts.

(** ** The Beehiiv search *)

Module BeehiivFacts.
Import PyStr Paging Beehiiv.

Lemma collect_all_app (full : bool) (l1 l2 : list post) (acc : accum) :
  collect_all full (l1 ++ l2) acc
  = collect_all full l2 (collect_all full l1 acc).
Proof. unfold collect_all. apply fold_left_app. Qed.

(** What collecting a list of posts does to the two accumulators. *)
Lemma collect_all_posts (full : bool) (l : list post) (acc : accum) :
  newsletter_posts (collect_all full l acc)
  = newsletter_posts acc ++ (if full then l else []).
Proof.
  revert acc. induction l as [|p l IH]; intros acc; simpl.
  - destruct full; now rewrite app_nil_r.
  - change (collect_all full (p :: l) acc)
      with (collect_all full l (collect_post full p acc)).
    rewrite IH. simpl. destruct full; [|reflexivity].
    now rewrite <- app_assoc.
Qed.

Lemma collect_all_recipients (full : bool) (l : list post) (acc : accum) :
  total_recipients (collect_all full l acc)
  = total_recipients acc + sum_recipients l.
Proof.
  revert acc. induction l as [|p l IH]; intros acc; simpl; [lia|].
  change (collect_all full (p :: l) acc)
    with (collect_all full l (collect_post full p acc)).
  rewrite IH. simpl. lia.
Qed.

Section Search.
Variable fromtimestamp : Z -> result date.

Local Abbreviation scan_post := (Beehiiv.scan_post fromtimestamp).
Local Abbreviation scan_posts := (Beehiiv.scan_posts fromtimestamp).
Local Abbreviation search_pages := (Beehiiv.search_pages fromtimestamp).
Local Abbreviation run_search := (Beehiiv.run_search fromtimestamp).
Local Abbreviation scannable := (Beehiiv.scannable fromtimestamp).
Local Abbreviation scanned := (Beehiiv.scanned fromtimestamp).
Local Abbreviation selected := (Beehiiv.selected fromtimestamp).
Local Abbreviation page_scanned := (Beehiiv.page_scanned fromtimestamp).
Local Abbreviation stops := (Beehiiv.stops fromtimestamp).

(** The body of the post loop is the test [selected] followed by the
    collection, as long as the time stamp converts. *)
Lemma scan_post_scannable (tf full : bool) (target : date) (p : post)
    (acc : accum) :
  scannable p = true ->
  scan_post tf full target p acc
  = Ok (if selected tf target p then collect_post full p acc else acc).
Proof.
  unfold Beehiiv.scannable, Beehiiv.scan_post, Beehiiv.selected.
  destruct (has_publish_date p); simpl; [|reflexivity].
  destruct (fromtimestamp _) as [d|e]; simpl; [|discriminate].
  intros _. destruct (date_eqb d target); simpl; [|reflexivity].
  destruct (substr_in _ _); simpl; [reflexivity|].
  destruct tf; simpl; [|reflexivity].
  now destruct (is_newsletter_post _).
Qed.

Lemma scan_post_unscannable (tf full : bool) (target : date) (p : post)
    (acc : accum) :
  scannable p = false ->
  exists e, scan_post tf full target p acc = Raise e.
Proof.
  unfold Beehiiv.scannable, Beehiiv.scan_post.
  destruct (has_publish_date p); simpl; [|discriminate].
  destruct (fromtimestamp _) as [d|e]; simpl; [discriminate|].
  intros _. now exists e.
Qed.

(** The post loop collects the selected posts among those scanned. *)
Lemma scan_posts_collects (tf full : bool) (target : date)
    (ps : list post) (acc : accum) :
  fst (scan_posts tf full target ps acc)
  = collect_all full (List.filter (selected tf target) (scanned ps)) acc.
Proof.
  revert acc. induction ps as [|p ps IH]; intros acc; simpl; [reflexivity|].
  destruct (scannable p) eqn:Hp.
  - rewrite scan_post_scannable by assumption. rewrite IH. simpl.
    now destruct (selected tf target p).
  - destruct (scan_post_unscannable tf full target p acc Hp) as [e ->].
    reflexivity.
Qed.

(** The post loop raises exactly when some post does not convert. *)
Lemma scan_posts_raises (tf full : bool) (target : date)
    (ps : list post) (acc : accum) :
  snd (scan_posts tf full target ps acc) = None
  <-> forallb scannable ps = true.
Proof.
  revert acc. induction ps as [|p ps IH]; intros acc; simpl; [tauto|].
  destruct (scannable p) eqn:Hp; simpl.
  - rewrite scan_post_scannable by assumption. apply IH.
  - destruct (scan_post_unscannable tf full target p acc Hp) as [e ->].
    simpl. split; discriminate.
Qed.

Lemma scanned_all (ps : list post) :
  forallb scannable ps = true -> scanned ps = ps.
Proof.
  induction ps as [|p ps IH]; simpl; [reflexivity|].
  destruct (scannable p); simpl; [|discriminate].
  intros H. now rewrite IH.
Qed.

Local Arguments Beehiiv.scan_posts : simpl never.

(** The page loop is the walk of [Paging] followed by the filter
    [selected]: which pages are requested, and where the loop is left,
    is decided without the target date. *)
Lemma search_pages_walk (session_get : Z -> http_result posts_page)
    (tf full : bool) (target : date) (fuel : nat) (page : Z)
    (acc : accum) :
  let walk :=
    pages_read max_pages (fun q => stops (session_get q) q)
               (fun q => page_scanned (session_get q)) fuel page in
  search_pages session_get tf full target fuel page acc
  = (collect_all full (List.filter (selected tf target) (fst walk)) acc,
     snd walk).
Proof.
  cbv zeta. revert page acc.
  induction fuel as [|fuel IH]; intros page acc; simpl; [reflexivity|].
  destruct (page <=? max_pages); [|reflexivity].
  unfold Beehiiv.stops, Beehiiv.page_scanned, page_posts, failed.
  destruct (session_get page) as [|status body]; simpl; [reflexivity|].
  destruct (status =? 200); simpl; [|now destruct body].
  destruct body as [body|]; simpl; [|reflexivity].
  destruct (dget (data body) []) as [|p ps] eqn:Hdata; [reflexivity|].
  pose proof (scan_posts_collects tf full target (p :: ps) acc) as Hfst.
  pose proof (scan_posts_raises tf full target (p :: ps) acc) as Hsnd.
  destruct (Beehiiv.scan_posts _ tf full target (p :: ps) acc)
    as [acc' [e|]]; cbn [fst snd] in Hfst, Hsnd; subst acc'; simpl.
  - destruct (forallb scannable (p :: ps)) eqn:Hall.
    + destruct Hsnd as [_ Hsnd]. discriminate (Hsnd eq_refl).
    + simpl in Hall. rewrite Hall. reflexivity.
  - assert (Hall : forallb scannable (p :: ps) = true) by now apply Hsnd.
    simpl in Hall. rewrite Hall. simpl.
    destruct (page >=? dget (total_pages body) 1); [reflexivity|].
    rewrite IH. simpl. now rewrite List.filter_app, collect_all_app.
Qed.

(** [run_search] in the same terms. *)
Lemma run_search_walk (session_get : Z -> http_result posts_page)
    (brand : string) (target : date) (full : bool) :
  let walk :=
    pages_read max_pages (fun q => stops (session_get q) q)
               (fun q => page_scanned (session_get q))
               (Z.to_nat max_pages) 1 in
  run_search session_get brand target full
  = (collect_all full
       (List.filter (selected (use_tag_filter brand) target) (fst walk))
       (mkaccum [] 0),
     snd walk).
Proof. apply search_pages_walk. Qed.

(** A page that does not stop the loop was iterated over in full. *)
Lemma page_scanned_all (r : http_result posts_page) (page : Z) :
  stops r page = false -> page_scanned r = page_posts r.
Proof.
  unfold Beehiiv.stops, Beehiiv.page_scanned, page_posts, failed.
  destruct r as [|status [body|]]; simpl; try discriminate.
  - destruct (status =? 200); simpl; [|discriminate].
    destruct (dget (data body) []) as [|p ps]; [discriminate|].
    intros H. apply orb_false_elim in H as [H _].
    apply negb_false_iff in H. now apply scanned_all.
  - now rewrite orb_true_r.
Qed.

(** A failed request stops the loop and adds no post. *)
Lemma failed_stops (r : http_result posts_page) (page : Z) :
  failed r = true -> stops r page = true /\ page_scanned r = [].
Proof.
  unfold Beehiiv.stops, Beehiiv.page_scanned, page_posts, failed.
  destruct r as [|status [body|]]; simpl; [auto| |].
  - destruct (status =? 200); simpl; [discriminate|auto].
  - destruct (status =? 200); simpl; auto.
Qed.

(** Every returned post was selected, and posts are returned only with
    full data. *)
Lemma returned_posts_selected (pubs : gmap string publication)
    (session_get : string -> Z -> http_result posts_page)
    (brand : string) (target : date) (full : bool) (p : post) :
  In p (posts (get_posts_for_date fromtimestamp pubs session_get brand
                                  target full)) ->
  selected (use_tag_filter brand) target p = true /\ full = true.
Proof.
  unfold get_posts_for_date. destruct (pubs !! brand) as [pub|];
    [|contradiction].
  rewrite run_search_walk. cbn [posts fst]. rewrite collect_all_posts.
  cbn [newsletter_posts app]. destruct full; [|contradiction].
  intros Hin. apply List.filter_In in Hin. tauto.
Qed.

(** The aggregate count is the sum over the selected posts that were
    scanned. *)
Lemma recipients_total_selected (pubs : gmap string publication)
    (session_get : string -> Z -> http_result posts_page)
    (brand : string) (pub : publication) (target : date) (full : bool) :
  pubs !! brand = Some pub ->
  recipients_total (get_posts_for_date fromtimestamp pubs session_get brand
                                       target full)
  = sum_recipients
      (List.filter (selected (use_tag_filter brand) target)
         (fst (pages_read max_pages
                 (fun q => stops (session_get (pub_id pub) q) q)
                 (fun q => page_scanned (session_get (pub_id pub) q))
                 (Z.to_nat max_pages) 1))).
Proof.
  intros Hpub. unfold get_posts_for_date. rewrite Hpub.
  rewrite run_search_walk. cbn [recipients_total fst].
  now rewrite collect_all_recipients.
Qed.


End Search.

End BeehiivFacts.

(** ** The TinyEmail search and classifier *)

Module TinyEmailFacts.
Import PyStr Paging TinyEmail.

(** The page loop is the walk of [Paging] followed by the date filter. *)
Lemma fetch_pages_walk (requests_get : Z -> http_result campaigns_page)
    (target : date) (fuel : nat) (page : Z) (found : list campaign) :
  let walk :=
    pages_read (page_limit - 1) (fun q => stops (requests_get q))
               (fun q => page_content (requests_get q)) fuel page in
  fetch_pages requests_get target fuel page found
  = (found ++ List.filter (matches_date target) (fst walk), snd walk).
Proof.
  cbv zeta. revert page found.
  induction fuel as [|fuel IH]; intros page found; simpl;
    [now rewrite app_nil_r|].
  replace (page <=? page_limit - 1) with (page <? page_limit) by lia.
  destruct (page <? page_limit); [|now rewrite app_nil_r].
  unfold stops, page_content, failed.
  destruct (requests_get page) as [|status body]; simpl;
    [now rewrite app_nil_r|].
  destruct (status =? 200); simpl;
    [|destruct body; now rewrite app_nil_r].
  destruct body as [campaigns_data|]; simpl; [|now rewrite app_nil_r].
  destruct (dget (last campaigns_data) true); [reflexivity|].
  rewrite IH. simpl. now rewrite List.filter_app, app_assoc.
Qed.

Lemma campaign_search_walk (requests_get : Z -> http_result campaigns_page)
    (target : date) :
  let walk :=
    pages_read (page_limit - 1) (fun q => stops (requests_get q))
               (fun q => page_content (requests_get q))
               (Z.to_nat page_limit) 0 in
  run_search requests_get target
  = (List.filter (matches_date target) (fst walk), snd walk).
Proof. apply (fetch_pages_walk requests_get target _ 0 []). Qed.

(** A failed request stops the loop and adds no campaign. *)
Lemma failed_request_stops (r : http_result campaigns_page) :
  failed r = true -> stops r = true /\ page_content r = [].
Proof.
  unfold stops, page_content, failed.
  destruct r as [|status [body|]]; simpl; [auto| |].
  - destruct (status =? 200); simpl; [discriminate|auto].
  - destruct (status =? 200); simpl; auto.
Qed.

(** The guard of [separate_all_campaigns] is the negation of the test
    of [get_previous_sends]. *)
Lemma volume_guard (c : campaign) :
  negb (String.eqb (campaign_status c) "COMPLETED")
  || (campaign_sends c <=? 100)
  = negb (has_volume c).
Proof.
  unfold has_volume. rewrite negb_andb. f_equal.
  now rewrite Z.gtb_ltb, Z.leb_antisym.
Qed.

Lemma separate_from (campaigns am pm : list campaign) :
  fold_left
    (fun '(am_campaigns, pm_campaigns) c =>
       if negb (String.eqb (campaign_status c) "COMPLETED")
          || (campaign_sends c <=? 100)
       then (am_campaigns, pm_campaigns)
       else if is_daily_digest_pm (campaign_name c)
               || is_dedicated_cpm (campaign_name c)
       then (am_campaigns, pm_campaigns ++ [c])
       else if substr_in "Daily Digest" (campaign_name c)
       then (am_campaigns ++ [c], pm_campaigns)
       else (am_campaigns, pm_campaigns))
    campaigns (am, pm)
  = (am ++ List.filter goes_am campaigns,
     pm ++ List.filter goes_pm campaigns).
Proof.
  revert am pm. induction campaigns as [|c cs IH]; intros am pm; simpl.
  - now rewrite !app_nil_r.
  - rewrite volume_guard. unfold goes_am, goes_pm.
    destruct (has_volume c); simpl; [|apply IH].
    destruct (is_daily_digest_pm _ || is_dedicated_cpm _); simpl.
    + rewrite IH. now rewrite <- app_assoc.
    + destruct (substr_in "Daily Digest" _); simpl; rewrite IH;
        [now rewrite <- app_assoc|reflexivity].
Qed.

(** [separate_all_campaigns] is two filters of its input, in order. *)
Lemma separate_all_campaigns_filters (campaigns : list campaign) :
  separate_all_campaigns campaigns
  = (List.filter goes_am campaigns, List.filter goes_pm campaigns).
Proof. apply (separate_from campaigns [] []). Qed.

Lemma previous_sends_from (segment : string) (campaigns : list campaign)
    (m : gmap string Z) :
  dget (fold_left
          (fun previous_sends c =>
             if has_volume c then
               let segment :=
                 if is_pm (campaign_name c) then "PM" else "AM" in
               add_sends segment (campaign_sends c) previous_sends
             else previous_sends)
          campaigns m !! segment) 0
  = dget (m !! segment) 0 + baseline segment campaigns.
Proof.
  revert m. induction campaigns as [|c cs IH]; intros m; simpl; [lia|].
  rewrite IH. unfold baseline_segment, add_sends.
  destruct (has_volume c); simpl; [|reflexivity].
  set (seg := if is_pm (campaign_name c) then "PM" else "AM").
  destruct (String.eqb_spec seg segment) as [->|Hne].
  - rewrite lookup_insert_eq. simpl. lia.
  - now rewrite lookup_insert_ne.
Qed.

(** [previous_sends.get(segment, 0)] is the sum of the sends of the
    campaigns with volume booked under the segment. *)
Lemma get_previous_sends_baseline (segment : string)
    (campaigns : list campaign) :
  dget (get_previous_sends campaigns !! segment) 0
  = baseline segment campaigns.
Proof.
  unfold get_previous_sends. rewrite previous_sends_from.
  now rewrite lookup_empty.
Qed.

End TinyEmailFacts.

(** ** The collectors *)

Module CollectFacts.

(** A loop of [map_result] that returns pairs each input with its
    output, in order. *)
Lemma map_result_pairs {A B : Type} (f : A -> result B) (l : list A)
    (bs : list B) :
  map_result f l = Ok bs -> Forall2 (fun a b => f a = Ok b) l bs.
Proof.
  revert bs. induction l as [|a l IH]; intros bs; simpl.
  - intros [= <-]. constructor.
  - destruct (f a) as [b|e] eqn:Hb; simpl; [|discriminate].
    destruct (map_result f l) as [bs'|e]; simpl; [|discriminate].
    intros [= <-]. constructor; [assumption|]. now apply IH.
Qed.

Lemma map_result_forall {A B : Type} (f : A -> result B) (P : B -> Prop)
    (l : list A) (bs : list B) :
  map_result f l = Ok bs ->
  (forall a b, In a l -> f a = Ok b -> P b) ->
  Forall P bs.
Proof.
  intros H HP. apply map_result_pairs in H.
  induction H as [|a b l bs Hab H IH]; constructor.
  - apply (HP a); [now left|assumption].
  - apply IH. intros a' b' Hin. apply HP. now right.
Qed.

(** What [create_metric] copies from the campaign and its arguments. *)
Lemma create_metric_copies (c : TinyEmail.campaign) (brand : string)
    (target : date) (segment : string) (growth : Z) (m : metric) :
  TinyEmail.create_metric c brand target segment growth = Ok m ->
  m_Sends m = TinyEmail.campaign_sends c /\ m_List_Growth m = growth
  /\ m_Campaign_Type m
     = (if existsb (String.eqb segment) ["AM"; "PM"]%string
        then segment else "Newsletter").
Proof.
  unfold TinyEmail.create_metric.
  destruct (TinyEmail.compute_rates _ _ _ _ _ _ _); simpl; [|discriminate].
  intros [= <-]. simpl. auto.
Qed.

(** What [extract_metrics] copies from the post and its arguments. *)
Lemma extract_metrics_copies (fromtimestamp : Z -> result date)
    (now : date) (p : Beehiiv.post) (brand : string) (previous : Z)
    (m : metric) :
  Beehiiv.extract_metrics fromtimestamp now p brand previous = Ok m ->
  m_Sends m = Beehiiv.post_recipients p
  /\ m_List_Growth m = Beehiiv.post_recipients p - previous.
Proof.
  unfold Beehiiv.extract_metrics.
  destruct (Beehiiv.post_date_of _ _ _); simpl; [|discriminate].
  destruct (Beehiiv.compute_rates _ _ _ _ _ _ _); simpl; [|discriminate].
  intros [= <-]. simpl. auto.
Qed.

End CollectFacts.

(** * The specification, statement by statement *)

Import PyStr.

(** ** Classification by name (TinyEmail) *)




(** C2, on the code: a completed campaign named with the "_PM" token is
    booked under PM by [get_previous_sends] and filed under AM by
    [separate_all_campaigns]; the two " PM-" and "_PM" markers are tested
    on the baseline path only. *)
Theorem underscore_pm_filed_under_am :
  TinyEmail.has_pm_marker (TinyEmail.campaign_name Samples.digest_underscore_pm)
  = true
  /\ TinyEmail.has_volume Samples.digest_underscore_pm = true
  /\ TinyEmail.separate_all_campaigns [Samples.digest_underscore_pm]
     = ([Samples.digest_underscore_pm], [])
  /\ TinyEmail.get_previous_sends [Samples.digest_underscore_pm] !! "PM"
     = Some 5000
  /\ TinyEmail.get_previous_sends [Samples.digest_underscore_pm] !! "AM"
     = None.
Proof. repeat split; vm_compute; reflexivity. Qed.

(** ** Volume and status filter *)





(** ** The "Dedicated CPM" exclusion (Beehiiv) *)

(** C7 fails on the no-tag-filter path: for the brand "News Flash", which
    is searched without the tag filter, the post titled
    "Dedicated CPM 10.15.25" is not returned and its recipients are not
    counted; only the other post of the page is. *)
Lemma cpm_dropped_without_tag_filter :
  Beehiiv.use_tag_filter "News Flash" = false
  /\ substr_in "Dedicated CPM" (dget (Beehiiv.title Samples.post_cpm) "")
     = true
  /\ Beehiiv.get_posts_for_date Utc.fromtimestamp Samples.catalog
       Samples.api_cpm "News Flash" Samples.target true
     = Beehiiv.mkresult [Samples.post_newsletter] 5000.
Proof. repeat split; vm_compute; reflexivity. Qed.

(** C7, amended: a post whose title contains "Dedicated CPM" is dropped
    on both paths, with the tag filter and without it: whatever the brand
    and the tags, it is never among the returned posts, and scanning it
    leaves both accumulators as they were. *)
Theorem dedicated_cpm_dropped_on_both_paths
    (fromtimestamp : Z -> result date)
    (publications : gmap string Beehiiv.publication)
    (session_get : string -> Z -> http_result Beehiiv.posts_page)
    (brand_name : string) (target_date : date) (get_full_data : bool)
    (p : Beehiiv.post) :
  substr_in "Dedicated CPM" (dget (Beehiiv.title p) "") = true ->
  ~ In p (Beehiiv.posts
            (Beehiiv.get_posts_for_date fromtimestamp publications
               session_get brand_name target_date get_full_data))
  /\ (forall (tag_filter : bool) (acc : Beehiiv.accum),
        Beehiiv.scannable fromtimestamp p = true ->
        Beehiiv.scan_post fromtimestamp tag_filter get_full_data
                          target_date p acc
        = Ok acc).
Proof.
  intros Hcpm.
  assert (Hsel : forall tf,
             Beehiiv.selected fromtimestamp tf target_date p = false).
  { intros tf. unfold Beehiiv.selected. rewrite Hcpm.
    destruct (Beehiiv.has_publish_date p); [|reflexivity].
    destruct (fromtimestamp _); [|reflexivity].
    simpl. now rewrite andb_false_r. }
  split.
  - intros Hin. apply BeehiivFacts.returned_posts_selected in Hin as [Hin _].
    now rewrite Hsel in Hin.
  - intros tf acc Hscan.
    rewrite BeehiivFacts.scan_post_scannable by assumption.
    now rewrite Hsel.
Qed.

(** C7 on the "News Flash" sample. *)
Lemma dedicated_cpm_dropped_on_both_paths_witness :
  ~ In Samples.post_cpm
      (Beehiiv.posts
         (Beehiiv.get_posts_for_date Utc.fromtimestamp Samples.catalog
            Samples.api_cpm "News Flash" Samples.target true))
  /\ (forall (tag_filter : bool) (acc : Beehiiv.accum),
        Beehiiv.scannable Utc.fromtimestamp Samples.post_cpm = true ->
        Beehiiv.scan_post Utc.fromtimestamp tag_filter true Samples.target
                          Samples.post_cpm acc
        = Ok acc).
Proof.
  apply (dedicated_cpm_dropped_on_both_paths Utc.fromtimestamp
           Samples.catalog Samples.api_cpm "News Flash" Samples.target true
           Samples.post_cpm).
  reflexivity.
Defined.

(** ** Publish dates of the returned posts (Beehiiv) *)

(** C10: every post returned by the search has a truthy publish date
    whose conversion succeeds and gives the target date, so
    [extract_metrics] never reads the clock for it; a post without a
    publish date leaves the list of posts and the recipient count as
    they were, and with full data the recipient count is the sum over the
    returned posts alone. *)
Theorem returned_posts_have_publish_date
    (fromtimestamp : Z -> result date)
    (publications : gmap string Beehiiv.publication)
    (session_get : string -> Z -> http_result Beehiiv.posts_page)
    (brand_name : string) (target_date : date) (get_full_data : bool) :
  (forall p : Beehiiv.post,
      In p (Beehiiv.posts
              (Beehiiv.get_posts_for_date fromtimestamp publications
                 session_get brand_name target_date get_full_data)) ->
      Beehiiv.has_publish_date p = true
      /\ (exists d, fromtimestamp (dget (Beehiiv.publish_date p) 0) = Ok d
                    /\ date_eqb d target_date = true)
      /\ (forall (now now' : date) (brand : string) (previous : Z),
            Beehiiv.extract_metrics fromtimestamp now p brand previous
            = Beehiiv.extract_metrics fromtimestamp now' p brand previous))
  /\ (forall (tag_filter : bool) (p : Beehiiv.post) (acc : Beehiiv.accum),
        Beehiiv.has_publish_date p = false ->
        Beehiiv.scan_post fromtimestamp tag_filter get_full_data
                          target_date p acc
        = Ok acc)
  /\ (get_full_data = true ->
      Beehiiv.recipients_total
        (Beehiiv.get_posts_for_date fromtimestamp publications session_get
           brand_name target_date get_full_data)
      = Beehiiv.sum_recipients
          (Beehiiv.posts
             (Beehiiv.get_posts_for_date fromtimestamp publications
                session_get brand_name target_date get_full_data))).
Proof.
  split; [|split].
  - intros p Hin.
    apply BeehiivFacts.returned_posts_selected in Hin as [Hsel _].
    unfold Beehiiv.selected in Hsel.
    destruct (Beehiiv.has_publish_date p) eqn:Hdate; [|discriminate].
    rewrite andb_true_l in Hsel.
    destruct (fromtimestamp _) as [d|e] eqn:Hd; [|discriminate].
    split; [reflexivity|]. split.
    + exists d. split; [reflexivity|].
      apply andb_prop in Hsel as [Hsel _].
      now apply andb_prop in Hsel as [Hsel _].
    + intros now now' brand previous.
      unfold Beehiiv.extract_metrics, Beehiiv.post_date_of.
      now rewrite Hdate.
  - intros tf p acc Hdate. unfold Beehiiv.scan_post. now rewrite Hdate.
  - intros ->. unfold Beehiiv.get_posts_for_date.
    destruct (publications !! brand_name) as [pub|]; [|reflexivity].
    rewrite BeehiivFacts.run_search_walk.
    cbn [Beehiiv.posts Beehiiv.recipients_total fst].
    now rewrite BeehiivFacts.collect_all_posts,
      BeehiivFacts.collect_all_recipients.
Qed.

(** C10 on the two-page sample, whose second page holds a post without
    a publish date. *)
Lemma returned_posts_have_publish_date_witness :
  Beehiiv.has_publish_date Samples.post_newsletter = true
  /\ Beehiiv.scan_post Utc.fromtimestamp true true Samples.target
       Samples.post_undated (Beehiiv.mkaccum [] 0)
     = Ok (Beehiiv.mkaccum [] 0).
Proof.
  pose proof (returned_posts_have_publish_date Utc.fromtimestamp
                Samples.catalog Samples.api_two_pages "Daily Brief"
                Samples.target true) as (Hposts & Hskip & _).
  split.
  - apply (Hposts Samples.post_newsletter). vm_compute. left. reflexivity.
  - apply Hskip. reflexivity.
Defined.

(** ** The page loops *)

Lemma flat_map_agree {A B : Type} (f g : A -> list B) (l : list A) :
  (forall a, In a l -> f a = g a) -> flat_map f l = flat_map g l.
Proof.
  induction l as [|a l IH]; intros H; simpl; [reflexivity|].
  rewrite (H a) by now left.
  rewrite IH; [reflexivity|]. intros b Hb. apply H. now right.
Qed.

(** C8: a failed page is never fatal.  When the request for page [k]
    fails (it raises, answers a status other than 200, or its body does
    not decode) after the pages before it let the loop go on, the search
    returns exactly the selected items of the pages before [k] and, for
    Beehiiv, the sum of their recipients; and a brand missing from the
    catalog gives the empty result with count 0. *)
Theorem failed_search_returns_accumulated :
  (forall (fromtimestamp : Z -> result date)
          (publications : gmap string Beehiiv.publication)
          (session_get : string -> Z -> http_result Beehiiv.posts_page)
          (brand_name : string) (pub : Beehiiv.publication)
          (target_date : date) (get_full_data : bool) (k : Z),
      publications !! brand_name = Some pub ->
      1 <= k <= Beehiiv.max_pages ->
      Beehiiv.failed (session_get (Beehiiv.pub_id pub) k) = true ->
      (forall q, 1 <= q < k ->
         Beehiiv.stops fromtimestamp (session_get (Beehiiv.pub_id pub) q) q
         = false) ->
      let kept :=
        List.filter
          (Beehiiv.selected fromtimestamp
             (Beehiiv.use_tag_filter brand_name) target_date)
          (flat_map
             (fun q => Beehiiv.page_posts (session_get (Beehiiv.pub_id pub) q))
             (Paging.pages_from 1 (Z.to_nat (k - 1)))) in
      Beehiiv.get_posts_for_date fromtimestamp publications session_get
        brand_name target_date get_full_data
      = Beehiiv.mkresult (if get_full_data then kept else [])
                         (Beehiiv.sum_recipients kept)
      /\ snd (Beehiiv.run_search fromtimestamp
                (session_get (Beehiiv.pub_id pub)) brand_name target_date
                get_full_data) = k)
  /\ (forall (fromtimestamp : Z -> result date)
             (publications : gmap string Beehiiv.publication)
             (session_get : string -> Z -> http_result Beehiiv.posts_page)
             (brand_name : string) (target_date : date)
             (get_full_data : bool),
        publications !! brand_name = None ->
        Beehiiv.get_posts_for_date fromtimestamp publications session_get
          brand_name target_date get_full_data
        = Beehiiv.mkresult [] 0)
  /\ (forall (requests_get : Z -> http_result TinyEmail.campaigns_page)
             (target_date : date) (k : Z),
        0 <= k < TinyEmail.page_limit ->
        TinyEmail.failed (requests_get k) = true ->
        (forall q, 0 <= q < k -> TinyEmail.stops (requests_get q) = false) ->
        TinyEmail.get_campaigns_for_date requests_get target_date
        = List.filter (TinyEmail.matches_date target_date)
            (flat_map (fun q => TinyEmail.page_content (requests_get q))
                      (Paging.pages_from 0 (Z.to_nat k)))
        /\ snd (TinyEmail.run_search requests_get target_date) = k).
Proof.
  split; [|split].
  - intros ft pubs sg brand pub target full k Hpub Hk Hfail Hbefore kept.
    unfold Beehiiv.get_posts_for_date. rewrite Hpub.
    rewrite BeehiivFacts.run_search_walk. cbn [fst].
    destruct (BeehiivFacts.failed_stops ft _ k Hfail) as [Hstop Hnone].
    rewrite (PagingFacts.walk_until Beehiiv.max_pages _ _ _ 1 k);
      [|lia|unfold Beehiiv.max_pages in *; lia|exact Hbefore|exact Hstop].
    cbn [fst snd]. rewrite Hnone, app_nil_r.
    rewrite (flat_map_agree
               (fun q => Beehiiv.page_scanned ft (sg (Beehiiv.pub_id pub) q))
               (fun q => Beehiiv.page_posts (sg (Beehiiv.pub_id pub) q))).
    + fold kept.
      rewrite BeehiivFacts.collect_all_posts,
        BeehiivFacts.collect_all_recipients.
      split; reflexivity.
    + intros q Hq. apply PagingFacts.in_pages_from in Hq.
      apply (BeehiivFacts.page_scanned_all ft _ q). apply Hbefore. lia.
  - intros ft pubs sg brand target full Hpub.
    unfold Beehiiv.get_posts_for_date. now rewrite Hpub.
  - intros rg target k Hk Hfail Hbefore.
    unfold TinyEmail.get_campaigns_for_date.
    rewrite TinyEmailFacts.campaign_search_walk. cbn [fst].
    destruct (TinyEmailFacts.failed_request_stops _ Hfail) as [Hstop Hnone].
    rewrite (PagingFacts.walk_until (TinyEmail.page_limit - 1) _ _ _ 0 k);
      [|lia|unfold TinyEmail.page_limit in *; lia|exact Hbefore|exact Hstop].
    cbn [fst snd]. rewrite Hnone, app_nil_r.
    now replace (k - 0) with k by lia.
Qed.

(** C8 on samples: page 2 answers 503 (Beehiiv) and the request for
    page 1 raises (TinyEmail) after a first page with a match; an unknown
    brand gives the empty result. *)
Lemma failed_search_returns_accumulated_witness :
  Beehiiv.get_posts_for_date Utc.fromtimestamp Samples.catalog
    Samples.api_error_second "Daily Brief" Samples.target true
  = Beehiiv.mkresult [Samples.post_newsletter] 5000
  /\ Beehiiv.get_posts_for_date Utc.fromtimestamp Samples.catalog
       Samples.api_error_second "Unknown Brand" Samples.target true
     = Beehiiv.mkresult [] 0
  /\ TinyEmail.get_campaigns_for_date Samples.tiny_error_second
       Samples.target
     = [Samples.digest_am].
Proof.
  destruct failed_search_returns_accumulated as (Hbee & Hmissing & Htiny).
  split; [|split].
  - destruct (Hbee Utc.fromtimestamp Samples.catalog
                Samples.api_error_second "Daily Brief"
                (Beehiiv.mkpub "pub_1" "Daily Brief") Samples.target true 2)
      as [Hresult _].
    + vm_compute. reflexivity.
    + unfold Beehiiv.max_pages. lia.
    + reflexivity.
    + intros q Hq. replace q with 1 by lia. vm_compute. reflexivity.
    + rewrite Hresult. vm_compute. reflexivity.
  - apply Hmissing. vm_compute. reflexivity.
  - destruct (Htiny Samples.tiny_error_second Samples.target 1)
      as [Hresult _].
    + unfold TinyEmail.page_limit. lia.
    + reflexivity.
    + intros q Hq. replace q with 0 by lia. vm_compute. reflexivity.
    + rewrite Hresult. vm_compute. reflexivity.
Defined.

(** C1 fails on a server error: page 1 answers 500 (Beehiiv) or page 0
    answers 500 (TinyEmail).  The loop is left at that page although the
    cap is not reached, no last page was signalled, no page of zero items
    came back and the status is not a client error; the item of the target
    date on the next page is not returned. *)
Lemma search_stops_on_server_error :
  (snd (Beehiiv.run_search Utc.fromtimestamp
          (Samples.api_error_first "pub_1") "Daily Brief" Samples.target
          true) = 1
   /\ Beehiiv.listed_stop (Samples.api_error_first "pub_1" 1) 1 = false
   /\ In Samples.post_newsletter
         (Beehiiv.page_posts (Samples.api_error_first "pub_1" 2))
   /\ Beehiiv.selected Utc.fromtimestamp
        (Beehiiv.use_tag_filter "Daily Brief") Samples.target
        Samples.post_newsletter = true
   /\ Beehiiv.newsletter_posts
        (fst (Beehiiv.run_search Utc.fromtimestamp
                (Samples.api_error_first "pub_1") "Daily Brief"
                Samples.target true)) = [])
  /\ (snd (TinyEmail.run_search Samples.tiny_error_first Samples.target) = 0
      /\ TinyEmail.listed_stop (Samples.tiny_error_first 0) 0 = false
      /\ In Samples.digest_am
            (TinyEmail.page_content (Samples.tiny_error_first 1))
      /\ TinyEmail.matches_date Samples.target Samples.digest_am = true
      /\ TinyEmail.get_campaigns_for_date Samples.tiny_error_first
           Samples.target = []).
Proof.
  split; repeat split; try (vm_compute; reflexivity).
  - vm_compute. left. reflexivity.
  - vm_compute. left. reflexivity.
Qed.

(** C1, amended: the page loop never stops because of the dates on a
    page.  The page at which it is left does not depend on the target
    date; it is the page after the cap or a page that stops the loop for
    one of: a failed request (an exception, any status other than 200, a
    body that does not decode), the last page signalled, and for Beehiiv a
    page of zero posts or a post that raises; no earlier page stops it and
    each is read in full; and every item of a page up to there that the
    loop iterated over and that matches the target is returned. *)
Theorem search_stops_on_stop_conditions_only :
  (forall (fromtimestamp : Z -> result date)
          (session_get : Z -> http_result Beehiiv.posts_page)
          (brand_name : string) (target_date : date),
      let r := Beehiiv.run_search fromtimestamp session_get brand_name
                                  target_date true in
      1 <= snd r <= Beehiiv.max_pages + 1
      /\ (snd r = Beehiiv.max_pages + 1
          \/ Beehiiv.stops fromtimestamp (session_get (snd r)) (snd r)
             = true)
      /\ (forall q, 1 <= q < snd r ->
            Beehiiv.stops fromtimestamp (session_get q) q = false
            /\ Beehiiv.page_scanned fromtimestamp (session_get q)
               = Beehiiv.page_posts (session_get q))
      /\ (forall q p, 1 <= q <= snd r -> q <= Beehiiv.max_pages ->
            In p (Beehiiv.page_scanned fromtimestamp (session_get q)) ->
            Beehiiv.selected fromtimestamp
              (Beehiiv.use_tag_filter brand_name) target_date p = true ->
            In p (Beehiiv.newsletter_posts (fst r)))
      /\ (forall (other_brand : string) (other_date : date)
                 (get_full_data : bool),
            snd (Beehiiv.run_search fromtimestamp session_get other_brand
                                    other_date get_full_data)
            = snd r))
  /\ (forall (requests_get : Z -> http_result TinyEmail.campaigns_page)
             (target_date : date),
        let r := TinyEmail.run_search requests_get target_date in
        0 <= snd r <= TinyEmail.page_limit
        /\ (snd r = TinyEmail.page_limit
            \/ TinyEmail.stops (requests_get (snd r)) = true)
        /\ (forall q, 0 <= q < snd r ->
              TinyEmail.stops (requests_get q) = false)
        /\ (forall q c, 0 <= q <= snd r -> q < TinyEmail.page_limit ->
              In c (TinyEmail.page_content (requests_get q)) ->
              TinyEmail.matches_date target_date c = true ->
              In c (fst r))
        /\ (forall other_date : date,
              snd (TinyEmail.run_search requests_get other_date) = snd r)).
Proof.
  split.
  - intros ft sg brand target r. subst r.
    rewrite BeehiivFacts.run_search_walk. cbn [fst snd].
    set (stops := fun q => Beehiiv.stops ft (sg q) q).
    set (items := fun q => Beehiiv.page_scanned ft (sg q)).
    set (fuel := Z.to_nat Beehiiv.max_pages).
    assert (Hfuel : Beehiiv.max_pages + 1 - 1 <= Z.of_nat fuel)
      by (unfold fuel, Beehiiv.max_pages; lia).
    pose proof (PagingFacts.final_page_ge Beehiiv.max_pages stops items
                  fuel 1) as Hge.
    pose proof (PagingFacts.final_page_le Beehiiv.max_pages stops items
                  fuel 1) as Hle.
    pose proof (PagingFacts.final_page_reason Beehiiv.max_pages stops items
                  fuel 1 Hfuel) as Hwhy.
    split; [unfold Beehiiv.max_pages in *; lia|].
    split; [destruct Hwhy as [Hcap|Hstop]; [left|now right];
            unfold Beehiiv.max_pages in *; lia|].
    split; [|split].
    + intros q Hq.
      destruct (PagingFacts.before_final_page Beehiiv.max_pages stops items
                  fuel 1 q Hq) as [Hgo _].
      split; [exact Hgo|].
      now apply (BeehiivFacts.page_scanned_all ft _ q).
    + intros q p Hq Hcap Hin Hsel.
      rewrite BeehiivFacts.collect_all_posts. cbn [Beehiiv.newsletter_posts app].
      apply List.filter_In. split; [|exact Hsel].
      now apply (PagingFacts.items_read Beehiiv.max_pages stops items
                   fuel 1 q).
    + intros other_brand other_date full.
      now rewrite BeehiivFacts.run_search_walk.
  - intros rg target r. subst r.
    rewrite TinyEmailFacts.campaign_search_walk. cbn [fst snd].
    set (stops := fun q => TinyEmail.stops (rg q)).
    set (items := fun q => TinyEmail.page_content (rg q)).
    set (fuel := Z.to_nat TinyEmail.page_limit).
    assert (Hfuel : TinyEmail.page_limit - 1 + 1 - 0 <= Z.of_nat fuel)
      by (unfold fuel, TinyEmail.page_limit; lia).
    pose proof (PagingFacts.final_page_ge (TinyEmail.page_limit - 1) stops
                  items fuel 0) as Hge.
    pose proof (PagingFacts.final_page_le (TinyEmail.page_limit - 1) stops
                  items fuel 0) as Hle.
    pose proof (PagingFacts.final_page_reason (TinyEmail.page_limit - 1)
                  stops items fuel 0 Hfuel) as Hwhy.
    split; [unfold TinyEmail.page_limit in *; lia|].
    split; [destruct Hwhy as [Hcap|Hstop]; [left|now right];
            unfold TinyEmail.page_limit in *; lia|].
    split; [|split].
    + intros q Hq.
      now destruct (PagingFacts.before_final_page (TinyEmail.page_limit - 1)
                      stops items fuel 0 q Hq).
    + intros q c Hq Hcap Hin Hmatch.
      apply List.filter_In. split; [|exact Hmatch].
      apply (PagingFacts.items_read (TinyEmail.page_limit - 1) stops items
               fuel 0 q); [exact Hfuel|exact Hq|lia|exact Hin].
    + intros other_date. now rewrite TinyEmailFacts.campaign_search_walk.
Qed.

(** C1 on samples: the first page holds another day only, and the item
    of the target day on the second page is returned. *)
Lemma search_stops_on_stop_conditions_only_witness :
  In Samples.post_newsletter
     (Beehiiv.newsletter_posts
        (fst (Beehiiv.run_search Utc.fromtimestamp
                (Samples.api_two_pages "pub_1") "Daily Brief"
                Samples.target true)))
  /\ In Samples.digest_pm
        (fst (TinyEmail.run_search Samples.tiny_two_pages Samples.target)).
Proof.
  destruct search_stops_on_stop_conditions_only as [Hbee Htiny].
  split.
  - destruct (Hbee Utc.fromtimestamp (Samples.api_two_pages "pub_1")
                "Daily Brief" Samples.target) as (_ & _ & _ & Hall & _).
    apply (Hall 2).
    + vm_compute. split; discriminate.
    + vm_compute. discriminate.
    + vm_compute. left. reflexivity.
    + vm_compute. reflexivity.
  - destruct (Htiny Samples.tiny_two_pages Samples.target)
      as (_ & _ & _ & Hall & _).
    apply (Hall 1).
    + vm_compute. split; discriminate.
    + vm_compute. reflexivity.
    + vm_compute. right. left. reflexivity.
    + vm_compute. reflexivity.
Defined.

(** ** The rate calculators *)

Module RateFacts.
Import PyNum RateSpec PyNumFacts.

Lemma six_in_range (a b c d e f : Z) :
  Forall in_float_range [a; b; c; d; e; f] ->
  in_float_range a /\ in_float_range b /\ in_float_range c
  /\ in_float_range d /\ in_float_range e /\ in_float_range f.
Proof.
  intros H. repeat (apply Forall_cons_iff in H as [? H]). tauto.
Qed.

Lemma beehiiv_rates_positive (s d o uo c uc u : Z) :
  0 < s -> Forall in_float_range [d; o; uo; c; uc; u] ->
  Beehiiv.compute_rates s d o uo c uc u
  = Ok (mkrates (PyFloat (percent_of d s)) (PyFloat (percent_of o s))
                (PyFloat (percent_of uo s)) (PyFloat (percent_of c s))
                (PyFloat (percent_of uc s)) (PyFloat (quotient_of u s))).
Proof.
  intros Hs Hr. apply six_in_range in Hr as (? & ? & ? & ? & ? & ?).
  unfold Beehiiv.compute_rates. replace (s >? 0) with true by lia.
  rewrite !ratio_times_100_in_range, ratio_in_range by assumption.
  reflexivity.
Qed.

Lemma tinyemail_rates_positive (s d o uo c uc u : Z) :
  0 < s -> Forall in_float_range [d; o; uo; c; uc; u] ->
  TinyEmail.compute_rates s d o uo c uc u
  = Ok (mkrates (PyFloat (percent_of d s)) (PyFloat (percent_of o s))
                (PyFloat (percent_of uo s)) (PyFloat (percent_of c s))
                (PyFloat (percent_of uc s)) (PyFloat (percent_of u s))).
Proof.
  intros Hs Hr. apply six_in_range in Hr as (? & ? & ? & ? & ? & ?).
  unfold TinyEmail.compute_rates. replace (s >? 0) with true by lia.
  rewrite !ratio_times_100_in_range by assumption.
  reflexivity.
Qed.

Lemma beehiiv_rates_no_sends (s d o uo c uc u : Z) :
  s <= 0 -> Beehiiv.compute_rates s d o uo c uc u = Ok zero_rates.
Proof.
  intros Hs. unfold Beehiiv.compute_rates.
  now replace (s >? 0) with false by lia.
Qed.

Lemma tinyemail_rates_no_sends (s d o uo c uc u : Z) :
  s <= 0 -> TinyEmail.compute_rates s d o uo c uc u = Ok zero_rates.
Proof.
  intros Hs. unfold TinyEmail.compute_rates.
  now replace (s >? 0) with false by lia.
Qed.

Ltac step_ratio Hs :=
  match goal with
  | |- context [ratio_times_100 ?a ?b] =>
      let H := fresh "H" in
      destruct (ratio_times_100 a b) eqn:H; simpl;
      [|intros [= <-]; exact (ratio_times_100_raises a b _ Hs H)]
  | |- context [ratio ?a ?b] =>
      let H := fresh "H" in
      destruct (ratio a b) eqn:H; simpl;
      [|intros [= <-]; exact (ratio_raises a b _ Hs H)]
  end.

(** The calculators raise nothing but [OverflowError]. *)
Lemma beehiiv_rates_raise (s d o uo c uc u : Z) (e : exn) :
  Beehiiv.compute_rates s d o uo c uc u = Raise e -> e = OverflowError.
Proof.
  unfold Beehiiv.compute_rates.
  destruct (Z.gtb_spec s 0) as [Hs|_]; [|discriminate].
  apply Z.gt_lt in Hs || idtac.
  repeat step_ratio Hs. discriminate.
Qed.

Lemma tinyemail_rates_raise (s d o uo c uc u : Z) (e : exn) :
  TinyEmail.compute_rates s d o uo c uc u = Raise e -> e = OverflowError.
Proof.
  unfold TinyEmail.compute_rates.
  destruct (Z.gtb_spec s 0) as [Hs|_]; [|discriminate].
  apply Z.gt_lt in Hs || idtac.
  repeat step_ratio Hs. discriminate.
Qed.

(** When a calculator returns its rates, each is the quotient it was
    computed from. *)
Lemma beehiiv_rates_sound (s d o uo c uc u : Z) (r : rates) :
  0 < s ->
  Beehiiv.compute_rates s d o uo c uc u = Ok r ->
  ratio_times_100 d s = Ok (delivery_rate r)
  /\ ratio_times_100 o s = Ok (open_rate r)
  /\ ratio_times_100 uo s = Ok (unique_open_rate r)
  /\ ratio_times_100 c s = Ok (ctr r)
  /\ ratio_times_100 uc s = Ok (uctr r)
  /\ ratio u s = Ok (unsubscribe_rate r).
Proof.
  intros Hs. unfold Beehiiv.compute_rates.
  replace (s >? 0) with true by lia.
  generalize (ratio_times_100 d s), (ratio_times_100 o s),
    (ratio_times_100 uo s), (ratio_times_100 c s),
    (ratio_times_100 uc s), (ratio u s).
  intros [x1|] [x2|] [x3|] [x4|] [x5|] [x6|]; simpl; try discriminate.
  intros [= <-]. simpl. tauto.
Qed.

Lemma tinyemail_rates_sound (s d o uo c uc u : Z) (r : rates) :
  0 < s ->
  TinyEmail.compute_rates s d o uo c uc u = Ok r ->
  ratio_times_100 d s = Ok (delivery_rate r)
  /\ ratio_times_100 o s = Ok (open_rate r)
  /\ ratio_times_100 uo s = Ok (unique_open_rate r)
  /\ ratio_times_100 c s = Ok (ctr r)
  /\ ratio_times_100 uc s = Ok (uctr r)
  /\ ratio_times_100 u s = Ok (unsubscribe_rate r).
Proof.
  intros Hs. unfold TinyEmail.compute_rates.
  replace (s >? 0) with true by lia.
  generalize (ratio_times_100 d s), (ratio_times_100 o s),
    (ratio_times_100 uo s), (ratio_times_100 c s),
    (ratio_times_100 uc s), (ratio_times_100 u s).
  intros [x1|] [x2|] [x3|] [x4|] [x5|] [x6|]; simpl; try discriminate.
  intros [= <-]. simpl. tauto.
Qed.

(** The rate of the specification is the code's quotient, rounded. *)
Lemma spec_rate_of_ratio (a b : Z) (x : pynum) :
  ratio_times_100 a b = Ok x -> spec_rate a b = Ok (round x 2).
Proof.
  unfold ratio_times_100, spec_rate.
  destruct (int_truediv a b); simpl; [|discriminate]. now intros [= <-].
Qed.

Lemma spec_fraction_of_ratio (a b : Z) (x : pynum) :
  ratio a b = Ok x -> spec_unsubscribe_fraction a b = Ok (round x 4).
Proof.
  unfold ratio, spec_unsubscribe_fraction.
  destruct (int_truediv a b); simpl; [|discriminate]. now intros [= <-].
Qed.

Lemma spec_percent_of_ratio (a b : Z) (x : pynum) :
  ratio_times_100 a b = Ok x ->
  spec_unsubscribe_percent a b = Ok (round x 4).
Proof.
  unfold ratio_times_100, spec_unsubscribe_percent.
  destruct (int_truediv a b); simpl; [|discriminate]. now intros [= <-].
Qed.

End RateFacts.

Import PyNum RateSpec.

(** C4: the rate calculators of both collectors never raise a division
    error.  With [sends = 0] they return a record whose six rates are all
    the integer 0.  With [sends > 0] they return a record whenever the
    numerators are in the range of the doubles, and whenever they return
    one its five percentage rates are [round(numerator / sends * 100, 2)].
    A rate may exceed 100: it is 300.0 for three opens per send. *)
Theorem rates_total_and_uncapped :
  (forall (fromtimestamp : Z -> result date) (now : date)
          (p : Beehiiv.post) (brand_name : string) (previous : Z)
          (d : date),
      Beehiiv.post_date_of fromtimestamp now p = Ok d ->
      let e := dget (Beehiiv.stats_email p) Beehiiv.empty_stats in
      let sends := dget (Beehiiv.recipients e) 0 in
      let metrics :=
        Beehiiv.extract_metrics fromtimestamp now p brand_name previous in
      metrics <> Raise ZeroDivisionError
      /\ (sends = 0 ->
          exists m, metrics = Ok m
                    /\ rate_fields m = repeat (PyInt 0) 6)
      /\ (0 < sends ->
          (Forall in_float_range (Beehiiv.numerators p) ->
           exists m, metrics = Ok m)
          /\ (forall m,
                metrics = Ok m ->
                Ok (m_Delivered m)
                = spec_rate (dget (Beehiiv.delivered e) 0) sends
                /\ Ok (m_Open_Rate m)
                   = spec_rate (dget (Beehiiv.opens e) 0) sends
                /\ Ok (m_Unique_Open_Rate m)
                   = spec_rate (dget (Beehiiv.unique_opens e) 0) sends
                /\ Ok (m_CTR m)
                   = spec_rate (dget (Beehiiv.clicks e) 0) sends
                /\ Ok (m_UCTR m)
                   = spec_rate (dget (Beehiiv.unique_clicks e) 0) sends)))
  /\ (forall (c : TinyEmail.campaign) (brand_name : string)
             (target_date : date) (segment : string) (list_growth : Z),
        let sends := dget (TinyEmail.sent c) 0 in
        let metrics :=
          TinyEmail.create_metric c brand_name target_date segment
                                  list_growth in
        metrics <> Raise ZeroDivisionError
        /\ (sends = 0 ->
            exists m, metrics = Ok m
                      /\ rate_fields m = repeat (PyInt 0) 6)
        /\ (0 < sends ->
            (Forall in_float_range (TinyEmail.numerators c) ->
             exists m, metrics = Ok m)
            /\ (forall m,
                  metrics = Ok m ->
                  Ok (m_Delivered m)
                  = spec_rate (dget (TinyEmail.delivered c) 0) sends
                  /\ Ok (m_Open_Rate m)
                     = spec_rate (dget (TinyEmail.totalOpen c) 0) sends
                  /\ Ok (m_Unique_Open_Rate m)
                     = spec_rate (dget (TinyEmail.open c) 0) sends
                  /\ Ok (m_CTR m)
                     = spec_rate (dget (TinyEmail.totalClicked c) 0) sends
                  /\ Ok (m_UCTR m)
                     = spec_rate (dget (TinyEmail.clicked c) 0) sends)))
  /\ (exists m f,
        Beehiiv.extract_metrics Utc.fromtimestamp Samples.target
          Samples.post_reopened "Daily Brief" 0 = Ok m
        /\ m_Open_Rate m = PyFloat f
        /\ SFltb (float_of_Z 100) f = true)
  /\ (exists m f,
        TinyEmail.create_metric Samples.digest_reopened "Brand AM"
          Samples.target "AM" 0 = Ok m
        /\ m_Open_Rate m = PyFloat f
        /\ SFltb (float_of_Z 100) f = true).
Proof.
  split; [|split; [|split]].
  - intros ft now p brand previous d Hd e sends metrics.
    subst metrics. unfold Beehiiv.extract_metrics. rewrite Hd. simpl.
    fold e. fold sends. split; [|split].
    + destruct (Beehiiv.compute_rates _ _ _ _ _ _ _) as [r|err] eqn:Hr;
        simpl; [discriminate|].
      apply RateFacts.beehiiv_rates_raise in Hr. subst err. discriminate.
    + intros Hs. rewrite RateFacts.beehiiv_rates_no_sends by lia.
      simpl. eexists. split; reflexivity.
    + intros Hs. split.
      * intros Hrange. unfold Beehiiv.numerators in Hrange.
        fold e in Hrange.
        rewrite RateFacts.beehiiv_rates_positive by assumption.
        simpl. eexists. reflexivity.
      * intros m.
        destruct (Beehiiv.compute_rates _ _ _ _ _ _ _) as [r|err] eqn:Hr;
          simpl; [|discriminate].
        apply (RateFacts.beehiiv_rates_sound _ _ _ _ _ _ _ _ Hs) in Hr
          as (H1 & H2 & H3 & H4 & H5 & _).
        intros [= <-]. simpl.
        now rewrite (RateFacts.spec_rate_of_ratio _ _ _ H1),
          (RateFacts.spec_rate_of_ratio _ _ _ H2),
          (RateFacts.spec_rate_of_ratio _ _ _ H3),
          (RateFacts.spec_rate_of_ratio _ _ _ H4),
          (RateFacts.spec_rate_of_ratio _ _ _ H5).
  - intros c brand target segment growth sends metrics.
    subst metrics. unfold TinyEmail.create_metric. fold sends.
    split; [|split].
    + destruct (TinyEmail.compute_rates _ _ _ _ _ _ _) as [r|err] eqn:Hr;
        simpl; [discriminate|].
      apply RateFacts.tinyemail_rates_raise in Hr. subst err. discriminate.
    + intros Hs. rewrite RateFacts.tinyemail_rates_no_sends by lia.
      simpl. eexists. split; reflexivity.
    + intros Hs. split.
      * intros Hrange. unfold TinyEmail.numerators in Hrange.
        rewrite RateFacts.tinyemail_rates_positive by assumption.
        simpl. eexists. reflexivity.
      * intros m.
        destruct (TinyEmail.compute_rates _ _ _ _ _ _ _) as [r|err] eqn:Hr;
          simpl; [|discriminate].
        apply (RateFacts.tinyemail_rates_sound _ _ _ _ _ _ _ _ Hs) in Hr
          as (H1 & H2 & H3 & H4 & H5 & _).
        intros [= <-]. simpl.
        now rewrite (RateFacts.spec_rate_of_ratio _ _ _ H1),
          (RateFacts.spec_rate_of_ratio _ _ _ H2),
          (RateFacts.spec_rate_of_ratio _ _ _ H3),
          (RateFacts.spec_rate_of_ratio _ _ _ H4),
          (RateFacts.spec_rate_of_ratio _ _ _ H5).
  - eexists. eexists. split; [vm_compute; reflexivity|].
    split; [reflexivity|vm_compute; reflexivity].
  - eexists. eexists. split; [vm_compute; reflexivity|].
    split; [reflexivity|vm_compute; reflexivity].
Qed.

(** C4 on samples: a post and a campaign without sends, and the two-page
    sample's post with 5000 sends. *)
Lemma rates_total_and_uncapped_witness :
  (exists m,
      Beehiiv.extract_metrics Utc.fromtimestamp Samples.target
        Samples.post_unsent "Daily Brief" 0 = Ok m
      /\ rate_fields m = repeat (PyInt 0) 6)
  /\ (exists m,
        TinyEmail.create_metric Samples.digest_unsent "Brand AM"
          Samples.target "AM" 0 = Ok m
        /\ rate_fields m = repeat (PyInt 0) 6)
  /\ (exists m,
        Beehiiv.extract_metrics Utc.fromtimestamp Samples.target
          Samples.post_newsletter "Daily Brief" 0 = Ok m
        /\ Ok (m_Delivered m) = spec_rate 4900 5000).
Proof.
  destruct rates_total_and_uncapped as (Hbee & Htiny & _).
  split; [|split].
  - destruct (Hbee Utc.fromtimestamp Samples.target Samples.post_unsent
                "Daily Brief" 0 Samples.target eq_refl) as (_ & Hzero & _).
    apply Hzero. reflexivity.
  - destruct (Htiny Samples.digest_unsent "Brand AM" Samples.target "AM" 0)
      as (_ & Hzero & _).
    apply Hzero. reflexivity.
  - destruct (Hbee Utc.fromtimestamp Samples.target Samples.post_newsletter
                "Daily Brief" 0 Samples.target eq_refl) as (_ & _ & Hpos).
    destruct Hpos as [Hreturns Hsound]; [reflexivity|].
    destruct Hreturns as [m Hm]; [repeat constructor|].
    exists m. split; [exact Hm|]. now apply Hsound.
Defined.

(** C5: for [sends > 0], Beehiiv emits the unsubscribe rate as the
    fraction [unsubscribes / sends] and TinyEmail as the percentage
    [unsubscribes / sends * 100], both rounded to 4 places, while the five
    other rates of both are percentages rounded to 2 places; a record is
    returned whenever the numerators are in the range of the doubles.  On
    5 unsubscribes for 5000 sends the two paths differ: 0.001 and 0.1. *)
Theorem unsubscribe_rate_asymmetry :
  (forall (fromtimestamp : Z -> result date) (now : date)
          (p : Beehiiv.post) (brand_name : string) (previous : Z)
          (d : date),
      Beehiiv.post_date_of fromtimestamp now p = Ok d ->
      let e := dget (Beehiiv.stats_email p) Beehiiv.empty_stats in
      let sends := dget (Beehiiv.recipients e) 0 in
      let metrics :=
        Beehiiv.extract_metrics fromtimestamp now p brand_name previous in
      0 < sends ->
      (Forall in_float_range (Beehiiv.numerators p) ->
       exists m, metrics = Ok m)
      /\ (forall m,
            metrics = Ok m ->
            Ok (m_Pct_Unsubscribe m)
            = spec_unsubscribe_fraction
                (dget (Beehiiv.unsubscribes e) 0) sends
            /\ map Ok [m_Delivered m; m_Open_Rate m; m_Unique_Open_Rate m;
                       m_CTR m; m_UCTR m]
               = map (fun n => spec_rate n sends)
                     (firstn 5 (Beehiiv.numerators p))))
  /\ (forall (c : TinyEmail.campaign) (brand_name : string)
             (target_date : date) (segment : string) (list_growth : Z),
        let sends := dget (TinyEmail.sent c) 0 in
        let metrics :=
          TinyEmail.create_metric c brand_name target_date segment
                                  list_growth in
        0 < sends ->
        (Forall in_float_range (TinyEmail.numerators c) ->
         exists m, metrics = Ok m)
        /\ (forall m,
              metrics = Ok m ->
              Ok (m_Pct_Unsubscribe m)
              = spec_unsubscribe_percent
                  (dget (TinyEmail.unsubscribed c) 0) sends
              /\ map Ok [m_Delivered m; m_Open_Rate m;
                         m_Unique_Open_Rate m; m_CTR m; m_UCTR m]
                 = map (fun n => spec_rate n sends)
                       (firstn 5 (TinyEmail.numerators c))))
  /\ (exists m m',
        Beehiiv.extract_metrics Utc.fromtimestamp Samples.target
          Samples.post_newsletter "Daily Brief" 0 = Ok m
        /\ TinyEmail.create_metric Samples.digest_pm "Brand PM"
             Samples.target "PM" 0 = Ok m'
        /\ m_Sends m = 5000 /\ m_Unsubscribes m = 5
        /\ m_Sends m' = 5000 /\ m_Unsubscribes m' = 5
        /\ Ok (m_Pct_Unsubscribe m) = ratio 1 1000
        /\ Ok (m_Pct_Unsubscribe m') = ratio 1 10).
Proof.
  split; [|split].
  - intros ft now p brand previous d Hd e sends metrics Hs.
    subst metrics. unfold Beehiiv.extract_metrics. rewrite Hd. simpl.
    fold e. fold sends. unfold Beehiiv.numerators. fold e. split.
    + intros Hrange.
      rewrite RateFacts.beehiiv_rates_positive by assumption.
      simpl. eexists. reflexivity.
    + intros m.
      destruct (Beehiiv.compute_rates _ _ _ _ _ _ _) as [r|err] eqn:Hr;
        simpl; [|discriminate].
      apply (RateFacts.beehiiv_rates_sound _ _ _ _ _ _ _ _ Hs) in Hr
        as (H1 & H2 & H3 & H4 & H5 & H6).
      intros [= <-]. simpl.
      now rewrite (RateFacts.spec_rate_of_ratio _ _ _ H1),
        (RateFacts.spec_rate_of_ratio _ _ _ H2),
        (RateFacts.spec_rate_of_ratio _ _ _ H3),
        (RateFacts.spec_rate_of_ratio _ _ _ H4),
        (RateFacts.spec_rate_of_ratio _ _ _ H5),
        (RateFacts.spec_fraction_of_ratio _ _ _ H6).
  - intros c brand target segment growth sends metrics Hs.
    subst metrics. unfold TinyEmail.create_metric. fold sends.
    unfold TinyEmail.numerators. split.
    + intros Hrange.
      rewrite RateFacts.tinyemail_rates_positive by assumption.
      simpl. eexists. reflexivity.
    + intros m.
      destruct (TinyEmail.compute_rates _ _ _ _ _ _ _) as [r|err] eqn:Hr;
        simpl; [|discriminate].
      apply (RateFacts.tinyemail_rates_sound _ _ _ _ _ _ _ _ Hs) in Hr
        as (H1 & H2 & H3 & H4 & H5 & H6).
      intros [= <-]. simpl.
      now rewrite (RateFacts.spec_rate_of_ratio _ _ _ H1),
        (RateFacts.spec_rate_of_ratio _ _ _ H2),
        (RateFacts.spec_rate_of_ratio _ _ _ H3),
        (RateFacts.spec_rate_of_ratio _ _ _ H4),
        (RateFacts.spec_rate_of_ratio _ _ _ H5),
        (RateFacts.spec_percent_of_ratio _ _ _ H6).
  - eexists. eexists.
    split; [vm_compute; reflexivity|].
    split; [vm_compute; reflexivity|].
    repeat split; vm_compute; reflexivity.
Qed.

(** C5 on samples: 5 unsubscribes for 5000 sends on both paths. *)
Lemma unsubscribe_rate_asymmetry_witness :
  (exists m,
      Beehiiv.extract_metrics Utc.fromtimestamp Samples.target
        Samples.post_newsletter "Daily Brief" 0 = Ok m
      /\ Ok (m_Pct_Unsubscribe m) = spec_unsubscribe_fraction 5 5000)
  /\ (exists m,
        TinyEmail.create_metric Samples.digest_pm "Brand PM"
          Samples.target "PM" 0 = Ok m
        /\ Ok (m_Pct_Unsubscribe m) = spec_unsubscribe_percent 5 5000).
Proof.
  destruct unsubscribe_rate_asymmetry as (Hbee & Htiny & _).
  split.
  - destruct (Hbee Utc.fromtimestamp Samples.target Samples.post_newsletter
                "Daily Brief" 0 Samples.target eq_refl)
      as [Hreturns Hsound]; [reflexivity|].
    destruct Hreturns as [m Hm]; [repeat constructor|].
    exists m. split; [exact Hm|]. now apply Hsound.
  - destruct (Htiny Samples.digest_pm "Brand PM" Samples.target "PM" 0)
      as [Hreturns Hsound]; [reflexivity|].
    destruct Hreturns as [m Hm]; [repeat constructor|].
    exists m. split; [exact Hm|]. now apply Hsound.
Defined.

(** ** The persistence writer *)

Module WriterFacts.
Import SupabaseWriter.

Lemma cond_Zopp_involutive (s : bool) (z : Z) :
  cond_Zopp s (cond_Zopp s z) = z.
Proof. destruct s; simpl; lia. Qed.

(** [int(f)] is the truncation of [f] toward zero. *)
Lemma int_of_float_truncates (f : spec_float) (k : Z) :
  int_of_float f = Ok k -> is_truncation f k.
Proof.
  destruct f as [s|s| |s m e]; simpl; try discriminate.
  - now intros [= <-].
  - intros [= <-]. rewrite cond_Zopp_involutive.
    destruct (Z.leb_spec 0 e) as [He|He].
    + split; [|reflexivity]. apply Z.mul_nonneg_nonneg; [lia|].
      now apply Z.pow_nonneg.
    + assert (Hd : 0 < 2 ^ (- e)) by (apply Z.pow_pos_nonneg; lia).
      split; [apply Z.div_pos; lia|]. split.
      * rewrite Z.mul_comm. apply Z.mul_div_le. exact Hd.
      * rewrite Z.mul_comm. apply Z.mul_succ_div_gt. exact Hd.
Qed.

(** [float(x)] keeps the value of a rate. *)
Lemma to_float_rate (x : pynum) :
  rate_value x -> exists f, to_float x = Ok f /\ same_value x f.
Proof.
  destruct x as [z|f]; simpl.
  - intros ->. now exists (S754_zero false).
  - intros _. now exists f.
Qed.

Lemma int_of_float_finite (x : pynum) :
  finite_rate x ->
  exists f k, to_float x = Ok f /\ int_of_float f = Ok k.
Proof.
  destruct x as [z|[s|s| |s m e]]; simpl; try contradiction.
  - intros ->. now exists (S754_zero false), 0.
  - intros _. now exists (S754_zero s), 0.
  - intros _. eexists. eexists. split; reflexivity.
Qed.

(** The rates of a calculator's record are floats or the integer 0. *)
Lemma round_rate_value (x : pynum) (ndigits : Z) :
  rate_value x -> rate_value (round x ndigits).
Proof. now destruct x. Qed.

Lemma ratio_times_100_value (a b : Z) (x : pynum) :
  ratio_times_100 a b = Ok x -> rate_value x.
Proof.
  unfold ratio_times_100. destruct (int_truediv a b); simpl;
    [|discriminate].
  now intros [= <-].
Qed.

Lemma ratio_value (a b : Z) (x : pynum) :
  ratio a b = Ok x -> rate_value x.
Proof.
  unfold ratio. destruct (int_truediv a b); simpl; [|discriminate].
  now intros [= <-].
Qed.

Ltac step_value :=
  match goal with
  | |- context [ratio_times_100 ?a ?b] =>
      let H := fresh "H" in
      destruct (ratio_times_100 a b) eqn:H; simpl; [|discriminate];
      apply ratio_times_100_value in H
  | |- context [ratio ?a ?b] =>
      let H := fresh "H" in
      destruct (ratio a b) eqn:H; simpl; [|discriminate];
      apply ratio_value in H
  end.

Lemma beehiiv_rates_values (s d o uo c uc u : Z) (r : rates) :
  Beehiiv.compute_rates s d o uo c uc u = Ok r -> rates_are_values r.
Proof.
  unfold Beehiiv.compute_rates, rates_are_values.
  destruct (s >? 0).
  - repeat step_value. intros [= <-]. simpl. tauto.
  - intros [= <-]. simpl. tauto.
Qed.

Lemma tinyemail_rates_values (s d o uo c uc u : Z) (r : rates) :
  TinyEmail.compute_rates s d o uo c uc u = Ok r -> rates_are_values r.
Proof.
  unfold TinyEmail.compute_rates, rates_are_values.
  destruct (s >? 0).
  - repeat step_value. intros [= <-]. simpl. tauto.
  - intros [= <-]. simpl. tauto.
Qed.

(** Every record of [extract_metrics] carries rates that are floats or
    the integer 0. *)
Lemma extract_metrics_rate_values (fromtimestamp : Z -> result date)
    (now : date) (p : Beehiiv.post) (brand : string) (previous : Z)
    (m : metric) :
  Beehiiv.extract_metrics fromtimestamp now p brand previous = Ok m ->
  Forall rate_value (RateSpec.rate_fields m).
Proof.
  unfold Beehiiv.extract_metrics.
  destruct (Beehiiv.post_date_of _ _ _); simpl; [|discriminate].
  destruct (Beehiiv.compute_rates _ _ _ _ _ _ _) as [r|] eqn:Hr; simpl;
    [|discriminate].
  apply beehiiv_rates_values in Hr as (? & ? & ? & ? & ? & ?).
  intros [= <-]. unfold RateSpec.rate_fields. simpl.
  repeat constructor; now apply round_rate_value.
Qed.

(** Every record of [create_metric] does as well. *)
Lemma create_metric_rate_values (c : TinyEmail.campaign) (brand : string)
    (target : date) (segment : string) (growth : Z) (m : metric) :
  TinyEmail.create_metric c brand target segment growth = Ok m ->
  Forall rate_value (RateSpec.rate_fields m).
Proof.
  unfold TinyEmail.create_metric.
  destruct (TinyEmail.compute_rates _ _ _ _ _ _ _) as [r|] eqn:Hr; simpl;
    [|discriminate].
  apply tinyemail_rates_values in Hr as (? & ? & ? & ? & ? & ?).
  intros [= <-]. unfold RateSpec.rate_fields. simpl.
  repeat constructor; now apply round_rate_value.
Qed.

End WriterFacts.

Import SupabaseWriter.

(** C9 fails for the delivered rate: the record of a post delivered to
    4532 of 5000 recipients carries 90.64, and the row holds 90. *)
Lemma delivered_rate_is_truncated :
  exists m row,
    Beehiiv.extract_metrics Utc.fromtimestamp Samples.target
      Samples.post_delivered "Daily Brief" 0 = Ok m
    /\ Ok (m_Delivered m) = ratio 9064 100
    /\ transform "2025-10-16T06:00:00" "2025-10-16T06:00:00" m = Ok row
    /\ col_delivered row = 90
    /\ PyNum.eqb (PyInt (col_delivered row)) (m_Delivered m) = false.
Proof.
  eexists. eexists.
  split; [vm_compute; reflexivity|].
  split; [vm_compute; reflexivity|].
  split; [vm_compute; reflexivity|].
  split; vm_compute; reflexivity.
Qed.

(** C9, amended: for a record whose rates are floats or the integer 0 (as
    both calculators emit them) and whose delivered rate is finite, the
    writer builds a row in which the open rate, unique open rate, CTR,
    UCTR and unsubscribe rate columns hold the values the record carries,
    and the delivered column holds the delivered rate truncated toward
    zero to an integer. *)
Theorem writer_keeps_rates_truncates_delivered
    (created_at updated_at : string) (record : metric) :
  Forall rate_value
    [m_Open_Rate record; m_Unique_Open_Rate record; m_CTR record;
     m_UCTR record; m_Pct_Unsubscribe record] ->
  finite_rate (m_Delivered record) ->
  exists row delivered_float,
    transform created_at updated_at record = Ok row
    /\ to_float (m_Delivered record) = Ok delivered_float
    /\ is_truncation delivered_float (col_delivered row)
    /\ same_value (m_Open_Rate record) (col_open_rate row)
    /\ same_value (m_Unique_Open_Rate record) (col_unique_open_rate row)
    /\ same_value (m_CTR record) (col_ctr row)
    /\ same_value (m_UCTR record) (col_uctr row)
    /\ same_value (m_Pct_Unsubscribe record) (col_unsubscribe_rate row).
Proof.
  intros Hrates Hfinite.
  repeat (apply Forall_cons_iff in Hrates as [? Hrates]).
  destruct (WriterFacts.int_of_float_finite _ Hfinite)
    as (df & k & Hdf & Hk).
  destruct (WriterFacts.to_float_rate (m_Open_Rate record))
    as (f1 & Hf1 & Hv1); [assumption|].
  destruct (WriterFacts.to_float_rate (m_Unique_Open_Rate record))
    as (f2 & Hf2 & Hv2); [assumption|].
  destruct (WriterFacts.to_float_rate (m_CTR record))
    as (f3 & Hf3 & Hv3); [assumption|].
  destruct (WriterFacts.to_float_rate (m_UCTR record))
    as (f4 & Hf4 & Hv4); [assumption|].
  destruct (WriterFacts.to_float_rate (m_Pct_Unsubscribe record))
    as (f5 & Hf5 & Hv5); [assumption|].
  unfold transform. rewrite Hdf, Hf1, Hf2, Hf3, Hf4, Hf5. simpl.
  rewrite Hk. simpl.
  eexists. exists df. split; [reflexivity|]. simpl.
  split; [reflexivity|].
  split; [now apply WriterFacts.int_of_float_truncates|].
  tauto.
Qed.

(** C9 on the record of the 90.64 percent sample. *)
Lemma writer_keeps_rates_truncates_delivered_witness :
  exists m row,
    Beehiiv.extract_metrics Utc.fromtimestamp Samples.target
      Samples.post_delivered "Daily Brief" 0 = Ok m
    /\ transform "2025-10-16T06:00:00" "2025-10-16T06:00:00" m = Ok row
    /\ same_value (m_Open_Rate m) (col_open_rate row)
    /\ same_value (m_Pct_Unsubscribe m) (col_unsubscribe_rate row).
Proof.
  eexists.
  assert (Hm : Beehiiv.extract_metrics Utc.fromtimestamp Samples.target
                 Samples.post_delivered "Daily Brief" 0 = Ok _)
    by (vm_compute; reflexivity).
  match type of Hm with _ = Ok ?m =>
    destruct (writer_keeps_rates_truncates_delivered
                "2025-10-16T06:00:00" "2025-10-16T06:00:00" m)
      as (row & df & Hrow & _ & _ & Hopen & _ & _ & _ & Hunsub)
  end.
  - repeat constructor.
  - exact I.
  - exists row. split; [exact Hm|]. split; [exact Hrow|].
    split; [exact Hopen|exact Hunsub].
Defined.

(** * Further properties *)

(** X1: list growth on the TinyEmail path.  Every record the collector
    emits for an API key is an AM or a PM record whose list growth is its
    sends minus the sends booked under its segment among the campaigns
    found for the day before; when none was found, it is its sends. *)
Theorem tinyemail_list_growth
    (brand_names : gmap string string)
    (get_yesterday get_before : Z -> http_result TinyEmail.campaigns_page)
    (api_brand : string) (yesterday day_before : date)
    (records : list metric) :
  TinyEmail.collect_key brand_names get_yesterday get_before api_brand
                        yesterday day_before = Ok records ->
  let previous := TinyEmail.get_campaigns_for_date get_before day_before in
  Forall
    (fun m =>
       (m_Campaign_Type m = "AM" \/ m_Campaign_Type m = "PM")
       /\ m_List_Growth m
          = m_Sends m - TinyEmail.baseline (m_Campaign_Type m) previous
       /\ (previous = [] -> m_List_Growth m = m_Sends m))
    records.
Proof.
  intros Hcollect previous. revert Hcollect.
  unfold TinyEmail.collect_key. fold previous.
  destruct (TinyEmail.separate_all_campaigns _) as [am pm].
  destruct (map_result _ am) as [am_metrics|] eqn:Ham; simpl;
    [|discriminate].
  destruct (map_result _ pm) as [pm_metrics|] eqn:Hpm; simpl;
    [|discriminate].
  intros [= <-]. apply Forall_app. split.
  - apply (CollectFacts.map_result_forall _ _ _ _ Ham).
    intros c m _ Hm.
    apply CollectFacts.create_metric_copies in Hm as (Hs & Hg & Ht).
    simpl in Ht. rewrite Ht, Hg, Hs.
    rewrite TinyEmailFacts.get_previous_sends_baseline.
    split; [now left|]. split; [reflexivity|].
    intros Hnone. rewrite Hnone. simpl.
    unfold TinyEmail.campaign_sends. lia.
  - apply (CollectFacts.map_result_forall _ _ _ _ Hpm).
    intros c m _ Hm.
    apply CollectFacts.create_metric_copies in Hm as (Hs & Hg & Ht).
    simpl in Ht. rewrite Ht, Hg, Hs.
    rewrite TinyEmailFacts.get_previous_sends_baseline.
    split; [now right|]. split; [reflexivity|].
    intros Hnone. rewrite Hnone. simpl.
    unfold TinyEmail.campaign_sends. lia.
Qed.

(** X1 on samples: the day before holds one AM campaign of 6100 sends
    and no PM campaign. *)
Lemma tinyemail_list_growth_witness :
  exists records,
    TinyEmail.collect_key ∅ Samples.tiny_two_pages Samples.tiny_day_before
      "brand_a" Samples.target Samples.day_before = Ok records
    /\ map m_Campaign_Type records = ["AM"; "PM"]
    /\ map m_List_Growth records = [6000 - 6100; 5000 - 0]
    /\ Forall
         (fun m =>
            (m_Campaign_Type m = "AM" \/ m_Campaign_Type m = "PM")
            /\ m_List_Growth m
               = m_Sends m
                 - TinyEmail.baseline (m_Campaign_Type m)
                     (TinyEmail.get_campaigns_for_date
                        Samples.tiny_day_before Samples.day_before)
            /\ (TinyEmail.get_campaigns_for_date Samples.tiny_day_before
                   Samples.day_before = [] ->
                m_List_Growth m = m_Sends m))
         records.
Proof.
  eexists. split; [vm_compute; reflexivity|].
  split; [reflexivity|]. split; [reflexivity|].
  apply (tinyemail_list_growth ∅ Samples.tiny_two_pages
           Samples.tiny_day_before "brand_a" Samples.target
           Samples.day_before).
  vm_compute. reflexivity.
Defined.

(** X2: list growth on the Beehiiv path.  Every record the collector
    emits for a brand has a list growth equal to its sends minus the
    recipient count of the count-only search of the day before. *)
Theorem beehiiv_list_growth
    (fromtimestamp : Z -> result date) (now : date)
    (publications : gmap string Beehiiv.publication)
    (get_before get_yesterday
       : string -> Z -> http_result Beehiiv.posts_page)
    (brand_name : string) (yesterday day_before_yesterday : date)
    (records : list metric) :
  Beehiiv.collect_brand fromtimestamp now publications get_before
    get_yesterday brand_name yesterday day_before_yesterday = Ok records ->
  Forall
    (fun m =>
       m_List_Growth m
       = m_Sends m
         - Beehiiv.recipients_total
             (Beehiiv.get_posts_for_date fromtimestamp publications
                get_before brand_name day_before_yesterday false))
    records.
Proof.
  unfold Beehiiv.collect_brand. intros Hcollect.
  apply (CollectFacts.map_result_forall _ _ _ _ Hcollect).
  intros p m _ Hm.
  apply CollectFacts.extract_metrics_copies in Hm as [-> ->].
  reflexivity.
Qed.

(** X2 on samples: 5000 recipients on the target day, 4800 the day
    before. *)
Lemma beehiiv_list_growth_witness :
  exists records,
    Beehiiv.collect_brand Utc.fromtimestamp Samples.target Samples.catalog
      Samples.api_two_days Samples.api_two_days "Daily Brief"
      Samples.target Samples.day_before = Ok records
    /\ map m_List_Growth records = [5000 - 4800]
    /\ Forall
         (fun m =>
            m_List_Growth m
            = m_Sends m
              - Beehiiv.recipients_total
                  (Beehiiv.get_posts_for_date Utc.fromtimestamp
                     Samples.catalog Samples.api_two_days "Daily Brief"
                     Samples.day_before false))
         records.
Proof.
  eexists. split; [vm_compute; reflexivity|]. split; [reflexivity|].
  apply (beehiiv_list_growth Utc.fromtimestamp Samples.target
           Samples.catalog Samples.api_two_days Samples.api_two_days
           "Daily Brief" Samples.target Samples.day_before).
  vm_compute. reflexivity.
Defined.

(** X3: the page cap.  When no page within the cap stops the loop, the
    Beehiiv search reads pages 1 to 50 and the TinyEmail search pages 0 to
    19, each in full, and nothing beyond; the counter ends at 51 and at
    20. *)
Theorem page_cap_bounds_search :
  (forall (fromtimestamp : Z -> result date)
          (session_get : Z -> http_result Beehiiv.posts_page)
          (brand_name : string) (target_date : date),
      (forall q, 1 <= q <= 50 ->
         Beehiiv.stops fromtimestamp (session_get q) q = false) ->
      Beehiiv.run_search fromtimestamp session_get brand_name target_date
                         true
      = (Beehiiv.collect_all true
           (List.filter
              (Beehiiv.selected fromtimestamp
                 (Beehiiv.use_tag_filter brand_name) target_date)
              (flat_map (fun q => Beehiiv.page_posts (session_get q))
                        (Paging.pages_from 1 50)))
           (Beehiiv.mkaccum [] 0),
         51))
  /\ (forall (requests_get : Z -> http_result TinyEmail.campaigns_page)
             (target_date : date),
        (forall q, 0 <= q <= 19 ->
           TinyEmail.stops (requests_get q) = false) ->
        TinyEmail.run_search requests_get target_date
        = (List.filter (TinyEmail.matches_date target_date)
             (flat_map (fun q => TinyEmail.page_content (requests_get q))
                       (Paging.pages_from 0 20)),
           20)).
Proof.
  split.
  - intros ft sg brand target Hgo.
    rewrite BeehiivFacts.run_search_walk.
    rewrite (PagingFacts.walk_to_cap Beehiiv.max_pages
               (fun q => Beehiiv.stops ft (sg q) q)
               (fun q => Beehiiv.page_scanned ft (sg q))
               (Z.to_nat Beehiiv.max_pages) 1);
      [|unfold Beehiiv.max_pages; lia|unfold Beehiiv.max_pages; lia
       |intros q Hq; apply Hgo; unfold Beehiiv.max_pages in Hq; lia].
    cbn [fst snd]. f_equal. f_equal. f_equal.
    apply flat_map_agree. intros q Hq.
    apply PagingFacts.in_pages_from in Hq.
    apply (BeehiivFacts.page_scanned_all ft _ q). apply Hgo.
    unfold Beehiiv.max_pages in Hq. lia.
  - intros rg target Hgo.
    rewrite TinyEmailFacts.campaign_search_walk.
    rewrite (PagingFacts.walk_to_cap (TinyEmail.page_limit - 1)
               (fun q => TinyEmail.stops (rg q))
               (fun q => TinyEmail.page_content (rg q))
               (Z.to_nat TinyEmail.page_limit) 0);
      [reflexivity|unfold TinyEmail.page_limit; lia
       |unfold TinyEmail.page_limit; lia
       |intros q Hq; apply Hgo; unfold TinyEmail.page_limit in Hq; lia].
Qed.

(** X3 on samples: the items of the target day sit on the page after the
    cap and are not returned. *)
Lemma page_cap_bounds_search_witness :
  Beehiiv.run_search Utc.fromtimestamp (Samples.api_endless "pub_1")
    "Daily Brief" Samples.target true
  = (Beehiiv.mkaccum [] 0, 51)
  /\ TinyEmail.run_search Samples.tiny_endless Samples.target = ([], 20).
Proof.
  destruct page_cap_bounds_search as [Hbee Htiny].
  split.
  - rewrite Hbee; [vm_compute; reflexivity|].
    intros q Hq. unfold Samples.api_endless, Beehiiv.max_pages.
    replace (q <=? 50) with true by lia.
    unfold Beehiiv.stops, Samples.ok_page.
    cbn [dget Beehiiv.data Beehiiv.total_pages Beehiiv.failed negb orb
         Z.eqb Pos.eqb].
    replace (q >=? 60) with false by lia.
    vm_compute. reflexivity.
  - rewrite Htiny; [vm_compute; reflexivity|].
    intros q Hq. unfold Samples.tiny_endless, TinyEmail.page_limit.
    replace (q <? 20) with true by lia. reflexivity.
Defined.

(** X4: a TinyEmail campaign is taken for the target date exactly when
    its name contains one of the four renderings of that date as a
    substring, wherever it stands in the name. *)
Theorem matches_date_is_substring (target_date : date)
    (c : TinyEmail.campaign) :
  TinyEmail.matches_date target_date c = true
  <-> exists date_fmt pre post,
        In date_fmt [Strftime.m_d_y target_date;
                     Strftime.m_d_Y target_date;
                     Strftime.m_d_y_nopad target_date;
                     Strftime.iso target_date]
        /\ TinyEmail.campaign_name c = pre +:+ date_fmt +:+ post.
Proof.
  unfold TinyEmail.matches_date, TinyEmail.date_formats.
  rewrite existsb_exists. split.
  - intros (date_fmt & Hin & Hsub).
    apply PyStrFacts.substr_in_iff in Hsub as (pre & post & Hname).
    now exists date_fmt, pre, post.
  - intros (date_fmt & pre & post & Hin & Hname).
    exists date_fmt. split; [exact Hin|].
    apply PyStrFacts.substr_in_iff. now exists pre, post.
Qed.

(** X4 on samples: the unpadded rendering of 2025-01-05 stands inside
    the name of a campaign of 2025-11-05. *)
Lemma matches_date_is_substring_witness :
  TinyEmail.matches_date Samples.january_fifth Samples.digest_november
  = true.
Proof.
  apply matches_date_is_substring.
  exists "1.5.25", "Daily Digest 1", "".
  split; [vm_compute; auto|reflexivity].
Defined.

(** X5: a Beehiiv post counts as a newsletter exactly when one of its
    tags, lower-cased, contains one of the six tag variations. *)
Theorem newsletter_tag_is_substring (content_tags : list string) :
  Beehiiv.is_newsletter_post content_tags = true
  <-> exists tag variation,
        In tag content_tags
        /\ In variation Beehiiv.newsletter_variations
        /\ PyStr.substr_in variation (PyStr.lower tag) = true.
Proof.
  unfold Beehiiv.is_newsletter_post.
  destruct content_tags as [|t ts].
  - split; [discriminate|]. now intros (tag & variation & [] & _).
  - set (tags := t :: ts). rewrite existsb_exists. split.
    + intros (low & Hin & Hsome).
      apply in_map_iff in Hin as (tag & <- & Hin).
      apply existsb_exists in Hsome as (variation & Hvar & Hsub).
      now exists tag, variation.
    + intros (tag & variation & Hin & Hvar & Hsub).
      exists (PyStr.lower tag). split; [now apply in_map|].
      apply existsb_exists. now exists variation.
Qed.

(** X5 on samples: the tag of the sample post, in mixed case. *)
Lemma newsletter_tag_is_substring_witness :
  Beehiiv.is_newsletter_post ["Daily-Newsletter"] = true.
Proof.
  apply newsletter_tag_is_substring.
  exists "Daily-Newsletter", "newsletter".
  split; [now left|]. split; [now left|]. reflexivity.
Defined.

(** ** The batch writer *)

Module WriterBatchFacts.
Import SupabaseWriter.

(** The row of a record differs with the clock only in its two time
    stamps. *)
Lemma transform_stamps (created_at updated_at : string) (record : metric) :
  transform created_at updated_at record
  = match transform "" "" record with
    | Ok data =>
        Ok {| col_date := col_date data;
              col_brand := col_brand data;
              col_platform := col_platform data;
              col_campaign_type := col_campaign_type data;
              col_sends := col_sends data;
              col_delivered := col_delivered data;
              col_opens := col_opens data;
              col_open_rate := col_open_rate data;
              col_unique_opens := col_unique_opens data;
              col_unique_open_rate := col_unique_open_rate data;
              col_clicks := col_clicks data;
              col_ctr := col_ctr data;
              col_unique_clicks := col_unique_clicks data;
              col_uctr := col_uctr data;
              col_brand_list_size := col_brand_list_size data;
              col_list_growth := col_list_growth data;
              col_unsubscribes := col_unsubscribes data;
              col_unsubscribe_rate := col_unsubscribe_rate data;
              col_spam_reports := col_spam_reports data;
              col_created_at := created_at;
              col_updated_at := updated_at |}
    | Raise e => Raise e
    end.
Proof.
  unfold transform.
  destruct (PyNum.to_float (m_Delivered record)) as [df|]; simpl;
    [|reflexivity].
  destruct (PyNum.int_of_float df); simpl; [|reflexivity].
  destruct (PyNum.to_float (m_Open_Rate record)); simpl; [|reflexivity].
  destruct (PyNum.to_float (m_Unique_Open_Rate record)); simpl;
    [|reflexivity].
  destruct (PyNum.to_float (m_CTR record)); simpl; [|reflexivity].
  destruct (PyNum.to_float (m_UCTR record)); simpl; [|reflexivity].
  destruct (PyNum.to_float (m_Pct_Unsubscribe record)); simpl;
    reflexivity.
Qed.

(** A written row sits under the three columns copied from its record. *)
Lemma transform_key (created_at updated_at : string) (record : metric)
    (data : row) :
  transform created_at updated_at record = Ok data ->
  table_key data = record_key record.
Proof.
  unfold transform.
  destruct (PyNum.to_float (m_Delivered record)) as [df|]; simpl;
    [|discriminate].
  destruct (PyNum.int_of_float df); simpl; [|discriminate].
  destruct (PyNum.to_float (m_Open_Rate record)); simpl; [|discriminate].
  destruct (PyNum.to_float (m_Unique_Open_Rate record)); simpl;
    [|discriminate].
  destruct (PyNum.to_float (m_CTR record)); simpl; [|discriminate].
  destruct (PyNum.to_float (m_UCTR record)); simpl; [|discriminate].
  destruct (PyNum.to_float (m_Pct_Unsubscribe record)); simpl;
    [|discriminate].
  now intros [= <-].
Qed.

(** One write: the row that it leaves goes under the key of its record,
    and the call returns when the request was stored and answered. *)
Lemma write_metrics_cases (store : table) (clock : nat -> string * string)
    (requests : nat -> upsert) (i : nat) (record : metric) :
  write_metrics store (requests i) (fst (clock i)) (snd (clock i)) record
  = (match written clock requests i record with
     | Some data => <[record_key record := data]> store
     | None => store
     end,
     returns clock requests i record).
Proof.
  unfold write_metrics, written, returns, row_of.
  pose proof (transform_key (fst (clock i)) (snd (clock i)) record) as Hkey.
  destruct (transform (fst (clock i)) (snd (clock i)) record) as [data|e].
  - rewrite (Hkey data eq_refl). now destruct (requests i).
  - now destruct (requests i).
Qed.

Lemma numbered_cons (i : nat) (record : metric) (rest : list metric) :
  numbered i (record :: rest) = (i, record) :: numbered (S i) rest.
Proof. reflexivity. Qed.

Lemma write_batch_from_counts (clock : nat -> string * string)
    (requests : nat -> upsert) (records : list metric) (i : nat)
    (store : table) (success failed : Z) :
  let r := write_batch_from clock requests i store records success failed in
  fst (snd r)
  = success
    + Z.of_nat
        (length
           (List.filter
              (fun im => returns clock requests (fst im) (snd im))
              (numbered i records)))
  /\ snd (snd r)
     = failed
       + Z.of_nat
           (length
              (List.filter
                 (fun im => negb (returns clock requests (fst im) (snd im)))
                 (numbered i records))).
Proof.
  cbv zeta. revert i store success failed.
  induction records as [|record rest IH]; intros i store success failed;
    [simpl; lia|].
  rewrite numbered_cons. cbn [write_batch_from List.filter fst snd].
  rewrite write_metrics_cases.
  destruct (returns clock requests i record); cbn [negb length].
  - destruct (IH (S i)
                 (match written clock requests i record with
                  | Some data => <[record_key record := data]> store
                  | None => store
                  end) (success + 1) failed) as [-> ->]. lia.
  - destruct (IH (S i)
                 (match written clock requests i record with
                  | Some data => <[record_key record := data]> store
                  | None => store
                  end) success (failed + 1)) as [-> ->]. lia.
Qed.

(** The table after one turn of the loop does not depend on the
    counters. *)
Lemma write_batch_from_store (clock : nat -> string * string)
    (requests : nat -> upsert) (record : metric) (rest : list metric)
    (i : nat) (store : table) (success failed : Z) :
  fst (write_batch_from clock requests i store (record :: rest) success
         failed)
  = fst (write_batch_from clock requests (S i)
           (match written clock requests i record with
            | Some data => <[record_key record := data]> store
            | None => store
            end) rest success failed).
Proof.
  assert (Hcounters :
            forall (l : list metric) (k : nat) (t : table) (a b c d : Z),
              fst (write_batch_from clock requests k t l a b)
              = fst (write_batch_from clock requests k t l c d)).
  { induction l as [|m l IH]; intros k t a b c d; [reflexivity|].
    cbn [write_batch_from].
    destruct (write_metrics t (requests k) (fst (clock k)) (snd (clock k))
                m) as [t' [|]]; apply IH. }
  cbn [write_batch_from]. rewrite write_metrics_cases.
  destruct (returns clock requests i record); apply Hcounters.
Qed.

(** A key under which no write of the batch leaves a row keeps its
    row. *)
Lemma write_batch_from_frame (clock : nat -> string * string)
    (requests : nat -> upsert) (records : list metric) (i : nat)
    (store : table) (success failed : Z)
    (k : string * string * option string) :
  (forall j m, nth_error records j = Some m -> record_key m = k ->
     written clock requests (i + j) m = None) ->
  fst (write_batch_from clock requests i store records success failed) !! k
  = store !! k.
Proof.
  revert i store success failed.
  induction records as [|record rest IH]; intros i store success failed Hk;
    [reflexivity|].
  rewrite write_batch_from_store, IH.
  - destruct (written clock requests i record) as [data|] eqn:Hw;
      [|reflexivity].
    apply lookup_insert_ne. intros Hkey.
    specialize (Hk O record eq_refl Hkey).
    rewrite Nat.add_0_r, Hw in Hk. discriminate.
  - intros j m Hm Hkey. replace (S i + j)%nat with (i + S j)%nat by lia.
    now apply Hk.
Qed.

(** The row under a key is that of the last write that leaves a row
    under this key. *)
Lemma write_batch_from_last (clock : nat -> string * string)
    (requests : nat -> upsert) (before after : list metric)
    (record : metric) (data : row) (i : nat) (store : table)
    (success failed : Z) :
  written clock requests (i + length before) record = Some data ->
  (forall j m, nth_error after j = Some m ->
     record_key m = record_key record ->
     written clock requests (S (i + length before + j)) m = None) ->
  fst (write_batch_from clock requests i store (before ++ record :: after)
         success failed) !! record_key record
  = Some data.
Proof.
  revert i store success failed.
  induction before as [|b before IH]; intros i store success failed Hrow
    Hafter.
  - simpl app. simpl in Hrow, Hafter. rewrite Nat.add_0_r in Hrow.
    rewrite write_batch_from_store, Hrow, write_batch_from_frame.
    + apply lookup_insert_eq.
    + intros j m Hm Hkey.
      replace (S i + j)%nat with (S (i + 0 + j)) by lia.
      now apply Hafter.
  - change ((b :: before) ++ record :: after)
      with (b :: (before ++ record :: after)).
    rewrite write_batch_from_store.
    apply IH.
    + replace (S i + length before)%nat
        with (i + length (b :: before))%nat by (simpl; lia).
      exact Hrow.
    + intros j m Hm Hkey.
      replace (S (S i + length before + j))
        with (S (i + length (b :: before) + j)) by (simpl; lia).
      now apply Hafter.
Qed.

End WriterBatchFacts.

(** ** The catalog and the classifiers, once more *)

Module CoverageFacts.
Import PyStr.

Lemma find_over_app {A : Type} (f : A -> bool) (l l' : list A) :
  List.find f (l ++ l')
  = match List.find f l with
    | Some a => Some a
    | None => List.find f l'
    end.
Proof.
  induction l as [|a l IH]; simpl; [reflexivity|].
  destruct (f a); [reflexivity|apply IH].
Qed.

(** The fold of [_load_publications]: a name is bound to the last
    publication of the response that carries it. *)
Lemma load_from (pubs : list Beehiiv.publication)
    (m : gmap string Beehiiv.publication) (n : string) :
  fold_left (fun pubs pub => <[Beehiiv.pub_name pub := pub]> pubs) pubs m
    !! n
  = match List.find (fun p => String.eqb (Beehiiv.pub_name p) n)
                    (rev pubs) with
    | Some p => Some p
    | None => m !! n
    end.
Proof.
  revert m. induction pubs as [|p pubs IH]; intros m; simpl;
    [reflexivity|].
  rewrite IH, find_over_app.
  destruct (List.find _ (rev pubs)); [reflexivity|]. simpl.
  destruct (String.eqb_spec (Beehiiv.pub_name p) n) as [->|Hne].
  - apply lookup_insert_eq.
  - now apply lookup_insert_ne.
Qed.

(** Equal dates under [date_eqb] are the same date. *)
Lemma date_eqb_eq (a b : date) : date_eqb a b = true -> a = b.
Proof.
  destruct a, b. unfold date_eqb. simpl. intros H.
  apply andb_prop in H as [H Hd]. apply andb_prop in H as [Hy Hm].
  f_equal; lia.
Qed.

(** On a name with "Daily Digest" and neither " PM-" nor "_PM", the PM
    test of the baseline is the PM test of the separation. *)
Lemma is_pm_on_digest (name : string) :
  substr_in "Daily Digest" name = true ->
  substr_in " PM-" name = false ->
  substr_in "_PM" name = false ->
  TinyEmail.is_pm name
  = TinyEmail.is_daily_digest_pm name || TinyEmail.is_dedicated_cpm name.
Proof.
  unfold TinyEmail.is_pm, TinyEmail.is_daily_digest_pm,
    TinyEmail.is_dedicated_cpm.
  intros -> -> ->.
  destruct (substr_in "Daily Digest PM" name),
    (substr_in "Dedicated CPM" name), (substr_in " PM " name),
    (substr_in "CPM" name); reflexivity.
Qed.

(** The sends booked under a segment, over a concatenation. *)
Lemma baseline_app (segment : string) (l l' : list TinyEmail.campaign) :
  TinyEmail.baseline segment (l ++ l')
  = TinyEmail.baseline segment l + TinyEmail.baseline segment l'.
Proof.
  unfold TinyEmail.baseline.
  induction l as [|c l IH]; simpl; [reflexivity|].
  rewrite IH. destruct (TinyEmail.has_volume c && _); lia.
Qed.

Lemma baseline_cons (segment : string) (c : TinyEmail.campaign)
    (cs : list TinyEmail.campaign) :
  TinyEmail.baseline segment (c :: cs)
  = (if TinyEmail.has_volume c
        && String.eqb (TinyEmail.baseline_segment c) segment
     then TinyEmail.campaign_sends c else 0)
    + TinyEmail.baseline segment cs.
Proof.
  unfold TinyEmail.baseline. simpl.
  destruct (TinyEmail.has_volume c && _); lia.
Qed.

(** On such a name the separation files a campaign with volume where
    the baseline books it. *)
Lemma filed_as_booked (c : TinyEmail.campaign) :
  TinyEmail.has_volume c = true ->
  substr_in "Daily Digest" (TinyEmail.campaign_name c) = true ->
  substr_in " PM-" (TinyEmail.campaign_name c) = false ->
  substr_in "_PM" (TinyEmail.campaign_name c) = false ->
  TinyEmail.goes_pm c = TinyEmail.is_pm (TinyEmail.campaign_name c)
  /\ TinyEmail.goes_am c
     = negb (TinyEmail.is_pm (TinyEmail.campaign_name c)).
Proof.
  intros Hvol Hdd Hdash Hunder.
  unfold TinyEmail.goes_pm, TinyEmail.goes_am.
  rewrite Hvol, <- (is_pm_on_digest _ Hdd Hdash Hunder), Hdd. simpl.
  now rewrite andb_true_r.
Qed.

(** What [create_metric] writes in the identifying fields. *)
Lemma create_metric_identity (c : TinyEmail.campaign) (brand : string)
    (target : date) (segment : string) (growth : Z) (m : metric) :
  TinyEmail.create_metric c brand target segment growth = Ok m ->
  m_Date m = Strftime.iso target /\ m_Brand m = brand
  /\ m_Platform m = "TinyEmail"
  /\ m_Brand_List_Size m = m_Sends m.
Proof.
  unfold TinyEmail.create_metric.
  destruct (TinyEmail.compute_rates _ _ _ _ _ _ _); simpl; [|discriminate].
  intros [= <-]. simpl. auto.
Qed.

(** What [extract_metrics] writes in the identifying fields. *)
Lemma extract_metrics_identity (fromtimestamp : Z -> result date)
    (now : date) (p : Beehiiv.post) (brand : string) (previous : Z)
    (m : metric) :
  Beehiiv.extract_metrics fromtimestamp now p brand previous = Ok m ->
  exists post_date,
    Beehiiv.post_date_of fromtimestamp now p = Ok post_date
    /\ m_Date m = Strftime.iso post_date
    /\ m_Brand m = brand /\ m_Platform m = "Beehiiv"
    /\ m_Campaign_Type m = "Newsletter"
    /\ m_Brand_List_Size m = m_Sends m.
Proof.
  unfold Beehiiv.extract_metrics.
  destruct (Beehiiv.post_date_of _ _ _) as [d|]; simpl; [|discriminate].
  destruct (Beehiiv.compute_rates _ _ _ _ _ _ _); simpl; [|discriminate].
  intros [= <-]. exists d. simpl. auto 10.
Qed.

(** Every record of a TinyEmail key carries the target date, the display
    brand with its segment, and the segment as campaign type. *)
Lemma collect_key_identity (brand_names : gmap string string)
    (get_yesterday get_before : Z -> http_result TinyEmail.campaigns_page)
    (api_brand : string) (yesterday day_before : date)
    (records : list metric) :
  TinyEmail.collect_key brand_names get_yesterday get_before api_brand
                        yesterday day_before = Ok records ->
  Forall
    (fun m =>
       exists segment,
         (segment = "AM" \/ segment = "PM")
         /\ m_Date m = Strftime.iso yesterday
         /\ m_Brand m
            = dget (brand_names !! api_brand) api_brand +:+ " " +:+ segment
         /\ m_Platform m = "TinyEmail"
         /\ m_Campaign_Type m = segment
         /\ m_Brand_List_Size m = m_Sends m)
    records.
Proof.
  unfold TinyEmail.collect_key.
  destruct (TinyEmail.separate_all_campaigns _) as [am pm].
  destruct (map_result _ am) as [am_metrics|] eqn:Ham; simpl;
    [|discriminate].
  destruct (map_result _ pm) as [pm_metrics|] eqn:Hpm; simpl;
    [|discriminate].
  intros [= <-]. apply Forall_app. split.
  - apply (CollectFacts.map_result_forall _ _ _ _ Ham).
    intros c m _ Hm. unfold TinyEmail.process_campaign in Hm.
    pose proof (CollectFacts.create_metric_copies _ _ _ _ _ _ Hm)
      as (_ & _ & Ht).
    apply create_metric_identity in Hm as (Hd & Hb & Hp & Hl).
    exists "AM". simpl in Ht. auto 10.
  - apply (CollectFacts.map_result_forall _ _ _ _ Hpm).
    intros c m _ Hm. unfold TinyEmail.process_campaign in Hm.
    pose proof (CollectFacts.create_metric_copies _ _ _ _ _ _ Hm)
      as (_ & _ & Ht).
    apply create_metric_identity in Hm as (Hd & Hb & Hp & Hl).
    exists "PM". simpl in Ht. auto 10.
Qed.

(** Every record of a Beehiiv brand carries the target date, the brand
    and the one campaign type. *)
Lemma collect_brand_identity (fromtimestamp : Z -> result date)
    (now : date) (publications : gmap string Beehiiv.publication)
    (get_before get_yesterday
       : string -> Z -> http_result Beehiiv.posts_page)
    (brand_name : string) (yesterday day_before_yesterday : date)
    (records : list metric) :
  Beehiiv.collect_brand fromtimestamp now publications get_before
    get_yesterday brand_name yesterday day_before_yesterday = Ok records ->
  Forall
    (fun m =>
       m_Date m = Strftime.iso yesterday /\ m_Brand m = brand_name
       /\ m_Platform m = "Beehiiv" /\ m_Campaign_Type m = "Newsletter"
       /\ m_Brand_List_Size m = m_Sends m)
    records.
Proof.
  unfold Beehiiv.collect_brand. intros Hcollect.
  apply (CollectFacts.map_result_forall _ _ _ _ Hcollect).
  intros p m Hin Hm.
  apply BeehiivFacts.returned_posts_selected in Hin as [Hsel _].
  apply extract_metrics_identity
    in Hm as (d & Hdate & Hd & Hb & Hp & Ht & Hl).
  rewrite Hd. unfold Beehiiv.selected in Hsel.
  unfold Beehiiv.post_date_of in Hdate.
  destruct (Beehiiv.has_publish_date p); [|discriminate].
  rewrite andb_true_l in Hsel. rewrite Hdate in Hsel.
  apply andb_prop in Hsel as [Hsel _].
  apply andb_prop in Hsel as [Hsel _].
  apply date_eqb_eq in Hsel as ->. auto.
Qed.

End CoverageFacts.

(** X6: the catalog of a Beehiiv key binds each display name to the last
    publication of the response that carries it; a response that is not
    a decoded 200 leaves the catalog empty, and every search of the key
    then returns no post and no recipient without reading a page. *)
Theorem catalog_binds_last_publication :
  (forall (pubs : list Beehiiv.publication) (n : string),
      Beehiiv.load_publications (Response 200 (Some (Some pubs))) !! n
      = List.find (fun p => String.eqb (Beehiiv.pub_name p) n) (rev pubs))
  /\ (forall resp : http_result (option (list Beehiiv.publication)),
        (forall pubs, resp <> Response 200 (Some (Some pubs))) ->
        Beehiiv.load_publications resp = ∅
        /\ forall (fromtimestamp : Z -> result date)
                  (session_get
                     : string -> Z -> http_result Beehiiv.posts_page)
                  (brand_name : string) (target_date : date)
                  (get_full_data : bool),
             Beehiiv.get_posts_for_date fromtimestamp
               (Beehiiv.load_publications resp) session_get brand_name
               target_date get_full_data
             = Beehiiv.mkresult [] 0).
Proof.
  split.
  - intros pubs n. unfold Beehiiv.load_publications. simpl.
    rewrite CoverageFacts.load_from.
    destruct (List.find _ (rev pubs)); [reflexivity|apply lookup_empty].
  - intros resp Hresp.
    assert (Hempty : Beehiiv.load_publications resp = ∅).
    { destruct resp as [|status [[pubs|]|]]; try reflexivity.
      - destruct (Z.eq_dec status 200) as [->|Hne];
          [now destruct (Hresp pubs)|].
        unfold Beehiiv.load_publications.
        destruct status as [|p|p]; try reflexivity.
        do 8 (destruct p as [p|p|]; try reflexivity).
        now destruct Hne.
      - unfold Beehiiv.load_publications.
        destruct status as [|p|p]; try reflexivity.
        do 8 (destruct p as [p|p|]; try reflexivity).
      - unfold Beehiiv.load_publications.
        destruct status as [|p|p]; try reflexivity.
        do 8 (destruct p as [p|p|]; try reflexivity). }
    split; [exact Hempty|].
    intros ft sg brand target full. rewrite Hempty.
    unfold Beehiiv.get_posts_for_date. now rewrite lookup_empty.
Qed.

(** X6 on the sample catalog, to which a second "Daily Brief" is
    added. *)
Lemma catalog_binds_last_publication_witness :
  Beehiiv.load_publications
    (Response 200
       (Some (Some [Beehiiv.mkpub "pub_1" "Daily Brief";
                    Beehiiv.mkpub "pub_2" "News Flash";
                    Beehiiv.mkpub "pub_3" "Daily Brief"])))
    !! "Daily Brief"
  = Some (Beehiiv.mkpub "pub_3" "Daily Brief")
  /\ Beehiiv.load_publications (Response 503 None) = ∅.
Proof.
  destruct catalog_binds_last_publication as [Hfind Hfail].
  split.
  - rewrite Hfind. reflexivity.
  - apply Hfail. discriminate.
Defined.

(** X7: for the same answers of the API, the count-only search
    ([get_full_data=False]) returns no post and the same recipient total
    as the full search, which is the sum of the recipients of the posts
    the full search returns. *)
Theorem count_only_search_agrees_with_full
    (fromtimestamp : Z -> result date)
    (publications : gmap string Beehiiv.publication)
    (session_get : string -> Z -> http_result Beehiiv.posts_page)
    (brand_name : string) (target_date : date) :
  let full :=
    Beehiiv.get_posts_for_date fromtimestamp publications session_get
                               brand_name target_date true in
  let count_only :=
    Beehiiv.get_posts_for_date fromtimestamp publications session_get
                               brand_name target_date false in
  Beehiiv.posts count_only = []
  /\ Beehiiv.recipients_total count_only = Beehiiv.recipients_total full
  /\ Beehiiv.recipients_total count_only
     = Beehiiv.sum_recipients (Beehiiv.posts full).
Proof.
  cbv zeta. unfold Beehiiv.get_posts_for_date.
  destruct (publications !! brand_name) as [pub|];
    [|repeat split; reflexivity].
  rewrite !BeehiivFacts.run_search_walk.
  cbn [Beehiiv.posts Beehiiv.recipients_total fst].
  rewrite !BeehiivFacts.collect_all_posts,
    !BeehiivFacts.collect_all_recipients.
  cbn [Beehiiv.newsletter_posts Beehiiv.total_recipients app].
  repeat split; reflexivity.
Qed.

(** X7 on the two-day sample: 4800 recipients the day before. *)
Lemma count_only_search_agrees_with_full_witness :
  Beehiiv.get_posts_for_date Utc.fromtimestamp Samples.catalog
    Samples.api_two_days "Daily Brief" Samples.day_before false
  = Beehiiv.mkresult [] 4800.
Proof.
  pose proof (count_only_search_agrees_with_full Utc.fromtimestamp
                Samples.catalog Samples.api_two_days "Daily Brief"
                Samples.day_before) as (Hposts & _ & Hsum).
  destruct (Beehiiv.get_posts_for_date Utc.fromtimestamp Samples.catalog
              Samples.api_two_days "Daily Brief" Samples.day_before false)
    as [ps total].
  simpl in Hposts, Hsum. rewrite Hposts, Hsum. reflexivity.
Defined.

(** X8: on a listing whose campaigns with volume all carry "Daily
    Digest" in their name and neither " PM-" nor "_PM", the baseline
    booked under a segment is the total of the sends of the campaigns the
    separation files under that segment. *)
Theorem baseline_matches_filed_campaigns
    (campaigns : list TinyEmail.campaign) :
  Forall
    (fun c =>
       TinyEmail.has_volume c = true ->
       PyStr.substr_in "Daily Digest" (TinyEmail.campaign_name c) = true
       /\ PyStr.substr_in " PM-" (TinyEmail.campaign_name c) = false
       /\ PyStr.substr_in "_PM" (TinyEmail.campaign_name c) = false)
    campaigns ->
  let filed := TinyEmail.separate_all_campaigns campaigns in
  let previous_sends := TinyEmail.get_previous_sends campaigns in
  dget (previous_sends !! "AM") 0
  = fold_right Z.add 0 (map TinyEmail.campaign_sends (fst filed))
  /\ dget (previous_sends !! "PM") 0
     = fold_right Z.add 0 (map TinyEmail.campaign_sends (snd filed)).
Proof.
  intros Hall filed previous_sends. subst filed previous_sends.
  rewrite !TinyEmailFacts.get_previous_sends_baseline,
    TinyEmailFacts.separate_all_campaigns_filters.
  cbn [fst snd].
  induction Hall as [|c cs Hc Hall [IHam IHpm]]; [split; reflexivity|].
  rewrite !CoverageFacts.baseline_cons, IHam, IHpm.
  cbn [List.filter]. unfold TinyEmail.baseline_segment.
  destruct (TinyEmail.has_volume c) eqn:Hvol.
  - destruct (Hc eq_refl) as (Hdd & Hdash & Hunder).
    destruct (CoverageFacts.filed_as_booked c Hvol Hdd Hdash Hunder)
      as [-> ->].
    destruct (TinyEmail.is_pm (TinyEmail.campaign_name c)); simpl;
      split; reflexivity.
  - unfold TinyEmail.goes_am, TinyEmail.goes_pm. rewrite Hvol. simpl.
    split; reflexivity.
Qed.

(** X8 on a listing of three campaigns of one day. *)
Lemma baseline_matches_filed_campaigns_witness :
  dget (TinyEmail.get_previous_sends
          [Samples.digest_am; Samples.digest_pm; Samples.digest_test_send]
          !! "AM") 0 = 6000
  /\ dget (TinyEmail.get_previous_sends
             [Samples.digest_am; Samples.digest_pm;
              Samples.digest_test_send] !! "PM") 0 = 5000.
Proof.
  apply (baseline_matches_filed_campaigns
           [Samples.digest_am; Samples.digest_pm;
            Samples.digest_test_send]).
  repeat constructor; intros _; repeat split; reflexivity.
Defined.

(** X9: a completed campaign with more than 100 sends whose name has no
    "Daily Digest" and none of the PM markers of the baseline is never
    filed under AM, yet its sends are added to the AM baseline and not to
    the PM baseline; when its name has "CPM" it is filed under PM. *)
Theorem baseline_books_unfiled_campaigns
    (campaigns : list TinyEmail.campaign) (c : TinyEmail.campaign) :
  TinyEmail.has_volume c = true ->
  TinyEmail.is_pm (TinyEmail.campaign_name c) = false ->
  PyStr.substr_in "Daily Digest" (TinyEmail.campaign_name c) = false ->
  let before := TinyEmail.get_previous_sends campaigns in
  let after := TinyEmail.get_previous_sends (campaigns ++ [c]) in
  let filed := TinyEmail.separate_all_campaigns (campaigns ++ [c]) in
  ~ In c (fst filed)
  /\ dget (after !! "AM") 0
     = dget (before !! "AM") 0 + TinyEmail.campaign_sends c
  /\ dget (after !! "PM") 0 = dget (before !! "PM") 0
  /\ (PyStr.substr_in "CPM" (TinyEmail.campaign_name c) = true ->
      In c (snd filed))
  /\ (PyStr.substr_in "CPM" (TinyEmail.campaign_name c) = false ->
      ~ In c (snd filed)).
Proof.
  intros Hvol Hpm Hdd before after filed. subst before after filed.
  rewrite !TinyEmailFacts.get_previous_sends_baseline,
    !CoverageFacts.baseline_app,
    TinyEmailFacts.separate_all_campaigns_filters.
  cbn [fst snd]. rewrite !List.filter_In.
  unfold TinyEmail.baseline. simpl.
  unfold TinyEmail.baseline_segment, TinyEmail.goes_am, TinyEmail.goes_pm.
  rewrite Hvol, Hpm, Hdd. simpl.
  assert (Hddpm : PyStr.substr_in "Daily Digest PM"
                    (TinyEmail.campaign_name c) = false).
  { destruct (PyStr.substr_in "Daily Digest PM" _) eqn:H; [|reflexivity].
    rewrite <- Hdd. symmetry.
    apply (PyStrFacts.substr_in_trans _ "Daily Digest PM");
      [reflexivity|assumption]. }
  assert (Hded : PyStr.substr_in "Dedicated CPM"
                   (TinyEmail.campaign_name c) = false).
  { unfold TinyEmail.is_pm in Hpm.
    destruct (PyStr.substr_in "Dedicated CPM" _); [|reflexivity].
    now rewrite orb_true_r in Hpm. }
  unfold TinyEmail.is_daily_digest_pm, TinyEmail.is_dedicated_cpm.
  rewrite Hddpm, Hded, Hdd, !andb_false_r. simpl.
  split; [now intros [_ H]|].
  split; [lia|]. split; [lia|].
  rewrite andb_true_r.
  split.
  - intros ->. split; [|reflexivity]. apply in_or_app. right. now left.
  - intros ->. now intros [_ H].
Qed.

(** X9 on a welcome mail and on a sponsored "CPM" mail of the day
    before. *)
Lemma baseline_books_unfiled_campaigns_witness :
  dget (TinyEmail.get_previous_sends
          [Samples.digest_am; Samples.welcome] !! "AM") 0 = 6000 + 3000
  /\ In Samples.sponsor_cpm
        (snd (TinyEmail.separate_all_campaigns
                [Samples.digest_am; Samples.sponsor_cpm]))
  /\ dget (TinyEmail.get_previous_sends
             [Samples.digest_am; Samples.sponsor_cpm] !! "PM") 0 = 0.
Proof.
  split; [|split].
  - apply (baseline_books_unfiled_campaigns [Samples.digest_am]
             Samples.welcome); reflexivity.
  - apply (baseline_books_unfiled_campaigns [Samples.digest_am]
             Samples.sponsor_cpm); reflexivity.
  - apply (baseline_books_unfiled_campaigns [Samples.digest_am]
             Samples.sponsor_cpm); reflexivity.
Defined.

(** X10: [write_batch] counts every record once: as a success when its
    transformation succeeds and its request is stored and answered, as a
    failure otherwise, and it goes on after a failure.  A key under which
    no write of the batch leaves a row keeps its row, and the row under a
    key is that of the last write that left a row under it.
    [write_to_supabase] writes the same rows and returns the same
    counts. *)
Theorem write_batch_last_write_wins (clock : nat -> string * string)
    (requests : nat -> SupabaseWriter.upsert)
    (store : SupabaseWriter.table) (records : list metric) :
  let written := SupabaseWriter.write_batch clock requests store records in
  let success := fst (snd written) in
  let failed := snd (snd written) in
  success + failed = Z.of_nat (length records)
  /\ success
     = Z.of_nat
         (length
            (List.filter
               (fun im =>
                  SupabaseWriter.returns clock requests (fst im) (snd im))
               (SupabaseWriter.numbered 0 records)))
  /\ (forall k,
        (forall j m, nth_error records j = Some m ->
           SupabaseWriter.record_key m = k ->
           SupabaseWriter.written clock requests j m = None) ->
        fst written !! k = store !! k)
  /\ (forall before record after data,
        records = before ++ record :: after ->
        SupabaseWriter.written clock requests (length before) record
        = Some data ->
        (forall j m, nth_error after j = Some m ->
           SupabaseWriter.record_key m = SupabaseWriter.record_key record ->
           SupabaseWriter.written clock requests (S (length before + j)) m
           = None) ->
        fst written !! SupabaseWriter.record_key record = Some data)
  /\ CollectorMain.write_to_supabase clock requests store records
     = written.
Proof.
  cbv zeta. unfold SupabaseWriter.write_batch.
  destruct (WriterBatchFacts.write_batch_from_counts clock requests records
              0 store 0 0) as [Hs Hf].
  split; [|split; [|split; [|split]]].
  - rewrite Hs, Hf.
    assert (Hsplit :
              forall l : list (nat * metric),
                (length
                   (List.filter
                      (fun im =>
                         SupabaseWriter.returns clock requests (fst im)
                                                (snd im)) l)
                 + length
                     (List.filter
                        (fun im =>
                           negb (SupabaseWriter.returns clock requests
                                   (fst im) (snd im))) l)
                 = length l)%nat).
    { induction l as [|im l IH]; simpl; [reflexivity|].
      destruct (SupabaseWriter.returns clock requests (fst im) (snd im));
        simpl; lia. }
    specialize (Hsplit (SupabaseWriter.numbered 0 records)).
    unfold SupabaseWriter.numbered in Hsplit at 3.
    rewrite length_combine, length_seq, Nat.min_id in Hsplit. lia.
  - rewrite Hs. lia.
  - intros k Hk. now apply WriterBatchFacts.write_batch_from_frame.
  - intros before record after data -> Hrow Hafter.
    now apply WriterBatchFacts.write_batch_from_last.
  - unfold CollectorMain.write_to_supabase. clear Hs Hf.
    generalize 0 at 2 4 as success. generalize 0 at 1 2 as failed.
    generalize O as i. revert store.
    induction records as [|m records IH]; intros store i failed success;
      simpl; [reflexivity|].
    destruct (SupabaseWriter.write_metrics store _ _ _ m) as [store' [|]];
      apply IH.
Qed.

(** X10 on the two PM records of a day, when the store refuses the
    second: one success, one failure, and the row left is that of the
    first, with 5000 sends. *)
Lemma write_batch_last_write_wins_witness :
  exists first second data,
    TinyEmail.collect_key CollectorMain.BRAND_NAMES Samples.tiny_two_pm
      Samples.tiny_day_before "AC" Samples.target Samples.day_before
    = Ok [first; second]
    /\ snd (SupabaseWriter.write_batch Samples.clock
              Samples.second_refused ∅ [first; second]) = (1, 1)
    /\ SupabaseWriter.written Samples.clock Samples.second_refused 0 first
       = Some data
    /\ SupabaseWriter.col_sends data = 5000
    /\ fst (SupabaseWriter.write_batch Samples.clock
              Samples.second_refused ∅ [first; second])
         !! SupabaseWriter.record_key first
       = Some data.
Proof.
  eexists. eexists. eexists.
  split; [vm_compute; reflexivity|].
  split; [vm_compute; reflexivity|].
  split; [vm_compute; reflexivity|].
  split; [reflexivity|].
  match goal with
  | |- fst (SupabaseWriter.write_batch _ _ _ [?a; ?b]) !! _ = Some ?d =>
      apply (proj1 (proj2 (proj2 (proj2
               (write_batch_last_write_wins Samples.clock
                  Samples.second_refused ∅ [a; b])))) [] a [b] d eq_refl)
  end.
  - vm_compute. reflexivity.
  - intros [|j] m Hm _; [reflexivity|].
    destruct j; discriminate Hm.
Defined.

(** X11: the records a TinyEmail key yields for a day sit under two
    conflict keys only, one per segment: writing them changes no other
    row of the table, and after a record whose write leaves a row and
    which is the last of its segment, the row of the segment is this
    one: it overwrites those of the earlier records of the segment. *)
Theorem tinyemail_key_writes_two_rows
    (brand_names : gmap string string)
    (get_yesterday get_before : Z -> http_result TinyEmail.campaigns_page)
    (api_brand : string) (yesterday day_before : date)
    (records : list metric) (clock : nat -> string * string)
    (requests : nat -> SupabaseWriter.upsert)
    (store : SupabaseWriter.table) :
  TinyEmail.collect_key brand_names get_yesterday get_before api_brand
                        yesterday day_before = Ok records ->
  let display_brand := dget (brand_names !! api_brand) api_brand in
  let row_key segment :=
    (Strftime.iso yesterday, display_brand +:+ " " +:+ segment,
     Some segment) in
  let written := SupabaseWriter.write_batch clock requests store records in
  Forall
    (fun m =>
       (m_Campaign_Type m = "AM" \/ m_Campaign_Type m = "PM")
       /\ SupabaseWriter.record_key m = row_key (m_Campaign_Type m))
    records
  /\ (forall k, k <> row_key "AM" -> k <> row_key "PM" ->
        fst written !! k = store !! k)
  /\ (forall before record after data,
        records = before ++ record :: after ->
        SupabaseWriter.written clock requests (length before) record
        = Some data ->
        (forall m, In m after ->
           m_Campaign_Type m <> m_Campaign_Type record) ->
        fst written !! row_key (m_Campaign_Type record) = Some data).
Proof.
  intros Hcollect display_brand row_key written.
  apply CoverageFacts.collect_key_identity in Hcollect.
  assert (Hkeys :
            Forall
              (fun m =>
                 (m_Campaign_Type m = "AM" \/ m_Campaign_Type m = "PM")
                 /\ SupabaseWriter.record_key m
                    = row_key (m_Campaign_Type m))
              records).
  { eapply Forall_impl; [exact Hcollect|].
    intros m (segment & Hseg & Hd & Hb & _ & Ht & _).
    rewrite Ht. split; [exact Hseg|].
    unfold SupabaseWriter.record_key, row_key, display_brand.
    now rewrite Hd, Hb, Ht. }
  split; [exact Hkeys|]. rewrite List.Forall_forall in Hkeys. split.
  - intros k Ham Hpm.
    apply WriterBatchFacts.write_batch_from_frame.
    intros j m Hm Hk. apply nth_error_In in Hm.
    destruct (Hkeys m Hm) as [[Ht|Ht] Hkey];
      rewrite Hkey, Ht in Hk; [now destruct Ham|now destruct Hpm].
  - intros before record after data -> Hrow Hafter.
    destruct (Hkeys record) as [_ <-]; [apply in_or_app; right; now left|].
    apply WriterBatchFacts.write_batch_from_last; [exact Hrow|].
    intros j m Hm Hk. apply nth_error_In in Hm.
    destruct (Hafter m Hm).
    destruct (Hkeys m) as [_ Hkm];
      [apply in_or_app; right; now right|].
    destruct (Hkeys record) as [_ Hkr];
      [apply in_or_app; right; now left|].
    rewrite Hkm, Hkr in Hk. now injection Hk.
Qed.

(** X11 on a day with a "Daily Digest PM" and a "Dedicated CPM"
    campaign, every request going through: one PM row is left, with the
    8000 sends of the second. *)
Lemma tinyemail_key_writes_two_rows_witness :
  exists records,
    TinyEmail.collect_key CollectorMain.BRAND_NAMES Samples.tiny_two_pm
      Samples.tiny_day_before "AC" Samples.target Samples.day_before
    = Ok records
    /\ map m_Sends records = [5000; 8000]
    /\ SupabaseWriter.col_sends
         <$> fst (SupabaseWriter.write_batch Samples.clock
                    Samples.all_stored ∅ records)
               !! ("2025-10-15", "American Conservative PM", Some "PM")
       = Some 8000
    /\ forall k,
         k <> (Strftime.iso Samples.target,
               dget (CollectorMain.BRAND_NAMES !! "AC") "AC" +:+ " "
               +:+ "AM", Some "AM") ->
         k <> (Strftime.iso Samples.target,
               dget (CollectorMain.BRAND_NAMES !! "AC") "AC" +:+ " "
               +:+ "PM", Some "PM") ->
         fst (SupabaseWriter.write_batch Samples.clock Samples.all_stored
                ∅ records) !! k
         = (∅ : SupabaseWriter.table) !! k.
Proof.
  eexists. split; [vm_compute; reflexivity|].
  split; [reflexivity|]. split; [vm_compute; reflexivity|].
  intros k.
  refine (proj1 (proj2 (tinyemail_key_writes_two_rows
                          CollectorMain.BRAND_NAMES Samples.tiny_two_pm
                          Samples.tiny_day_before "AC" Samples.target
                          Samples.day_before _ Samples.clock
                          Samples.all_stored ∅ _)) k).
  vm_compute. reflexivity.
Defined.

(** X12: the records a Beehiiv brand yields for a day all sit under one
    conflict key: writing them changes no other row of the table, and
    when the write of the last post leaves a row, this row is the one
    left for the day. *)
Theorem beehiiv_brand_writes_one_row
    (fromtimestamp : Z -> result date) (now : date)
    (publications : gmap string Beehiiv.publication)
    (get_before get_yesterday
       : string -> Z -> http_result Beehiiv.posts_page)
    (brand_name : string) (yesterday day_before_yesterday : date)
    (records : list metric) (clock : nat -> string * string)
    (requests : nat -> SupabaseWriter.upsert)
    (store : SupabaseWriter.table) :
  Beehiiv.collect_brand fromtimestamp now publications get_before
    get_yesterday brand_name yesterday day_before_yesterday = Ok records ->
  let row_key := (Strftime.iso yesterday, brand_name, Some "Newsletter") in
  let written := SupabaseWriter.write_batch clock requests store records in
  Forall (fun m => SupabaseWriter.record_key m = row_key) records
  /\ (forall k, k <> row_key -> fst written !! k = store !! k)
  /\ (forall before record data,
        records = before ++ [record] ->
        SupabaseWriter.written clock requests (length before) record
        = Some data ->
        fst written !! row_key = Some data).
Proof.
  intros Hcollect row_key written.
  apply CoverageFacts.collect_brand_identity in Hcollect.
  assert (Hkeys :
            Forall (fun m => SupabaseWriter.record_key m = row_key)
                   records).
  { eapply Forall_impl; [exact Hcollect|].
    intros m (Hd & Hb & _ & Ht & _).
    unfold SupabaseWriter.record_key, row_key. now rewrite Hd, Hb, Ht. }
  split; [exact Hkeys|]. rewrite List.Forall_forall in Hkeys. split.
  - intros k Hk. apply WriterBatchFacts.write_batch_from_frame.
    intros j m Hm Hkey. apply nth_error_In in Hm.
    rewrite (Hkeys m Hm) in Hkey. now destruct Hk.
  - intros before record data -> Hrow.
    rewrite <- (Hkeys record) by (apply in_or_app; right; now left).
    apply WriterBatchFacts.write_batch_from_last; [exact Hrow|].
    intros [|j] m Hm; discriminate Hm.
Qed.

(** X12 on a day with two posts of one brand, every request going
    through: one row is left, with the 5200 sends of the second post. *)
Lemma beehiiv_brand_writes_one_row_witness :
  exists records,
    Beehiiv.collect_brand Utc.fromtimestamp Samples.target Samples.catalog
      Samples.api_two_posts Samples.api_two_posts "Daily Brief"
      Samples.target Samples.day_before = Ok records
    /\ map m_Sends records = [5000; 5200]
    /\ SupabaseWriter.col_sends
         <$> fst (SupabaseWriter.write_batch Samples.clock
                    Samples.all_stored ∅ records)
               !! ("2025-10-15", "Daily Brief", Some "Newsletter")
       = Some 5200
    /\ forall k,
         k <> (Strftime.iso Samples.target, "Daily Brief",
               Some "Newsletter") ->
         fst (SupabaseWriter.write_batch Samples.clock Samples.all_stored
                ∅ records) !! k
         = (∅ : SupabaseWriter.table) !! k.
Proof.
  eexists. split; [vm_compute; reflexivity|].
  split; [reflexivity|]. split; [vm_compute; reflexivity|].
  intros k.
  refine (proj1 (proj2 (beehiiv_brand_writes_one_row Utc.fromtimestamp
                          Samples.target Samples.catalog
                          Samples.api_two_posts Samples.api_two_posts
                          "Daily Brief" Samples.target Samples.day_before
                          _ Samples.clock Samples.all_stored ∅ _)) k).
  vm_compute. reflexivity.
Defined.

(** ** The exporter *)

Module ExportFacts.
Import DailyExport.

(** The record that [data_by_date] holds for a date and a brand. *)
Local Abbreviation at_day m d b := (dget (m !! d) ∅ !! b).

(** One turn of the grouping loop. *)
Lemma group_step (m : gmap string (gmap string record)) (r : record)
    (d b : string) :
  let m' :=
    match m !! r_date r with
    | None => <[r_date r := ∅]> m
    | Some _ => m
    end in
  at_day (<[r_date r := <[r_brand r := r]> (dget (m' !! r_date r) ∅)]> m')
         d b
  = if String.eqb (r_date r) d && String.eqb (r_brand r) b then Some r
    else at_day m d b.
Proof.
  cbv zeta.
  assert (Hsame :
            dget ((match m !! r_date r with
                   | None => <[r_date r := ∅]> m
                   | Some _ => m
                   end) !! r_date r) ∅
            = dget (m !! r_date r) ∅).
  { destruct (m !! r_date r) as [inner|] eqn:Hm; [now rewrite Hm|].
    now rewrite lookup_insert_eq. }
  rewrite Hsame.
  destruct (String.eqb_spec (r_date r) d) as [<-|Hd]; simpl.
  - rewrite lookup_insert_eq. simpl.
    destruct (String.eqb_spec (r_brand r) b) as [<-|Hb].
    + apply lookup_insert_eq.
    + now rewrite lookup_insert_ne.
  - rewrite lookup_insert_ne by assumption.
    destruct (m !! r_date r); [reflexivity|].
    now rewrite lookup_insert_ne.
Qed.

Lemma group_from (data : list record)
    (m : gmap string (gmap string record)) (d b : string) :
  at_day
    (fold_left
       (fun data_by_date record =>
          let date := r_date record in
          let data_by_date :=
            match data_by_date !! date with
            | None => <[date := ∅]> data_by_date
            | Some _ => data_by_date
            end in
          <[date := <[r_brand record := record]>
                      (dget (data_by_date !! date) ∅)]> data_by_date)
       data m) d b
  = match List.find
            (fun r => String.eqb (r_date r) d && String.eqb (r_brand r) b)
            (rev data) with
    | Some r => Some r
    | None => at_day m d b
    end.
Proof.
  revert m. induction data as [|r data IH]; intros m; [reflexivity|].
  cbn [fold_left rev]. rewrite IH, CoverageFacts.find_over_app.
  destruct (List.find _ (rev data)); [reflexivity|].
  cbn [List.find]. rewrite (group_step m r d b).
  now destruct (String.eqb (r_date r) d && String.eqb (r_brand r) b).
Qed.

(** What the grouping holds for a date and a brand: the last record of
    the data with this date and this brand. *)
Lemma group_by_date_latest (data : list record) (d b : string) :
  at_day (group_by_date data) d b = latest data d b.
Proof.
  unfold group_by_date, latest. rewrite group_from.
  destruct (List.find _ (rev data)); [reflexivity|].
  now rewrite lookup_empty.
Qed.

Lemma blanks_length (n : nat) : length (blanks n) = n.
Proof. apply repeat_length. Qed.


Lemma short_row_length (display_date : string) (i : nat) (brand : string)
    (r : option record) (weekend : bool) :
  length (short_row display_date i brand r weekend) = 17%nat.
Proof. reflexivity. Qed.


(** The brand rows depend on the records of the day through the listed
    brands only. *)
Lemma brand_rows_ext (display_date : string) (weekend : bool)
    (date_data date_data' : gmap string record) (brands : list string)
    (i : nat) :
  (forall b, In b brands -> date_data !! b = date_data' !! b) ->
  brand_rows display_date weekend date_data i brands
  = brand_rows display_date weekend date_data' i brands.
Proof.
  revert i. induction brands as [|brand rest IH]; intros i Hsame;
    [reflexivity|].
  simpl. rewrite (Hsame brand) by now left.
  rewrite (IH (S i)); [reflexivity|]. intros b Hb. apply Hsame. now right.
Qed.





(** Records that fail a test which the search implies are never
    found. *)
Lemma find_filter {A : Type} (f g : A -> bool) (l : list A) :
  (forall a, f a = true -> g a = true) ->
  List.find f (List.filter g l) = List.find f l.
Proof.
  intros Hfg. induction l as [|a l IH]; simpl; [reflexivity|].
  destruct (g a) eqn:Hg; simpl.
  - now rewrite IH.
  - destruct (f a) eqn:Hf; [|exact IH].
    rewrite (Hfg a Hf) in Hg. discriminate.
Qed.

Lemma filter_rev_comm {A : Type} (g : A -> bool) (l : list A) :
  rev (List.filter g l) = List.filter g (rev l).
Proof.
  induction l as [|a l IH]; simpl; [reflexivity|].
  rewrite List.filter_app. simpl.
  destruct (g a); simpl; rewrite IH; [reflexivity|now rewrite app_nil_r].
Qed.

Section Sheet.
Variable strptime : string -> result Z.


Lemma day_rows_ext (dbd dbd' : gmap string (gmap string record))
    (brands : list string) (current : Z) :
  (forall b, In b brands ->
     at_day dbd (Calendar.iso current) b
     = at_day dbd' (Calendar.iso current) b) ->
  day_rows strptime dbd brands current
  = day_rows strptime dbd' brands current.
Proof.
  intros Hsame. unfold day_rows.
  destruct (format_date_display strptime _) as [display|]; simpl;
    [|reflexivity].
  destruct (is_weekend strptime _) as [weekend|]; simpl; [|reflexivity].
  now rewrite (brand_rows_ext display weekend _ _ brands 0 Hsame).
Qed.




Lemma date_rows_ext (fuel : nat) (current end_ : Z)
    (dbd dbd' : gmap string (gmap string record)) (brands : list string)
    (rows : list (list cell)) :
  (forall n b, current <= n <= end_ -> In b brands ->
     at_day dbd (Calendar.iso n) b = at_day dbd' (Calendar.iso n) b) ->
  date_rows strptime fuel current end_ dbd brands rows
  = date_rows strptime fuel current end_ dbd' brands rows.
Proof.
  revert current rows. induction fuel as [|fuel IH]; intros current rows Hs;
    [reflexivity|].
  simpl. destruct (Z.leb_spec current end_) as [Hle|Hgt]; [|reflexivity].
  rewrite (day_rows_ext dbd dbd' brands current)
    by (intros b Hb; apply Hs; [lia|assumption]).
  destruct (day_rows strptime dbd' brands current) as [day|]; simpl;
    [|reflexivity].
  unfold Calendar.add_day.
  destruct (current + 1 <=? Calendar.max_day); simpl; [|reflexivity].
  apply IH. intros n b Hn Hb. apply Hs; [lia|assumption].
Qed.

End Sheet.

End ExportFacts.







(** X16: the export reads, for each day and listed brand, the last
    record of the data with this date and brand, and nothing else: two
    data sets with the same last records give the same rows, and the
    records of brands that are not listed can be removed. *)
Theorem export_reads_latest_listed_records
    (strptime : string -> result Z)
    (start_date end_date platform : string) (brands : list string) :
  (forall data data' : list DailyExport.record,
      (forall d b, In b brands ->
         DailyExport.latest data d b = DailyExport.latest data' d b) ->
      DailyExport.generate_platform_csv strptime data start_date end_date
                                        platform brands
      = DailyExport.generate_platform_csv strptime data' start_date
                                          end_date platform brands)
  /\ (forall data : list DailyExport.record,
        DailyExport.generate_platform_csv strptime data start_date
                                          end_date platform brands
        = DailyExport.generate_platform_csv strptime
            (List.filter
               (fun r => existsb (String.eqb (DailyExport.r_brand r)) brands)
               data)
            start_date end_date platform brands).
Proof.
  assert (Hsame :
            forall data data' : list DailyExport.record,
              (forall d b, In b brands ->
                 DailyExport.latest data d b
                 = DailyExport.latest data' d b) ->
              DailyExport.generate_platform_csv strptime data start_date
                end_date platform brands
              = DailyExport.generate_platform_csv strptime data'
                  start_date end_date platform brands).
  { intros data data' Hlatest.
    unfold DailyExport.generate_platform_csv.
    destruct (strptime start_date) as [first|]; simpl; [|reflexivity].
    destruct (strptime end_date) as [last|]; simpl; [|reflexivity].
    apply ExportFacts.date_rows_ext. intros n b _ Hb.
    rewrite !ExportFacts.group_by_date_latest. now apply Hlatest. }
  split; [exact Hsame|].
  intros data. apply Hsame. intros d b Hb.
  unfold DailyExport.latest.
  rewrite ExportFacts.filter_rev_comm, ExportFacts.find_filter;
    [reflexivity|].
  intros r Hr. apply andb_prop in Hr as [_ Hr].
  apply String.eqb_eq in Hr. apply existsb_exists.
  exists b. split; [exact Hb|]. now apply String.eqb_eq.
Qed.

(** X16 on a table with an earlier record of the same day and brand and
    a record of a brand that is not listed. *)
Lemma export_reads_latest_listed_records_witness :
  DailyExport.generate_platform_csv Samples.parse_iso
    [Samples.stored_earlier; Samples.stored_unlisted;
     Samples.stored_friday] "2025-10-17" "2025-10-17" "Beehiiv"
    DailyExport.BEEHIIV_BRANDS
  = DailyExport.generate_platform_csv Samples.parse_iso
      [Samples.stored_friday] "2025-10-17" "2025-10-17" "Beehiiv"
      DailyExport.BEEHIIV_BRANDS.
Proof.
  apply (proj1 (export_reads_latest_listed_records Samples.parse_iso
                  "2025-10-17" "2025-10-17" "Beehiiv"
                  DailyExport.BEEHIIV_BRANDS)).
  intros d b Hb. unfold DailyExport.latest. cbn [rev app List.find].
  change (DailyExport.r_date Samples.stored_friday) with "2025-10-17".
  change (DailyExport.r_date Samples.stored_unlisted) with "2025-10-17".
  change (DailyExport.r_date Samples.stored_earlier) with "2025-10-17".
  change (DailyExport.r_brand Samples.stored_friday) with "News Flash".
  change (DailyExport.r_brand Samples.stored_unlisted) with "Daily Brief".
  change (DailyExport.r_brand Samples.stored_earlier) with "News Flash".
  destruct (String.eqb "2025-10-17" d); cbn [andb]; [|reflexivity].
  destruct (String.eqb "News Flash" b); [reflexivity|].
  destruct (String.eqb_spec "Daily Brief" b) as [<-|]; [|reflexivity].
  exfalso. cbv in Hb. intuition discriminate.
Defined.

(** X17: the brands agree across the files.  Every record collected
    under the shipped configuration carries a brand that the exporter
    lists for its platform, and the exporter lists no other brand. *)
Theorem collected_brands_are_exported :
  (forall (get_yesterday get_before
             : Z -> http_result TinyEmail.campaigns_page)
          (api_brand : string) (yesterday day_before : date)
          (records : list metric),
      In api_brand CollectorMain.API_KEYS ->
      TinyEmail.collect_key CollectorMain.BRAND_NAMES get_yesterday
        get_before api_brand yesterday day_before = Ok records ->
      Forall
        (fun m =>
           m_Platform m = "TinyEmail"
           /\ In (m_Brand m) DailyExport.TINYEMAIL_BRANDS)
        records)
  /\ (forall (fromtimestamp : Z -> result date) (now : date)
             (publications : gmap string Beehiiv.publication)
             (get_before get_yesterday
                : string -> Z -> http_result Beehiiv.posts_page)
             (group_name brand_name : string) (brands : list string)
             (yesterday day_before_yesterday : date)
             (records : list metric),
        In (group_name, brands) CollectorMain.BEEHIIV_GROUPS ->
        In brand_name brands ->
        Beehiiv.collect_brand fromtimestamp now publications get_before
          get_yesterday brand_name yesterday day_before_yesterday
        = Ok records ->
        Forall
          (fun m =>
             m_Platform m = "Beehiiv"
             /\ In (m_Brand m) DailyExport.BEEHIIV_BRANDS)
          records)
  /\ (forall b, In b DailyExport.TINYEMAIL_BRANDS ->
        exists api_brand segment,
          In api_brand CollectorMain.API_KEYS
          /\ (segment = "AM" \/ segment = "PM")
          /\ b = dget (CollectorMain.BRAND_NAMES !! api_brand) api_brand
                 +:+ " " +:+ segment)
  /\ (forall b, In b DailyExport.BEEHIIV_BRANDS ->
        exists group_name brands,
          In (group_name, brands) CollectorMain.BEEHIIV_GROUPS
          /\ In b brands).
Proof.
  split; [|split; [|split]].
  - intros gy gb api_brand yesterday day_before records Hkey Hcollect.
    apply CoverageFacts.collect_key_identity in Hcollect.
    eapply Forall_impl; [exact Hcollect|].
    intros m (segment & Hseg & _ & Hbrand & Hplatform & _).
    split; [exact Hplatform|]. rewrite Hbrand.
    simpl in Hkey.
    destruct Hkey as [<-|[<-|[<-|[<-|[]]]]];
      destruct Hseg as [-> | ->]; vm_compute; tauto.
  - intros ft now pubs gb gy group_name brand_name brands yesterday dby
      records Hgroup Hbrand Hcollect.
    apply CoverageFacts.collect_brand_identity in Hcollect.
    eapply Forall_impl; [exact Hcollect|].
    intros m (_ & Hb & Hplatform & _).
    split; [exact Hplatform|]. rewrite Hb.
    simpl in Hgroup.
    destruct Hgroup as [[= <- <-]|[[= <- <-]|[]]]; simpl in Hbrand;
      repeat destruct Hbrand as [<-|Hbrand]; try contradiction;
      simpl; tauto.
  - intros b Hb. simpl in Hb.
    destruct Hb as [<-|[<-|[<-|[<-|[<-|[<-|[<-|[<-|[]]]]]]]]].
    + exists "AC", "AM". simpl. split; [tauto|]. split; [tauto|reflexivity].
    + exists "AC", "PM". simpl. split; [tauto|]. split; [tauto|reflexivity].
    + exists "CD", "AM". simpl. split; [tauto|]. split; [tauto|reflexivity].
    + exists "CD", "PM". simpl. split; [tauto|]. split; [tauto|reflexivity].
    + exists "WR", "AM". simpl. split; [tauto|]. split; [tauto|reflexivity].
    + exists "WR", "PM". simpl. split; [tauto|]. split; [tauto|reflexivity].
    + exists "PW", "AM". simpl. split; [tauto|]. split; [tauto|reflexivity].
    + exists "PW", "PM". simpl. split; [tauto|]. split; [tauto|reflexivity].
  - intros b Hb. simpl in Hb.
    destruct Hb as [<-|[<-|[<-|[<-|[<-|[]]]]]].
    + exists "group2", ["Keeping Up With America"; "News Stand";
                        "News Flash"]. simpl. tauto.
    + exists "group1", ["Americans Daily Digest"; "Republicans Report"].
      simpl. tauto.
    + exists "group1", ["Americans Daily Digest"; "Republicans Report"].
      simpl. tauto.
    + exists "group2", ["Keeping Up With America"; "News Stand";
                        "News Flash"]. simpl. tauto.
    + exists "group2", ["Keeping Up With America"; "News Stand";
                        "News Flash"]. simpl. tauto.
Qed.

(** X17 on the two PM campaigns of the samples, collected under the key
    "AC". *)
Lemma collected_brands_are_exported_witness :
  exists records,
    TinyEmail.collect_key CollectorMain.BRAND_NAMES Samples.tiny_two_pm
      Samples.tiny_day_before "AC" Samples.target Samples.day_before
    = Ok records
    /\ map m_Brand records
       = ["American Conservative PM"; "American Conservative PM"]
    /\ Forall
         (fun m =>
            m_Platform m = "TinyEmail"
            /\ In (m_Brand m) DailyExport.TINYEMAIL_BRANDS)
         records.
Proof.
  eexists. split; [vm_compute; reflexivity|]. split; [reflexivity|].
  destruct collected_brands_are_exported as [Htiny _].
  apply (Htiny Samples.tiny_two_pm Samples.tiny_day_before "AC"
           Samples.target Samples.day_before).
  - simpl. tauto.
  - vm_compute. reflexivity.
Defined.

(** ** The daily run *)

Module AutomationFacts.
Import PyStr DailyAutomation.

Lemma append_nil_r (s : string) : s +:+ "" = s.
Proof.
  induction s as [|c s IH]; [reflexivity|].
  change (String c (s +:+ "") = String c s). now rewrite IH.
Qed.

Lemma substr_in_cons (needle : string) (c : ascii) (rest : string) :
  substr_in needle (String c rest)
  = String.prefix needle (String c rest) || substr_in needle rest.
Proof. reflexivity. Qed.

(** A string without the separator is one piece. *)
Lemma split_without (sep s piece : string) :
  substr_in sep s = false ->
  split_from sep 0 piece s = [piece +:+ s].
Proof.
  revert piece. induction s as [|c rest IH]; intros piece Hno.
  - simpl. now rewrite append_nil_r.
  - rewrite substr_in_cons in Hno.
    apply orb_false_elim in Hno as [Hprefix Hrest].
    cbn [split_from]. rewrite Hprefix, (IH _ Hrest).
    now rewrite PyStrFacts.append_assoc.
Qed.

(** The characters of a matched separator are passed over. *)
Lemma split_skip (sep x rest piece : string) :
  split_from sep (String.length x) piece (x +:+ rest)
  = split_from sep 0 piece rest.
Proof.
  induction x as [|c x IH]; [now destruct rest|].
  change (String c x +:+ rest) with (String c (x +:+ rest)).
  cbn [split_from String.length]. exact IH.
Qed.

(** A string that starts with the separator: a piece ends there. *)
Lemma split_at_sep (c : ascii) (sep rest piece : string) :
  split_from (String c sep) 0 piece (String c sep +:+ rest)
  = piece :: split_from (String c sep) 0 "" rest.
Proof.
  change (String c sep +:+ rest) with (String c (sep +:+ rest)).
  cbn [split_from].
  assert (Hprefix : String.prefix (String c sep) (String c (sep +:+ rest))
                    = true).
  { apply PyStrFacts.prefix_iff. now exists rest. }
  rewrite Hprefix. f_equal.
  replace (String.length (String c sep) - 1)%nat with (String.length sep)
    by (simpl; lia).
  apply split_skip.
Qed.

(** The lines before the marked one are passed. *)
Lemma exported_path_after (before after : list string) (line : string) :
  Forall (fun l => substr_in "Exported to:" l = false) before ->
  exported_path (before ++ line :: after)
  = exported_path (line :: after).
Proof.
  induction 1 as [|l before Hl _ IH]; [reflexivity|].
  cbn [app exported_path]. now rewrite Hl.
Qed.

(** The line that [export_to_file] prints gives its path back,
    stripped. *)
Lemma exported_path_of_line (path : string) (after : list string) :
  substr_in "Exported to:" path = false ->
  exported_path (("Exported to: " +:+ path) :: after)
  = Some (strip path).
Proof.
  intros Hno. cbn [exported_path].
  assert (Hin : substr_in "Exported to:" ("Exported to: " +:+ path) = true).
  { apply PyStrFacts.substr_in_iff. now exists "", (" " +:+ path). }
  rewrite Hin.
  change ("Exported to: " +:+ path)
    with ("Exported to:" +:+ String " " path).
  unfold split. rewrite split_at_sep.
  rewrite split_without.
  - reflexivity.
  - rewrite substr_in_cons, Hno. reflexivity.
Qed.

End AutomationFacts.

(** X18: [run_export] gives back the path that the export printed.
    When the export process ends with code 0 and the first line of its
    output that holds "Exported to:" is the line [export_to_file] prints
    for a path without this marker, [run_export] returns this path
    without the white space around it, ASCII or not; so it returns the
    path itself when no white space surrounds it. *)
Theorem run_export_recovers_printed_path (executable : string)
    (run : list string -> DailyAutomation.outcome)
    (target_date : string) (email : option string)
    (result : DailyAutomation.completed_process)
    (lines_before lines_after : list string) (path : string) :
  run (DailyAutomation.export_command executable target_date email)
  = DailyAutomation.Completed result ->
  DailyAutomation.returncode result = 0 ->
  PyStr.split PyStr.newline (DailyAutomation.stdout result)
  = lines_before ++ ("Exported to: " +:+ path) :: lines_after ->
  Forall (fun line => PyStr.substr_in "Exported to:" line = false)
         lines_before ->
  PyStr.substr_in "Exported to:" path = false ->
  DailyAutomation.run_export executable run target_date email
  = Some (PyStr.strip path)
  /\ (PyStr.strip path = path ->
      DailyAutomation.run_export executable run target_date email
      = Some path).
Proof.
  intros Hrun Hcode Hlines Hbefore Hpath.
  assert (Hexport :
            DailyAutomation.run_export executable run target_date email
            = Some (PyStr.strip path)).
  { unfold DailyAutomation.run_export. rewrite Hrun, Hcode, Hlines.
    cbn [Z.eqb].
    rewrite AutomationFacts.exported_path_after by assumption.
    now apply AutomationFacts.exported_path_of_line. }
  split; [exact Hexport|]. intros Hstrip. now rewrite Hexport, Hstrip.
Qed.

(** X18 on the output of an export with an e-mail, and on an output
    whose path stands between a no-break space (U+00A0) and an em space
    (U+2003). *)
Lemma run_export_recovers_printed_path_witness :
  DailyAutomation.run_export "python" Samples.run_ok "2025-10-15"
    (Some "ops@example.com")
  = Some "exports/newsletter_2025-10-15.csv"
  /\ DailyAutomation.run_export "python" Samples.run_wrapped "2025-10-15"
       None
     = Some "exports/n.csv".
Proof.
  split.
  - apply (run_export_recovers_printed_path "python" Samples.run_ok
             "2025-10-15" (Some "ops@example.com")
             (DailyAutomation.mkprocess 0 Samples.export_output "")
             ["Exporting newsletter data from 2025-10-15 to 2025-10-15...";
              "Fetching TinyEmail data..."]
             ["Email sent successfully to ops@example.com"; ""]
             "exports/newsletter_2025-10-15.csv").
    + reflexivity.
    + reflexivity.
    + vm_compute. reflexivity.
    + repeat constructor.
    + reflexivity.
    + reflexivity.
  - change (Some "exports/n.csv")
      with (Some (PyStr.strip Samples.wrapped_path)).
    apply (run_export_recovers_printed_path "python" Samples.run_wrapped
             "2025-10-15" None
             (DailyAutomation.mkprocess 0
                ("Exported to: " +:+ Samples.wrapped_path) "")
             [] [] Samples.wrapped_path).
    + reflexivity.
    + reflexivity.
    + vm_compute. reflexivity.
    + constructor.
    + vm_compute. reflexivity.
Defined.



(** ** The configuration and the dates of the collector *)

Module MainFacts.
Import CollectorMain.

(** The loop over a range appends the days from [current] to [end_]. *)
Lemma date_range_days (fuel : nat) :
  forall (current end_ : Z) (dates : list string),
    fuel = Z.to_nat (end_ - current + 1) ->
    end_ < Calendar.max_day ->
    date_range fuel current end_ dates
    = Ok (dates
          ++ map (fun i => Calendar.iso (current + Z.of_nat i))
               (seq 0 fuel)).
Proof.
  induction fuel as [|fuel IH]; intros current end_ dates Hfuel Hmax.
  - cbn. now rewrite app_nil_r.
  - cbn [date_range].
    assert (Hle : current <= end_) by lia.
    apply Z.leb_le in Hle. rewrite Hle.
    unfold Calendar.add_day.
    assert (Hnext : (current + 1 <=? Calendar.max_day) = true)
      by (apply Z.leb_le; apply Z.leb_le in Hle; lia).
    rewrite Hnext. cbn [bind].
    rewrite IH by (apply Z.leb_le in Hle; lia).
    cbn [seq map]. rewrite Z.add_0_r, <- app_assoc. cbn [app].
    do 3 f_equal. rewrite <- seq_shift, map_map.
    apply map_ext. intros i. f_equal. lia.
Qed.

(** A range that ends on the last day of the calendar raises. *)
Lemma date_range_overflow (fuel : nat) :
  forall (current : Z) (dates : list string),
    fuel = Z.to_nat (Calendar.max_day - current + 1) ->
    current <= Calendar.max_day ->
    date_range fuel current Calendar.max_day dates = Raise OverflowError.
Proof.
  induction fuel as [|fuel IH]; intros current dates Hfuel Hle.
  - lia.
  - cbn [date_range].
    pose proof Hle as Hleb. apply Z.leb_le in Hleb. rewrite Hleb.
    unfold Calendar.add_day.
    destruct (Z.leb_spec (current + 1) Calendar.max_day) as [Hnext|Hnext].
    + cbn [bind]. apply IH; lia.
    + reflexivity.
Qed.

End MainFacts.

(** X20: [validate_config] reports the required variables that are unset
    or empty, and only these.  The list [missing] is the list of the
    eight variables that the configuration reads, in the order
    SUPABASE_URL, SUPABASE_KEY, the four TinyEmail keys, the two Beehiiv
    keys, without those that hold a non-empty value; so the collector
    goes on (the list is empty) exactly when each of the eight holds a
    non-empty value, and no other variable of the environment matters. *)
Theorem validate_config_reports_unset_variables
    (getenv : string -> option string) :
  CollectorMain.validate_config getenv
  = List.filter (fun v => negb (CollectorMain.given (getenv v)))
      CollectorMain.required_variables
  /\ (CollectorMain.validate_config getenv = []
      <-> forall v, In v CollectorMain.required_variables ->
                    exists value, getenv v = Some value /\ value <> "")
  /\ (forall getenv' : string -> option string,
        (forall v, In v CollectorMain.required_variables ->
                   getenv' v = getenv v) ->
        CollectorMain.validate_config getenv'
        = CollectorMain.validate_config getenv).
Proof.
  assert (Hlist :
            forall g : string -> option string,
              CollectorMain.validate_config g
              = List.filter (fun v => negb (CollectorMain.given (g v)))
                  CollectorMain.required_variables).
  { intros g. unfold CollectorMain.validate_config,
      CollectorMain.SUPABASE_URL, CollectorMain.SUPABASE_KEY,
      CollectorMain.TINYEMAIL_API_KEYS, CollectorMain.required_variables.
    cbn [fold_left List.filter].
    change (CollectorMain.BEEHIIV_API_KEYS g !! "group1")
      with (Some (g "BEEHIIV_API_KEY_GROUP1")).
    change (CollectorMain.BEEHIIV_API_KEYS g !! "group2")
      with (Some (g "BEEHIIV_API_KEY_GROUP2")).
    cbn [dget].
    change (dget (CollectorMain.tiny_mapping !! "AC") "")
      with "TINYEMAIL_API_KEY_AC".
    change (dget (CollectorMain.tiny_mapping !! "CD") "")
      with "TINYEMAIL_API_KEY_CD".
    change (dget (CollectorMain.tiny_mapping !! "WR") "")
      with "TINYEMAIL_API_KEY_WR".
    change (dget (CollectorMain.tiny_mapping !! "PW") "")
      with "TINYEMAIL_API_KEY_PW".
    change ("BEEHIIV_API_KEY_" +:+ PyStr.upper "group1")
      with "BEEHIIV_API_KEY_GROUP1".
    change ("BEEHIIV_API_KEY_" +:+ PyStr.upper "group2")
      with "BEEHIIV_API_KEY_GROUP2".
    destruct (CollectorMain.given (g "SUPABASE_URL"));
      destruct (CollectorMain.given (g "SUPABASE_KEY"));
      destruct (CollectorMain.given (g "TINYEMAIL_API_KEY_AC"));
      destruct (CollectorMain.given (g "TINYEMAIL_API_KEY_CD"));
      destruct (CollectorMain.given (g "TINYEMAIL_API_KEY_WR"));
      destruct (CollectorMain.given (g "TINYEMAIL_API_KEY_PW"));
      destruct (CollectorMain.given (g "BEEHIIV_API_KEY_GROUP1"));
      destruct (CollectorMain.given (g "BEEHIIV_API_KEY_GROUP2"));
      vm_compute; reflexivity. }
  split; [apply Hlist|]. split.
  - rewrite Hlist. split.
    + intros Hnone v Hv.
      destruct (CollectorMain.given (getenv v)) eqn:Hgiven.
      * unfold CollectorMain.given in Hgiven.
        destruct (getenv v) as [value|]; [|discriminate].
        exists value. split; [reflexivity|]. intros ->. discriminate.
      * assert (Hin : In v (List.filter
                              (fun v => negb (CollectorMain.given (getenv v)))
                              CollectorMain.required_variables)).
        { apply filter_In. split; [exact Hv|]. now rewrite Hgiven. }
        rewrite Hnone in Hin. destruct Hin.
    + intros Hall.
      destruct (List.filter _ _) as [|v rest] eqn:Hfilter; [reflexivity|].
      assert (Hin : In v (v :: rest)) by now left.
      rewrite <- Hfilter in Hin. apply filter_In in Hin as [Hv Hnot].
      destruct (Hall v Hv) as (value & Hvalue & Hne).
      rewrite Hvalue in Hnot. cbn in Hnot.
      destruct (String.eqb_spec value ""); [contradiction|discriminate].
  - intros getenv' Hsame. rewrite !Hlist.
    apply filter_ext_in. intros v Hv. now rewrite Hsame.
Qed.

(** X21: the dates that the collector processes.  With --start-date and
    --end-date both given and parsed to the days [start] and [end_],
    the last one before 9999-12-31, the dates are the days from [start]
    to [end_] in order, both included, and none when [end_] precedes
    [start]; a range that ends on 9999-12-31 raises OverflowError
    after its last day.  When one of the two bounds is missing or empty
    the other is ignored: the dates are the single --date as given,
    else yesterday. *)
Theorem range_needs_both_bounds (strptime : string -> result Z)
    (args : CollectorMain.arguments) (yesterday : string) :
  (forall first last start end_,
     CollectorMain.start_date args = Some first -> first <> "" ->
     CollectorMain.end_date args = Some last -> last <> "" ->
     strptime first = Ok start -> strptime last = Ok end_ ->
     (end_ < Calendar.max_day ->
      CollectorMain.dates_to_collect strptime args yesterday
      = Ok (map (fun i => Calendar.iso (start + Z.of_nat i))
              (seq 0 (Z.to_nat (end_ - start + 1)))))
     /\ (end_ < start ->
         CollectorMain.dates_to_collect strptime args yesterday = Ok [])
     /\ (start <= end_ -> end_ = Calendar.max_day ->
         CollectorMain.dates_to_collect strptime args yesterday
         = Raise OverflowError))
  /\ (CollectorMain.given (CollectorMain.start_date args) = false
      \/ CollectorMain.given (CollectorMain.end_date args) = false ->
      CollectorMain.dates_to_collect strptime args yesterday
      = Ok [if CollectorMain.given (CollectorMain.date args)
            then dget (CollectorMain.date args) ""
            else yesterday]).
Proof.
  split.
  - intros first last start end_ Hfirst Hnf Hlast Hnl Hstart Hend.
    unfold CollectorMain.dates_to_collect.
    rewrite Hfirst, Hlast. cbn [CollectorMain.given dget].
    destruct (String.eqb_spec first "") as [|_]; [contradiction|].
    destruct (String.eqb_spec last "") as [|_]; [contradiction|].
    cbn [negb andb]. rewrite Hstart, Hend. cbn [bind].
    split; [|split].
    + intros Hmax.
      now rewrite (MainFacts.date_range_days _ start end_ []) by easy.
    + intros Hlt.
      replace (Z.to_nat (end_ - start + 1)) with 0%nat by lia.
      reflexivity.
    + intros Hle ->. now apply MainFacts.date_range_overflow.
  - intros Hlone. unfold CollectorMain.dates_to_collect.
    assert (Hboth :
              CollectorMain.given (CollectorMain.start_date args)
              && CollectorMain.given (CollectorMain.end_date args) = false).
    { destruct Hlone as [-> | ->]; [reflexivity|apply andb_false_r]. }
    rewrite Hboth.
    now destruct (CollectorMain.given (CollectorMain.date args)).
Qed.

(** X21 on the range from Friday 2025-10-17 to Saturday 2025-10-18,
    and on a start date given without an end date. *)
Lemma range_needs_both_bounds_witness :
  CollectorMain.dates_to_collect Samples.parse_iso
    (CollectorMain.mkargs None (Some "2025-10-17") (Some "2025-10-18")
       false) "2025-11-03"
  = Ok ["2025-10-17"; "2025-10-18"]
  /\ CollectorMain.dates_to_collect Samples.parse_iso
       (CollectorMain.mkargs None (Some "2025-10-17") None false)
       "2025-11-03"
     = Ok ["2025-11-03"].
Proof.
  split.
  - apply (proj1 (proj1 (range_needs_both_bounds Samples.parse_iso
                           (CollectorMain.mkargs None (Some "2025-10-17")
                              (Some "2025-10-18") false) "2025-11-03")
                    "2025-10-17" "2025-10-18" Samples.friday
                    Samples.saturday eq_refl ltac:(discriminate)
                    eq_refl ltac:(discriminate) eq_refl eq_refl)).
    reflexivity.
  - apply (proj2 (range_needs_both_bounds Samples.parse_iso
                    (CollectorMain.mkargs None (Some "2025-10-17") None
                       false) "2025-11-03")).
    right. reflexivity.
Defined.
